(** * friday-screener: the fundamental scoring engine

    A shallow embedding of the rule-based scoring engine
    ([src/analyzers/fundamental_analyzer.py]) together with the data
    classes it reads and writes ([src/models], [src/config/settings.py])
    and the trend helper ([src/utils/helpers.py]).

    Conventions of the embedding.
    - A Python [float] is an exact rational [Q]: every comparison of the
      engine is a comparison of rationals, and binary rounding of the
      arithmetic is not represented.  [int] is [Z].  The one place where
      the rounding of a sum decides the outcome, the validation of the
      weights, is also given at double precision ([Binary64]).
    - [Optional[T]] is [option T]; a [dict] used as a map is a [gmap].
    - An f-string is kept as its list of literal and formatted parts
      ([message]), so that the text a rule records stays inspectable
      without a float printer.
    - A mutated object is threaded explicitly: the category scorers take
      the shared [ScreeningResult] and give it back.
    - Logging and the wall-clock stamp [screened_at] are left out: no
      score, rating or finding depends on them. *)

From Stdlib Require Import QArith Qround Lqa ZArith String Ascii.
From Stdlib Require Import PrimFloat FloatOps SpecFloat.
From stdpp Require Import base gmap list strings sorting.

Set Warnings "-inexact-float".

Open Scope Q_scope.

(* ================================================================== *)
(** ** Numbers *)

Module Num.

Definition leb (x y : Q) : bool := Qle_bool x y.
Definition ltb (x y : Q) : bool := negb (Qle_bool y x).
Definition geb (x y : Q) : bool := leb y x.
Definition gtb (x y : Q) : bool := ltb y x.

(** [x or 0.0]: a float is falsy exactly when it is zero. *)
Definition truthy (x : Q) : bool := negb (Qeq_bool x 0).

(** Nearest integer, ties to the even one. *)
Definition round_half_even (x : Q) : Z :=
  let f := Qfloor x in
  match Qcompare (x - inject_Z f) (1 # 2) with
  | Lt => f
  | Gt => (f + 1)%Z
  | Eq => if Z.even f then f else (f + 1)%Z
  end.

Definition pow10 (n : nat) : Q := inject_Z (10 ^ Z.of_nat n).

(** The built-in [round(x, ndigits)]. *)
Definition round (x : Q) (ndigits : nat) : Q :=
  inject_Z (round_half_even (x * pow10 ndigits)) / pow10 ndigits.

Definition min (x y : Q) : Q := if leb x y then x else y.

End Num.

Notation "x <=? y" := (Num.leb x y) (at level 70, no associativity) : Q_scope.
Notation "x <? y" := (Num.ltb x y) (at level 70, no associativity) : Q_scope.
Notation "x >=? y" := (Num.geb x y) (at level 70, no associativity) : Q_scope.
Notation "x >? y" := (Num.gtb x y) (at level 70, no associativity) : Q_scope.

(* ================================================================== *)
(** ** Text *)

(** One part of an f-string. *)
Inductive fpart : Type :=
| Lit (s : string)            (* literal text *)
| Fixed (digits : nat) (x : Q) (* [{x:.<digits>f}] *)
| Repr (x : Q)                (* [{x}] of a float *)
| ReprInt (n : Z).            (* [{n}] of an int *)

Definition message : Type := list fpart.

(** A plain string literal. *)
Definition text (s : string) : message := [Lit s].

(** Errors a constructor can raise. *)
Inductive exn : Type :=
| ValueError (msg : message).

Inductive outcome (A : Type) : Type :=
| Returns (a : A)
| Raises (e : exn).
Arguments Returns {A} a.
Arguments Raises {A} e.

(* ================================================================== *)
(** ** config/settings.py *)

Module Settings.

Record ValuationCriteria : Type := {
  pe_ratio_preferred : Q;
  pe_ratio_max : Q;
  pbv_preferred : Q;
  pbv_max : Q;
  market_cap_preferred : Q;
  market_cap_min : Q
}.

Definition default_ValuationCriteria : ValuationCriteria := {|
  pe_ratio_preferred := 5;
  pe_ratio_max := 15;
  pbv_preferred := 1;
  pbv_max := 2;
  market_cap_preferred := 100000000000000;
  market_cap_min := 1000000000000
|}.

Record ProfitabilityCriteria : Type := {
  eps_growth_years : Z;
  eps_growth_min_positive : bool;
  gpm_min : Q;
  gpm_preferred : Q;
  roe_min : Q;
  roe_preferred : Q;
  ocf_positive : bool;
  fcf_positive : bool
}.

Definition default_ProfitabilityCriteria : ProfitabilityCriteria := {|
  eps_growth_years := 5;
  eps_growth_min_positive := true;
  gpm_min := 20;
  gpm_preferred := 30;
  roe_min := 10;
  roe_preferred := 15;
  ocf_positive := true;
  fcf_positive := true
|}.

Record RiskCriteria : Type := {
  debt_to_equity_max : Q;
  debt_to_equity_preferred : Q;
  beta_max : option Q
}.

Definition default_RiskCriteria : RiskCriteria := {|
  debt_to_equity_max := 1;
  debt_to_equity_preferred := 1 # 2;
  beta_max := Some (3 # 2)
|}.

Record DividendCriteria : Type := {
  dividend_yield_min : Q;
  dividend_yield_preferred : Q;
  require_dividend : bool
}.

Definition default_DividendCriteria : DividendCriteria := {|
  dividend_yield_min := 2;
  dividend_yield_preferred := 4;
  require_dividend := true
|}.

Record ScreeningCriteria : Type := {
  valuation : ValuationCriteria;
  profitability : ProfitabilityCriteria;
  risk : RiskCriteria;
  dividend : DividendCriteria
}.

Definition DEFAULT_CRITERIA : ScreeningCriteria := {|
  valuation := default_ValuationCriteria;
  profitability := default_ProfitabilityCriteria;
  risk := default_RiskCriteria;
  dividend := default_DividendCriteria
|}.

Record ScoringWeights : Type := {
  valuation_weight : Q;
  profitability_weight : Q;
  risk_weight : Q;
  dividend_weight : Q
}.

Definition weight_total (self : ScoringWeights) : Q :=
  valuation_weight self + profitability_weight self
  + risk_weight self + dividend_weight self.

(** The validation run by the dataclass after the fields are stored, on
    the exact values of the fields; [Binary64.__post_init__] is the same
    validation with the sum taken at double precision. *)
Definition __post_init__ (self : ScoringWeights) : outcome unit :=
  let total := weight_total self in
  if negb ((99 # 100 <=? total) && (total <=? 101 # 100))
  then Raises (ValueError [Lit "Weights must sum to 1.0, got "; Repr total])
  else Returns tt.

(** [ScoringWeights(v, p, r, d)]: store the four fields, then validate. *)
Definition new_ScoringWeights (v p r d : Q) : outcome ScoringWeights :=
  let self := {| valuation_weight := v; profitability_weight := p;
                 risk_weight := r; dividend_weight := d |} in
  match __post_init__ self with
  | Returns _ => Returns self
  | Raises e => Raises e
  end.

(** [ScoringWeights()] with the declared defaults; the call succeeds
    (see [DEFAULT_WEIGHTS_constructed]). *)
Definition DEFAULT_WEIGHTS : ScoringWeights := {|
  valuation_weight := 25 # 100;
  profitability_weight := 35 # 100;
  risk_weight := 20 # 100;
  dividend_weight := 20 # 100
|}.

End Settings.

(* ================================================================== *)
(** ** config/settings.py at double precision

    The weights as the interpreter holds them: four binary64 numbers,
    added and compared as binary64 numbers. *)

Module Binary64.

(** The rational a finite binary64 number stands for (0 for the
    infinities and NaN, which stand for none). *)
Definition to_Q (x : float) : Q :=
  match Prim2SF x with
  | S754_finite negative mantissa exponent =>
      let magnitude :=
        if (0 <=? exponent)%Z
        then inject_Z (Z.pos mantissa * 2 ^ exponent)
        else inject_Z (Z.pos mantissa) / inject_Z (2 ^ (- exponent)) in
      if negative then - magnitude else magnitude
  | _ => 0
  end.

Record ScoringWeights : Type := {
  valuation_weight : float;
  profitability_weight : float;
  risk_weight : float;
  dividend_weight : float
}.

(** The sum as the source writes it, added from the left. *)
Definition weight_total (self : ScoringWeights) : float :=
  (valuation_weight self + profitability_weight self
   + risk_weight self + dividend_weight self)%float.

(** [0.99 <= total <= 1.01] *)
Definition in_tolerance (total : float) : bool :=
  ((0.99 <=? total) && (total <=? 1.01))%float.

(** What a constructor call comes to: the object, or the [ValueError]
    raised with the offending total in its message. *)
Inductive construction : Type :=
| Constructed (self : ScoringWeights)
| ValueError_total (total : float).

Definition __post_init__ (self : ScoringWeights) : option float :=
  let total := weight_total self in
  if negb (in_tolerance total) then Some total else None.

(** [ScoringWeights(v, p, r, d)] *)
Definition new_ScoringWeights (v p r d : float) : construction :=
  let self := {| valuation_weight := v; profitability_weight := p;
                 risk_weight := r; dividend_weight := d |} in
  match __post_init__ self with
  | None => Constructed self
  | Some total => ValueError_total total
  end.

(** [self.valuation_weight = x].  The dataclass is not frozen: the
    assignment stores the value and runs no validation. *)
Definition set_valuation_weight (x : float) (self : ScoringWeights)
  : ScoringWeights :=
  {| valuation_weight := x;
     profitability_weight := profitability_weight self;
     risk_weight := risk_weight self;
     dividend_weight := dividend_weight self |}.

(** The weights as exact values, as the scoring arithmetic reads them. *)
Definition exact (self : ScoringWeights) : Settings.ScoringWeights :=
  {| Settings.valuation_weight := to_Q (valuation_weight self);
     Settings.profitability_weight := to_Q (profitability_weight self);
     Settings.risk_weight := to_Q (risk_weight self);
     Settings.dividend_weight := to_Q (dividend_weight self) |}.

End Binary64.

(* ================================================================== *)
(** ** models/stock_data.py

    Of each metrics class the fields below are the ones some part of the
    screening reads (the scorers, the completeness test, the quality
    score); the remaining optional fields are never read by the
    screening and are left out. *)

Module Stock.

Record CompanyInfo : Type := {
  ticker : string;
  name : string;
  sector : option string;
  industry : option string
}.

Record ValuationMetrics : Type := {
  market_cap : option Q;
  pe_ratio : option Q;
  forward_pe : option Q;
  price_to_book : option Q
}.

Record ProfitabilityMetrics : Type := {
  eps : option Q;
  gross_margin : option Q;
  operating_margin : option Q;
  profit_margin : option Q;
  roe : option Q;
  eps_history : gmap Z Q
}.

Record CashFlowMetrics : Type := {
  operating_cash_flow : option Q;
  free_cash_flow : option Q
}.

Record LeverageMetrics : Type := {
  debt_to_equity : option Q;
  beta : option Q
}.

Record DividendMetrics : Type := {
  dividend_yield : option Q
}.

Record PriceMetrics : Type := {
  current_price : option Q
}.

Record StockData : Type := {
  company_info : CompanyInfo;
  valuation : ValuationMetrics;
  profitability : ProfitabilityMetrics;
  cash_flow : CashFlowMetrics;
  leverage : LeverageMetrics;
  dividend : DividendMetrics;
  price : PriceMetrics;
  data_quality_score : option Q
}.

(** The defaults of the dataclasses: nothing known. *)
Definition default_ValuationMetrics : ValuationMetrics :=
  {| market_cap := None; pe_ratio := None; forward_pe := None;
     price_to_book := None |}.
Definition default_ProfitabilityMetrics : ProfitabilityMetrics :=
  {| eps := None; gross_margin := None; operating_margin := None;
     profit_margin := None; roe := None; eps_history := ∅ |}.
Definition default_CashFlowMetrics : CashFlowMetrics :=
  {| operating_cash_flow := None; free_cash_flow := None |}.
Definition default_LeverageMetrics : LeverageMetrics :=
  {| debt_to_equity := None; beta := None |}.
Definition default_DividendMetrics : DividendMetrics :=
  {| dividend_yield := None |}.
Definition default_PriceMetrics : PriceMetrics :=
  {| current_price := None |}.

(** [StockData(company_info=ci)]. *)
Definition new_StockData (ci : CompanyInfo) : StockData := {|
  company_info := ci;
  valuation := default_ValuationMetrics;
  profitability := default_ProfitabilityMetrics;
  cash_flow := default_CashFlowMetrics;
  leverage := default_LeverageMetrics;
  dividend := default_DividendMetrics;
  price := default_PriceMetrics;
  data_quality_score := None
|}.

Definition get_ticker (self : StockData) : string :=
  ticker (company_info self).

Definition is_not_None {A : Type} (o : option A) : bool :=
  match o with Some _ => true | None => false end.

Definition has_complete_data (self : StockData) : bool :=
  let required_metrics :=
    [ pe_ratio (valuation self);
      price_to_book (valuation self);
      roe (profitability self);
      gross_margin (profitability self);
      debt_to_equity (leverage self) ] in
  forallb is_not_None required_metrics.

End Stock.


(* ================================================================== *)
(** ** models/screening_result.py *)

Module Result.

Inductive Rating : Type :=
| VERY_STRONG
| STRONG
| FAIR
| WEAK
| VERY_WEAK
| INSUFFICIENT_DATA.

(** A value stored in the [details] of a category. *)
Inductive detail : Type :=
| DFloat (x : Q)
| DBool (b : bool)
| DStr (s : string)
| DHistory (h : gmap Z Q).

Record CategoryScore : Type := {
  category : string;
  score : Q;
  max_score : Q;
  weight : Q;
  passed : bool;
  details : gmap string detail
}.

(** [CategoryScore(category=c, score=s, weight=w)]. *)
Definition new_CategoryScore (c : string) (s w : Q) : CategoryScore :=
  {| category := c; score := s; max_score := 100; weight := w;
     passed := false; details := ∅ |}.

Record ScreeningMetrics : Type := {
  total_score : Q;
  max_possible_score : Q;
  valuation_score : CategoryScore;
  profitability_score : CategoryScore;
  risk_score : CategoryScore;
  dividend_score : CategoryScore
}.

Definition new_ScreeningMetrics : ScreeningMetrics := {|
  total_score := 0;
  max_possible_score := 100;
  valuation_score := new_CategoryScore "Valuation" 0 0;
  profitability_score := new_CategoryScore "Profitability" 0 0;
  risk_score := new_CategoryScore "Risk" 0 0;
  dividend_score := new_CategoryScore "Dividend" 0 0
|}.

Definition get_all_category_scores (self : ScreeningMetrics)
  : list CategoryScore :=
  [ valuation_score self; profitability_score self;
    risk_score self; dividend_score self ].

(** The field [category] of an insight is [insight_category] here, the
    name being taken by [CategoryScore]. *)
Record Insight : Type := {
  insight_category : string;
  severity : string;
  title : string;
  description : message;
  impact : option string
}.

Record ScreeningResult : Type := {
  ticker : string;
  company_name : string;
  sector : option string;
  industry : option string;
  rating : Rating;
  metrics : ScreeningMetrics;
  insights : list Insight;
  red_flags : list message;
  strengths : list message;
  weaknesses : list message;
  key_metrics : gmap string (option Q);
  data_completeness : Q
}.

(** [ScreeningResult(ticker=.., company_name=.., sector=.., industry=..,
    data_completeness=..)]. *)
Definition new_ScreeningResult (t n : string) (s i : option string) (dc : Q)
  : ScreeningResult :=
  {| ticker := t; company_name := n; sector := s; industry := i;
     rating := INSUFFICIENT_DATA; metrics := new_ScreeningMetrics;
     insights := []; red_flags := []; strengths := []; weaknesses := [];
     key_metrics := ∅; data_completeness := dc |}.

(** Assignments to one attribute. *)
Definition set_rating (r : Rating) (self : ScreeningResult) : ScreeningResult :=
  {| ticker := ticker self; company_name := company_name self;
     sector := sector self; industry := industry self;
     rating := r; metrics := metrics self;
     insights := insights self; red_flags := red_flags self;
     strengths := strengths self; weaknesses := weaknesses self;
     key_metrics := key_metrics self;
     data_completeness := data_completeness self |}.

Definition set_metrics (m : ScreeningMetrics) (self : ScreeningResult)
  : ScreeningResult :=
  {| ticker := ticker self; company_name := company_name self;
     sector := sector self; industry := industry self;
     rating := rating self; metrics := m;
     insights := insights self; red_flags := red_flags self;
     strengths := strengths self; weaknesses := weaknesses self;
     key_metrics := key_metrics self;
     data_completeness := data_completeness self |}.

Definition set_key_metrics (k : gmap string (option Q))
  (self : ScreeningResult) : ScreeningResult :=
  {| ticker := ticker self; company_name := company_name self;
     sector := sector self; industry := industry self;
     rating := rating self; metrics := metrics self;
     insights := insights self; red_flags := red_flags self;
     strengths := strengths self; weaknesses := weaknesses self;
     key_metrics := k;
     data_completeness := data_completeness self |}.

Definition set_total_score (t : Q) (m : ScreeningMetrics) : ScreeningMetrics :=
  {| total_score := t; max_possible_score := max_possible_score m;
     valuation_score := valuation_score m;
     profitability_score := profitability_score m;
     risk_score := risk_score m; dividend_score := dividend_score m |}.

Definition set_valuation_score (c : CategoryScore) (m : ScreeningMetrics)
  : ScreeningMetrics :=
  {| total_score := total_score m; max_possible_score := max_possible_score m;
     valuation_score := c;
     profitability_score := profitability_score m;
     risk_score := risk_score m; dividend_score := dividend_score m |}.

Definition set_profitability_score (c : CategoryScore) (m : ScreeningMetrics)
  : ScreeningMetrics :=
  {| total_score := total_score m; max_possible_score := max_possible_score m;
     valuation_score := valuation_score m;
     profitability_score := c;
     risk_score := risk_score m; dividend_score := dividend_score m |}.

Definition set_risk_score (c : CategoryScore) (m : ScreeningMetrics)
  : ScreeningMetrics :=
  {| total_score := total_score m; max_possible_score := max_possible_score m;
     valuation_score := valuation_score m;
     profitability_score := profitability_score m;
     risk_score := c; dividend_score := dividend_score m |}.

Definition set_dividend_score (c : CategoryScore) (m : ScreeningMetrics)
  : ScreeningMetrics :=
  {| total_score := total_score m; max_possible_score := max_possible_score m;
     valuation_score := valuation_score m;
     profitability_score := profitability_score m;
     risk_score := risk_score m; dividend_score := c |}.

(** The four accumulation calls; each appends to one list of [self]. *)
Definition add_insight (c sev t : string) (d : message) (imp : option string)
  (self : ScreeningResult) : ScreeningResult :=
  let insight := {| insight_category := c; severity := sev; title := t;
                    description := d; impact := imp |} in
  {| ticker := ticker self; company_name := company_name self;
     sector := sector self; industry := industry self;
     rating := rating self; metrics := metrics self;
     insights := insights self ++ [insight]; red_flags := red_flags self;
     strengths := strengths self; weaknesses := weaknesses self;
     key_metrics := key_metrics self;
     data_completeness := data_completeness self |}.

Definition add_red_flag (msg : message) (self : ScreeningResult)
  : ScreeningResult :=
  {| ticker := ticker self; company_name := company_name self;
     sector := sector self; industry := industry self;
     rating := rating self; metrics := metrics self;
     insights := insights self; red_flags := red_flags self ++ [msg];
     strengths := strengths self; weaknesses := weaknesses self;
     key_metrics := key_metrics self;
     data_completeness := data_completeness self |}.

Definition add_strength (msg : message) (self : ScreeningResult)
  : ScreeningResult :=
  {| ticker := ticker self; company_name := company_name self;
     sector := sector self; industry := industry self;
     rating := rating self; metrics := metrics self;
     insights := insights self; red_flags := red_flags self;
     strengths := strengths self ++ [msg]; weaknesses := weaknesses self;
     key_metrics := key_metrics self;
     data_completeness := data_completeness self |}.

Definition add_weakness (msg : message) (self : ScreeningResult)
  : ScreeningResult :=
  {| ticker := ticker self; company_name := company_name self;
     sector := sector self; industry := industry self;
     rating := rating self; metrics := metrics self;
     insights := insights self; red_flags := red_flags self;
     strengths := strengths self; weaknesses := weaknesses self ++ [msg];
     key_metrics := key_metrics self;
     data_completeness := data_completeness self |}.

Definition is_strong_fundamentals (self : ScreeningResult) : bool :=
  match rating self with
  | STRONG | VERY_STRONG => true
  | _ => false
  end.

(** The rating of a total score; the method reads
    [self.metrics.total_score] and applies [rating_of_score] to it. *)
Definition rating_of_score (score : Q) : Rating :=
  if score >=? 80 then VERY_STRONG
  else if score >=? 60 then STRONG
  else if score >=? 40 then FAIR
  else if score >=? 20 then WEAK
  else VERY_WEAK.

Definition calculate_rating_from_score (self : ScreeningResult) : Rating :=
  let score := total_score (metrics self) in
  rating_of_score score.

(** [[i for i in self.insights if i.category == category]] *)
Definition get_insights_by_category (category : string)
  (self : ScreeningResult) : list Insight :=
  List.filter (fun i => String.eqb (insight_category i) category)
    (insights self).

(** [[i for i in self.insights if i.severity == severity]] *)
Definition get_insights_by_severity (sev : string)
  (self : ScreeningResult) : list Insight :=
  List.filter (fun i => String.eqb (severity i) sev) (insights self).

End Result.

(* ================================================================== *)
(** ** Methods of [str]

    Text is a sequence of characters.  The character tests and case
    maps below are those of the ASCII range; the properties that rely on
    them are stated for ASCII text. *)

Module Str.

Definition code (c : ascii) : N := N_of_ascii c.

Definition is_ascii_char (c : ascii) : bool := (code c <? 128)%N.

Definition is_ascii (s : string) : bool :=
  forallb is_ascii_char (list_ascii_of_string s).

(** [c.isspace()]: tab to carriage return, the four separators and the
    space. *)
Definition isspace_char (c : ascii) : bool :=
  let n := code c in
  ((9 <=? n) && (n <=? 13) || (28 <=? n) && (n <=? 32))%N.

Definition isalpha_char (c : ascii) : bool :=
  let n := code c in
  ((65 <=? n) && (n <=? 90) || (97 <=? n) && (n <=? 122))%N.

Definition upper_char (c : ascii) : ascii :=
  let n := code c in
  if ((97 <=? n) && (n <=? 122))%N then ascii_of_N (n - 32) else c.

Fixpoint upper (s : string) : string :=
  match s with
  | EmptyString => EmptyString
  | String c s' => String (upper_char c) (upper s')
  end.

(** [s.isalpha()]: at least one character, and letters only. *)
Definition isalpha (s : string) : bool :=
  match s with
  | EmptyString => false
  | _ => forallb isalpha_char (list_ascii_of_string s)
  end.

Fixpoint lstrip (s : string) : string :=
  match s with
  | EmptyString => EmptyString
  | String c s' => if isspace_char c then lstrip s' else s
  end.

Fixpoint rstrip (s : string) : string :=
  match s with
  | EmptyString => EmptyString
  | String c s' =>
      match rstrip s' with
      | EmptyString => if isspace_char c then EmptyString
                       else String c EmptyString
      | r => String c r
      end
  end.

(** [s.strip()] *)
Definition strip (s : string) : string := rstrip (lstrip s).

(** [needle in hay] *)
Fixpoint contains (needle hay : string) : bool :=
  if String.prefix needle hay then true
  else match hay with
       | EmptyString => false
       | String _ hay' => contains needle hay'
       end.

(** [s.split(sep)] for a separator of one character: the pieces between
    the separators, always at least one. *)
Fixpoint split (sep : ascii) (s : string) : list string :=
  match s with
  | EmptyString => [EmptyString]
  | String c s' =>
      if Ascii.eqb c sep then EmptyString :: split sep s'
      else match split sep s' with
           | piece :: pieces => String c piece :: pieces
           | [] => [String c EmptyString]
           end
  end.

End Str.

(* ================================================================== *)
(** ** utils/helpers.py *)

Module Helpers.

Definition normalize_ticker (ticker : string) : string :=
  let ticker := Str.upper (Str.strip ticker) in
  if Str.isalpha ticker && negb (Str.contains "." ticker)
  then (ticker ++ ".JK")%string
  else ticker.

Definition get_ticker_without_suffix (ticker : string) : string :=
  if Str.contains "." ticker
  then hd EmptyString (Str.split "." ticker)
  else ticker.

(** [values[i]]; the loop below only asks for indices in range. *)
Definition item (values : list Q) (i : nat) : Q := default 0 (values !! i).

(** One turn of the loop [for i in range(1, len(values))]. *)
Definition trend_step (values : list Q) (positive_changes : Z) (i : nat) : Z :=
  if item values i >? item values (i - 1)
  then (positive_changes + 1)%Z
  else positive_changes.

Definition is_growing_trend (values : list Q) (min_positive_years : Z) : bool :=
  if (length values <? 2)%nat then false
  else
    let positive_changes :=
      fold_left (trend_step values) (seq 1 (length values - 1)) 0%Z in
    (positive_changes >=? min_positive_years)%Z.

(** The default of the keyword argument. *)
Definition default_min_positive_years : Z := 3.

End Helpers.


(* ================================================================== *)
(** ** Built-ins the analyzer calls *)

Module Builtins.

(** [sorted(d.keys())] on integer keys. *)
Definition sorted_keys (d : gmap Z Q) : list Z :=
  merge_sort Z.le (map fst (map_to_list d)).

(** [d[k]] for a key listed by [sorted_keys]. *)
Definition getitem (d : gmap Z Q) (k : Z) : Q := default 0 (d !! k).

(** [l[-k]] for [1 <= k <= len(l)]. *)
Definition item_from_end (l : list Q) (k : nat) : Q :=
  default 0 (l !! (length l - k)%nat).

Section Sort.
Context {A : Type} (key : A -> Q).

(** Put [x], which stood before every element of [l], into the
    descending list [l]: behind the strictly larger keys and in front of
    the first key that is not larger, so in front of its equals. *)
Fixpoint insert_desc (x : A) (l : list A) : list A :=
  match l with
  | [] => [x]
  | y :: l' => if key y >? key x then y :: insert_desc x l' else x :: y :: l'
  end.

(** [l.sort(key=key, reverse=True)].  The built-in sort is stable, also
    under [reverse=True]; [sort_reverse_unique] below shows that the
    descending stable arrangement of a list is unique, so that the
    algorithm chosen here does not matter. *)
Fixpoint sort_reverse (l : list A) : list A :=
  match l with
  | [] => []
  | x :: l' => insert_desc x (sort_reverse l')
  end.

End Sort.

End Builtins.

(* ================================================================== *)
(** ** analyzers/fundamental_analyzer.py *)

Module Analyzer.

Record FundamentalAnalyzer : Type := {
  criteria : Settings.ScreeningCriteria;
  weights : Settings.ScoringWeights
}.

(** [FundamentalAnalyzer()] *)
Definition default_FundamentalAnalyzer : FundamentalAnalyzer :=
  {| criteria := Settings.DEFAULT_CRITERIA;
     weights := Settings.DEFAULT_WEIGHTS |}.

(** What a category scorer works on: its locals [score] and [details],
    and the [result] object it was handed. *)
Record Frame : Type := {
  score : Result.CategoryScore;
  details : gmap string Result.detail;
  result : Result.ScreeningResult
}.

(** A statement of a scorer changes the frame. *)
Definition Stmt : Type := Frame -> Frame.

Definition then_ (a b : Stmt) : Stmt := fun f => b (a f).
Declare Scope stmt_scope.
Delimit Scope stmt_scope with stmt.
Notation "a ;; b" := (then_ a b)
  (at level 100, b at level 200, right associativity) : stmt_scope.
Local Open Scope stmt_scope.

(** [score.score += n] *)
Definition score_add (n : Q) : Stmt := fun f =>
  let s := score f in
  {| score := {| Result.category := Result.category s;
                 Result.score := Result.score s + n;
                 Result.max_score := Result.max_score s;
                 Result.weight := Result.weight s;
                 Result.passed := Result.passed s;
                 Result.details := Result.details s |};
     details := details f;
     result := result f |}.

(** [details[k] = v] *)
Definition set_detail (k : string) (v : Result.detail) : Stmt := fun f =>
  {| score := score f; details := <[k := v]> (details f);
     result := result f |}.

(** A call of a method of [result]. *)
Definition on_result (m : Result.ScreeningResult -> Result.ScreeningResult)
  : Stmt := fun f =>
  {| score := score f; details := details f; result := m (result f) |}.

Definition add_strength (msg : message) : Stmt :=
  on_result (Result.add_strength msg).
Definition add_weakness (msg : message) : Stmt :=
  on_result (Result.add_weakness msg).
Definition add_red_flag (msg : message) : Stmt :=
  on_result (Result.add_red_flag msg).
Definition add_insight (c sev t : string) (d : message) (imp : string)
  : Stmt :=
  on_result (Result.add_insight c sev t d (Some imp)).

(** [score.details = details; score.passed = score.score >= bar] *)
Definition close (bar : Q) : Stmt := fun f =>
  let s := score f in
  {| score := {| Result.category := Result.category s;
                 Result.score := Result.score s;
                 Result.max_score := Result.max_score s;
                 Result.weight := Result.weight s;
                 Result.passed := Result.score s >=? bar;
                 Result.details := details f |};
     details := details f;
     result := result f |}.

(** Enter a scorer with a fresh [score] and empty [details], run its
    body, return [score]; [result] is given back changed. *)
Definition scorer (c : string) (w : Q) (body : Stmt)
  (r : Result.ScreeningResult)
  : Result.CategoryScore * Result.ScreeningResult :=
  let f := body {| score := Result.new_CategoryScore c 0 w;
                   details := ∅; result := r |} in
  (score f, result f).

(** [if x is not None and x > 0: .. else: ..] *)
Definition if_positive (x : option Q) (yes : Q -> Stmt) (no : Stmt) : Stmt :=
  match x with
  | Some v => if v >? 0 then yes v else no
  | None => no
  end.

(** [x * 100 if x <= 1 else x] *)
Definition as_percent (x : Q) : Q := if x <=? 1 then x * 100 else x.

Section Scorers.
Variable self : FundamentalAnalyzer.

Let vc := Settings.valuation (criteria self).
Let pc := Settings.profitability (criteria self).
Let rc := Settings.risk (criteria self).
Let dc := Settings.dividend (criteria self).

(** *** Valuation *)

Definition pe_rule (pe : option Q) : Stmt :=
  if_positive pe
    (fun pe =>
       (if pe <=? Settings.pe_ratio_preferred vc then
          score_add 40 ;;
          add_strength [Lit "PE Ratio sangat baik: "; Fixed 2 pe]
        else if pe <=? Settings.pe_ratio_max vc then
          score_add 25 ;;
          add_insight "Valuation" "positive" "PE Ratio acceptable"
            [Lit "PE Ratio "; Fixed 2 pe;
             Lit " masih dalam range acceptable (< ";
             Repr (Settings.pe_ratio_max vc); Lit ")"]
            "Medium"
        else
          score_add 10 ;;
          add_weakness [Lit "PE Ratio tinggi: "; Fixed 2 pe; Lit " (> ";
                        Repr (Settings.pe_ratio_max vc); Lit ")"]) ;;
       set_detail "pe_ratio" (Result.DFloat pe))
    (add_weakness (text "PE Ratio tidak tersedia")).

Definition pbv_rule (pbv : option Q) : Stmt :=
  if_positive pbv
    (fun pbv =>
       (if pbv <=? Settings.pbv_preferred vc then
          score_add 40 ;;
          add_strength [Lit "PBV sangat baik: "; Fixed 2 pbv;
                        Lit " (undervalued)"]
        else if pbv <=? Settings.pbv_max vc then
          score_add 25 ;;
          add_insight "Valuation" "positive" "PBV acceptable"
            [Lit "PBV "; Fixed 2 pbv; Lit " masih reasonable (< ";
             Repr (Settings.pbv_max vc); Lit ")"]
            "Medium"
        else
          score_add 10 ;;
          add_weakness [Lit "PBV tinggi: "; Fixed 2 pbv; Lit " (> ";
                        Repr (Settings.pbv_max vc); Lit ")"]) ;;
       set_detail "pbv" (Result.DFloat pbv))
    (add_weakness (text "PBV tidak tersedia")).

Definition market_cap_rule (market_cap : option Q) : Stmt :=
  match market_cap with
  | Some market_cap =>
      (if market_cap >=? Settings.market_cap_preferred vc then
         score_add 20 ;;
         add_strength (text "Market cap besar - blue chip stock")
       else if market_cap >=? Settings.market_cap_min vc then
         score_add 15 ;;
         add_insight "Valuation" "neutral" "Market cap moderate"
           (text "Market capitalization dalam range moderate") "Low"
       else
         score_add 5 ;;
         add_red_flag (text "Market cap kecil - risiko likuiditas tinggi")) ;;
      set_detail "market_cap" (Result.DFloat market_cap)
  | None => add_weakness (text "Market cap tidak tersedia")
  end.

Definition _analyze_valuation (stock_data : Stock.StockData)
  : Result.ScreeningResult -> Result.CategoryScore * Result.ScreeningResult :=
  let pe := Stock.pe_ratio (Stock.valuation stock_data) in
  let pbv := Stock.price_to_book (Stock.valuation stock_data) in
  let market_cap := Stock.market_cap (Stock.valuation stock_data) in
  scorer "Valuation" (Settings.valuation_weight (weights self))
    (pe_rule pe ;; pbv_rule pbv ;; market_cap_rule market_cap ;; close 50).

(** *** Profitability *)

Definition eps_rule (eps_history : gmap Z Q) : Stmt :=
  if (2 <=? size eps_history)%nat then
    let years := Builtins.sorted_keys eps_history in
    let eps_values := map (Builtins.getitem eps_history) years in
    (if Helpers.is_growing_trend eps_values 3 then
       score_add 30 ;;
       add_strength [Lit "EPS tumbuh konsisten dalam ";
                     ReprInt (Z.of_nat (length eps_values));
                     Lit " tahun terakhir"]
     else if (2 <=? length eps_values)%nat
             && (Builtins.item_from_end eps_values 1
                 >? Builtins.item_from_end eps_values 2) then
       score_add 15 ;;
       add_insight "Profitability" "neutral" "EPS recovery"
         (text "EPS menunjukkan recovery di tahun terakhir") "Medium"
     else
       score_add 5 ;;
       add_red_flag (text "EPS tidak menunjukkan pertumbuhan konsisten")) ;;
    set_detail "eps_trend"
      (Result.DStr
         (if Helpers.is_growing_trend eps_values
               Helpers.default_min_positive_years
          then "growing" else "declining")) ;;
    set_detail "eps_history" (Result.DHistory eps_history)
  else
    add_weakness (text "Historical EPS data tidak cukup").

Definition gross_margin_rule (gpm : option Q) : Stmt :=
  match gpm with
  | Some gpm =>
      let gpm_pct := as_percent gpm in
      (if gpm_pct >=? Settings.gpm_preferred pc then
         score_add 25 ;;
         add_strength [Lit "Gross margin excellent: "; Fixed 1 gpm_pct;
                       Lit "%"]
       else if gpm_pct >=? Settings.gpm_min pc then
         score_add 15 ;;
         add_insight "Profitability" "positive" "Gross margin acceptable"
           [Lit "Gross margin "; Fixed 1 gpm_pct; Lit "% dalam range sehat"]
           "Medium"
       else
         score_add 5 ;;
         add_weakness [Lit "Gross margin rendah: "; Fixed 1 gpm_pct;
                       Lit "% (< "; Repr (Settings.gpm_min pc); Lit "%)"]) ;;
      set_detail "gross_margin" (Result.DFloat gpm_pct)
  | None => add_weakness (text "Gross margin tidak tersedia")
  end.

Definition roe_rule (roe : option Q) : Stmt :=
  match roe with
  | Some roe =>
      let roe_pct := as_percent roe in
      (if roe_pct >=? Settings.roe_preferred pc then
         score_add 25 ;;
         add_strength [Lit "ROE excellent: "; Fixed 1 roe_pct; Lit "%"]
       else if roe_pct >=? Settings.roe_min pc then
         score_add 15 ;;
         add_insight "Profitability" "positive" "ROE acceptable"
           [Lit "ROE "; Fixed 1 roe_pct;
            Lit "% menunjukkan profitabilitas yang baik"]
           "Medium"
       else
         score_add 5 ;;
         add_weakness [Lit "ROE rendah: "; Fixed 1 roe_pct; Lit "% (< ";
                       Repr (Settings.roe_min pc); Lit "%)"]) ;;
      set_detail "roe" (Result.DFloat roe_pct)
  | None => add_weakness (text "ROE tidak tersedia")
  end.

Definition ocf_rule (ocf : option Q) : Stmt :=
  match ocf with
  | Some v =>
      if v >? 0 then
        score_add 10 ;;
        add_strength (text "Operating cash flow positif") ;;
        set_detail "ocf_positive" (Result.DBool true)
      else
        add_red_flag (text "Operating cash flow negatif - masalah arus kas") ;;
        set_detail "ocf_positive" (Result.DBool false)
  | None => add_weakness (text "Operating cash flow tidak tersedia")
  end.

Definition fcf_rule (fcf : option Q) : Stmt :=
  match fcf with
  | Some v =>
      if v >? 0 then
        score_add 10 ;;
        add_strength (text "Free cash flow positif") ;;
        set_detail "fcf_positive" (Result.DBool true)
      else
        add_weakness (text "Free cash flow negatif") ;;
        set_detail "fcf_positive" (Result.DBool false)
  | None => add_weakness (text "Free cash flow tidak tersedia")
  end.

Definition _analyze_profitability (stock_data : Stock.StockData)
  : Result.ScreeningResult -> Result.CategoryScore * Result.ScreeningResult :=
  let eps_history := Stock.eps_history (Stock.profitability stock_data) in
  let gpm := Stock.gross_margin (Stock.profitability stock_data) in
  let roe := Stock.roe (Stock.profitability stock_data) in
  let ocf := Stock.operating_cash_flow (Stock.cash_flow stock_data) in
  let fcf := Stock.free_cash_flow (Stock.cash_flow stock_data) in
  scorer "Profitability" (Settings.profitability_weight (weights self))
    (eps_rule eps_history ;; gross_margin_rule gpm ;; roe_rule roe ;;
     ocf_rule ocf ;; fcf_rule fcf ;; close 50).

(** *** Risk *)

Definition debt_rule (dte : option Q) : Stmt :=
  match dte with
  | Some dte =>
      (if dte <=? Settings.debt_to_equity_preferred rc then
         score_add 70 ;;
         add_strength [Lit "Debt-to-Equity sangat rendah: "; Fixed 2 dte;
                       Lit " - leverage konservatif"]
       else if dte <=? Settings.debt_to_equity_max rc then
         score_add 45 ;;
         add_insight "Risk" "neutral" "Debt level acceptable"
           [Lit "Debt-to-Equity "; Fixed 2 dte; Lit " masih dalam range aman"]
           "Medium"
       else
         score_add 15 ;;
         add_red_flag [Lit "Debt-to-Equity tinggi: "; Fixed 2 dte;
                       Lit " - risiko leverage tinggi"]) ;;
      set_detail "debt_to_equity" (Result.DFloat dte)
  | None => add_weakness (text "Debt-to-Equity tidak tersedia")
  end.

(** [self.criteria.risk.beta_max is not None and beta <= ..beta_max] *)
Definition within_beta_max (beta : Q) : bool :=
  match Settings.beta_max rc with
  | Some beta_max => beta <=? beta_max
  | None => false
  end.

Definition beta_rule (beta : option Q) : Stmt :=
  match beta with
  | Some beta =>
      (if beta <=? 1 then
         score_add 30 ;;
         add_strength [Lit "Beta rendah: "; Fixed 2 beta;
                       Lit " - volatilitas lebih rendah dari market"]
       else if within_beta_max beta then
         score_add 20 ;;
         add_insight "Risk" "neutral" "Beta moderate"
           [Lit "Beta "; Fixed 2 beta; Lit " - volatilitas moderate"] "Low"
       else
         score_add 5 ;;
         add_weakness [Lit "Beta tinggi: "; Fixed 2 beta;
                       Lit " - volatilitas lebih tinggi dari market"]) ;;
      set_detail "beta" (Result.DFloat beta)
  | None =>
      score_add 15 ;;
      add_insight "Risk" "neutral" "Beta data unavailable"
        (text "Data volatilitas (beta) tidak tersedia") "Low"
  end.

Definition _analyze_risk (stock_data : Stock.StockData)
  : Result.ScreeningResult -> Result.CategoryScore * Result.ScreeningResult :=
  let dte := Stock.debt_to_equity (Stock.leverage stock_data) in
  let beta := Stock.beta (Stock.leverage stock_data) in
  scorer "Risk" (Settings.risk_weight (weights self))
    (debt_rule dte ;; beta_rule beta ;; close 50).

(** *** Dividend *)

Definition dividend_rule (div_yield : option Q) : Stmt :=
  if_positive div_yield
    (fun div_yield =>
       let div_yield_pct := as_percent div_yield in
       (if div_yield_pct >=? Settings.dividend_yield_preferred dc then
          score_add 100 ;;
          add_strength [Lit "Dividend yield sangat baik: ";
                        Fixed 2 div_yield_pct; Lit "%"]
        else if div_yield_pct >=? Settings.dividend_yield_min dc then
          score_add 60 ;;
          add_insight "Dividend" "positive" "Dividend yield acceptable"
            [Lit "Dividend yield "; Fixed 2 div_yield_pct;
             Lit "% memberikan return yang reasonable"]
            "Medium"
        else
          score_add 30 ;;
          add_weakness [Lit "Dividend yield rendah: "; Fixed 2 div_yield_pct;
                        Lit "% (< "; Repr (Settings.dividend_yield_min dc);
                        Lit "%)"]) ;;
       set_detail "dividend_yield" (Result.DFloat div_yield_pct) ;;
       set_detail "has_dividend" (Result.DBool true))
    ((if Settings.require_dividend dc then
        score_add 0 ;;
        add_red_flag (text "Tidak membayar dividen")
      else
        score_add 20 ;;
        add_weakness (text "Tidak membayar dividen")) ;;
     set_detail "has_dividend" (Result.DBool false)).

Definition _analyze_dividend (stock_data : Stock.StockData)
  : Result.ScreeningResult -> Result.CategoryScore * Result.ScreeningResult :=
  let div_yield := Stock.dividend_yield (Stock.dividend stock_data) in
  scorer "Dividend" (Settings.dividend_weight (weights self))
    (dividend_rule div_yield ;; close 40).

(** *** Aggregation *)

Definition _calculate_total_score (metrics : Result.ScreeningMetrics) : Q :=
  let total :=
    Result.score (Result.valuation_score metrics)
      * Settings.valuation_weight (weights self)
    + Result.score (Result.profitability_score metrics)
      * Settings.profitability_weight (weights self)
    + Result.score (Result.risk_score metrics)
      * Settings.risk_weight (weights self)
    + Result.score (Result.dividend_score metrics)
      * Settings.dividend_weight (weights self) in
  Num.round total 2.

Definition _build_key_metrics_summary (stock_data : Stock.StockData)
  : gmap string (option Q) :=
  list_to_map
    [ ("pe_ratio", Stock.pe_ratio (Stock.valuation stock_data));
      ("pbv", Stock.price_to_book (Stock.valuation stock_data));
      ("market_cap", Stock.market_cap (Stock.valuation stock_data));
      ("roe", Stock.roe (Stock.profitability stock_data));
      ("gross_margin", Stock.gross_margin (Stock.profitability stock_data));
      ("debt_to_equity", Stock.debt_to_equity (Stock.leverage stock_data));
      ("dividend_yield", Stock.dividend_yield (Stock.dividend stock_data));
      ("current_price", Stock.current_price (Stock.price stock_data));
      ("eps", Stock.eps (Stock.profitability stock_data)) ].

(** [stock_data.data_quality_score or 0.0] *)
Definition quality_or_zero (q : option Q) : Q :=
  match q with
  | Some v => if Num.truthy v then v else 0
  | None => 0
  end.

Definition incomplete_data_flag : message :=
  text "Data tidak lengkap - beberapa metrik fundamental tidak tersedia".

Definition analyze (stock_data : Stock.StockData) : Result.ScreeningResult :=
  let ci := Stock.company_info stock_data in
  let result :=
    Result.new_ScreeningResult (Stock.get_ticker stock_data) (Stock.name ci)
      (Stock.sector ci) (Stock.industry ci)
      (quality_or_zero (Stock.data_quality_score stock_data)) in
  let result :=
    if negb (Stock.has_complete_data stock_data)
    then Result.add_red_flag incomplete_data_flag result
    else result in
  let '(c, result) := _analyze_valuation stock_data result in
  let result :=
    Result.set_metrics (Result.set_valuation_score c (Result.metrics result))
      result in
  let '(c, result) := _analyze_profitability stock_data result in
  let result :=
    Result.set_metrics
      (Result.set_profitability_score c (Result.metrics result)) result in
  let '(c, result) := _analyze_risk stock_data result in
  let result :=
    Result.set_metrics (Result.set_risk_score c (Result.metrics result))
      result in
  let '(c, result) := _analyze_dividend stock_data result in
  let result :=
    Result.set_metrics (Result.set_dividend_score c (Result.metrics result))
      result in
  let result :=
    Result.set_metrics
      (Result.set_total_score (_calculate_total_score (Result.metrics result))
         (Result.metrics result)) result in
  let result :=
    Result.set_rating (Result.calculate_rating_from_score result) result in
  Result.set_key_metrics (_build_key_metrics_summary stock_data) result.

Definition batch_analyze (stocks_data : list Stock.StockData)
  : list Result.ScreeningResult :=
  let results :=
    fold_left (fun results stock_data => results ++ [analyze stock_data])
      stocks_data [] in
  Builtins.sort_reverse
    (fun x => Result.total_score (Result.metrics x)) results.

End Scorers.

End Analyzer.


(* ================================================================== *)
(** ** services/yahoo_finance_service.py: the completeness score *)

Module DataLayer.

(** One turn of [for field in fields]: the pair is
    [(total_weight, achieved_weight)]. *)
Definition quality_step (w : Q) (acc : Q * Q) (field : option Q) : Q * Q :=
  let '(total_weight, achieved_weight) := acc in
  (total_weight + w,
   if Stock.is_not_None field then achieved_weight + w else achieved_weight).

Definition _calculate_data_quality
  (valuation : Stock.ValuationMetrics)
  (profitability : Stock.ProfitabilityMetrics)
  (cash_flow : Stock.CashFlowMetrics)
  (leverage : Stock.LeverageMetrics)
  (dividend : Stock.DividendMetrics) : Q :=
  let critical_fields :=
    [ Stock.pe_ratio valuation;
      Stock.price_to_book valuation;
      Stock.market_cap valuation;
      Stock.roe profitability;
      Stock.gross_margin profitability;
      Stock.eps profitability;
      Stock.debt_to_equity leverage;
      Stock.operating_cash_flow cash_flow ] in
  let additional_fields :=
    [ Stock.forward_pe valuation;
      Stock.profit_margin profitability;
      Stock.operating_margin profitability;
      Stock.free_cash_flow cash_flow;
      Stock.dividend_yield dividend ] in
  let critical_weight := 1 in
  let additional_weight := 1 # 2 in
  let acc := fold_left (quality_step critical_weight) critical_fields (0, 0) in
  let '(total_weight, achieved_weight) :=
    fold_left (quality_step additional_weight) additional_fields acc in
  if Qeq_bool total_weight 0 then 0
  else
    let quality_score := (achieved_weight / total_weight) * 100 in
    Num.min quality_score 100.

(** The record the service builds from what it fetched: the metrics and
    the completeness score computed from them. *)
Definition build_stock_data
  (ci : Stock.CompanyInfo)
  (valuation : Stock.ValuationMetrics)
  (profitability : Stock.ProfitabilityMetrics)
  (cash_flow : Stock.CashFlowMetrics)
  (leverage : Stock.LeverageMetrics)
  (dividend : Stock.DividendMetrics)
  (price : Stock.PriceMetrics) : Stock.StockData :=
  {| Stock.company_info := ci;
     Stock.valuation := valuation;
     Stock.profitability := profitability;
     Stock.cash_flow := cash_flow;
     Stock.leverage := leverage;
     Stock.dividend := dividend;
     Stock.price := price;
     Stock.data_quality_score :=
       Some (_calculate_data_quality valuation profitability cash_flow
               leverage dividend) |}.

End DataLayer.


(* ================================================================== *)
(** ** Notions used to state the properties *)

Module Spec.

(** The number of adjacent pairs of a chronological sequence in which the
    later value is the larger one. *)
Fixpoint adjacent_increases (values : list Q) : nat :=
  match values with
  | a :: (b :: _) as rest =>
      ((if b >? a then 1 else 0) + adjacent_increases rest)%nat
  | _ => 0%nat
  end.

(** The tolerance on the sum of the weights. *)
Definition within_tolerance (total : Q) : Prop :=
  99 # 100 <= total /\ total <= 101 # 100.

(** The running category score of a frame. *)
Definition points (f : Analyzer.Frame) : Q :=
  Result.score (Analyzer.score f).

(** A statement raises the running score by at least [lo] and at most
    [hi], whatever the frame. *)
Definition adds (lo hi : Q) (s : Analyzer.Stmt) : Prop :=
  forall f, points f + lo <= points (s f) <= points f + hi.

(** A statement leaves the metrics of the shared result alone and only
    appends to its red flags, and what it appends is never the flag for
    incomplete data. *)
Definition only_appends (s : Analyzer.Stmt) : Prop :=
  forall f,
    Result.metrics (Analyzer.result (s f))
    = Result.metrics (Analyzer.result f)
    /\ exists more,
         Result.red_flags (Analyzer.result (s f))
         = Result.red_flags (Analyzer.result f) ++ more
         /\ ~ In Analyzer.incomplete_data_flag more.

(** The sort key of the batch. *)
Definition total_of (r : Result.ScreeningResult) : Q :=
  Result.total_score (Result.metrics r).

(** The score of one category in a finished result. *)
Definition valuation_of (r : Result.ScreeningResult) : Q :=
  Result.score (Result.valuation_score (Result.metrics r)).
Definition profitability_of (r : Result.ScreeningResult) : Q :=
  Result.score (Result.profitability_score (Result.metrics r)).
Definition risk_of (r : Result.ScreeningResult) : Q :=
  Result.score (Result.risk_score (Result.metrics r)).
Definition dividend_of (r : Result.ScreeningResult) : Q :=
  Result.score (Result.dividend_score (Result.metrics r)).

(** A result carrying a given total score and nothing else. *)
Definition result_with_total (t : Q) : Result.ScreeningResult :=
  Result.set_metrics (Result.set_total_score t Result.new_ScreeningMetrics)
    (Result.new_ScreeningResult "TICK" "Name" None None 0).

(** Sample inputs. *)
Definition sample_company : Stock.CompanyInfo :=
  {| Stock.ticker := "TICK"; Stock.name := "Name";
     Stock.sector := None; Stock.industry := None |}.

(** The frame in which a scorer starts. *)
Definition fresh_frame (c : string) (w : Q) : Analyzer.Frame :=
  {| Analyzer.score := Result.new_CategoryScore c 0 w;
     Analyzer.details := ∅;
     Analyzer.result := Result.new_ScreeningResult "TICK" "Name" None None 0 |}.

Definition three_year_history : gmap Z Q :=
  <[2023%Z := 3]> (<[2022%Z := 2]> (<[2021%Z := 1]> ∅)).

(** What the data layer builds when only the dividend yield could not be
    fetched. *)
Definition stock_without_dividend : Stock.StockData :=
  DataLayer.build_stock_data sample_company
    {| Stock.market_cap := Some 200000000000000; Stock.pe_ratio := Some 4;
       Stock.forward_pe := Some 5; Stock.price_to_book := Some (8 # 10) |}
    {| Stock.eps := Some 100; Stock.gross_margin := Some (4 # 10);
       Stock.operating_margin := Some (3 # 10);
       Stock.profit_margin := Some (2 # 10); Stock.roe := Some (2 # 10);
       Stock.eps_history := three_year_history |}
    {| Stock.operating_cash_flow := Some 1000;
       Stock.free_cash_flow := Some 500 |}
    {| Stock.debt_to_equity := Some (3 # 10); Stock.beta := Some (9 # 10) |}
    {| Stock.dividend_yield := None |}
    {| Stock.current_price := Some 9000 |}.

(** Weights that pass the construction check with a sum of 1.005. *)
Definition generous_weights : Settings.ScoringWeights :=
  {| Settings.valuation_weight := 255 # 1000;
     Settings.profitability_weight := 35 # 100;
     Settings.risk_weight := 20 # 100;
     Settings.dividend_weight := 20 # 100 |}.

Definition generous_analyzer : Analyzer.FundamentalAnalyzer :=
  {| Analyzer.criteria := Settings.DEFAULT_CRITERIA;
     Analyzer.weights := generous_weights |}.

Definition four_year_history : gmap Z Q :=
  <[2023%Z := 4]> (<[2022%Z := 3]> (<[2021%Z := 2]> (<[2020%Z := 1]> ∅))).

(** A company in the best tier of every rule. *)
Definition blue_chip : Stock.StockData :=
  DataLayer.build_stock_data sample_company
    {| Stock.market_cap := Some 200000000000000; Stock.pe_ratio := Some 4;
       Stock.forward_pe := Some 5; Stock.price_to_book := Some (8 # 10) |}
    {| Stock.eps := Some 100; Stock.gross_margin := Some (4 # 10);
       Stock.operating_margin := Some (3 # 10);
       Stock.profit_margin := Some (2 # 10); Stock.roe := Some (2 # 10);
       Stock.eps_history := four_year_history |}
    {| Stock.operating_cash_flow := Some 1000;
       Stock.free_cash_flow := Some 500 |}
    {| Stock.debt_to_equity := Some (3 # 10); Stock.beta := Some (9 # 10) |}
    {| Stock.dividend_yield := Some (5 # 100) |}
    {| Stock.current_price := Some 9000 |}.

(** Weights and three companies for which the total scores are 72.0,
    45.5 and 91.2. *)
Definition batch_weights : Settings.ScoringWeights :=
  {| Settings.valuation_weight := 26 # 100;
     Settings.profitability_weight := 34 # 100;
     Settings.risk_weight := 20 # 100;
     Settings.dividend_weight := 20 # 100 |}.

Definition batch_analyzer : Analyzer.FundamentalAnalyzer :=
  {| Analyzer.criteria := Settings.DEFAULT_CRITERIA;
     Analyzer.weights := batch_weights |}.

Definition stock_72 : Stock.StockData :=
  DataLayer.build_stock_data sample_company
    Stock.default_ValuationMetrics
    {| Stock.eps := Some 100; Stock.gross_margin := Some (4 # 10);
       Stock.operating_margin := None; Stock.profit_margin := None;
       Stock.roe := Some (2 # 10); Stock.eps_history := four_year_history |}
    {| Stock.operating_cash_flow := Some 1000;
       Stock.free_cash_flow := Some 500 |}
    {| Stock.debt_to_equity := Some (3 # 10); Stock.beta := Some (12 # 10) |}
    {| Stock.dividend_yield := Some (5 # 100) |}
    Stock.default_PriceMetrics.

Definition stock_45_5 : Stock.StockData :=
  DataLayer.build_stock_data sample_company
    Stock.default_ValuationMetrics
    {| Stock.eps := None; Stock.gross_margin := Some (4 # 10);
       Stock.operating_margin := None; Stock.profit_margin := None;
       Stock.roe := None; Stock.eps_history := ∅ |}
    Stock.default_CashFlowMetrics
    {| Stock.debt_to_equity := Some (3 # 10); Stock.beta := None |}
    {| Stock.dividend_yield := Some (5 # 100) |}
    Stock.default_PriceMetrics.

Definition stock_91_2 : Stock.StockData :=
  DataLayer.build_stock_data sample_company
    {| Stock.market_cap := Some 200000000000000; Stock.pe_ratio := Some 4;
       Stock.forward_pe := None; Stock.price_to_book := Some (8 # 10) |}
    {| Stock.eps := Some 100; Stock.gross_margin := Some (4 # 10);
       Stock.operating_margin := None; Stock.profit_margin := None;
       Stock.roe := Some (2 # 10); Stock.eps_history := four_year_history |}
    Stock.default_CashFlowMetrics
    {| Stock.debt_to_equity := Some (3 # 10); Stock.beta := Some (12 # 10) |}
    {| Stock.dividend_yield := Some (5 # 100) |}
    Stock.default_PriceMetrics.

(** The elements of a list whose key equals [k], in their order. *)
Definition with_key {A : Type} (key : A -> Q) (k : Q) (l : list A) : list A :=
  List.filter (fun x => Qeq_bool (key x) k) l.

(** Keys never increase along the list. *)
Definition descending {A : Type} (key : A -> Q) (l : list A) : Prop :=
  StronglySorted (fun a b => key b <= key a) l.

(** [l'] keeps the elements of [l], and those with equal keys in the
    order they have in [l]. *)
Definition stable {A : Type} (key : A -> Q) (l l' : list A) : Prop :=
  forall k, with_key key k l' = with_key key k l.

(** One of the five metrics the completeness test asks for is absent. *)
Definition required_metric_missing (sd : Stock.StockData) : Prop :=
  Stock.pe_ratio (Stock.valuation sd) = None
  \/ Stock.price_to_book (Stock.valuation sd) = None
  \/ Stock.roe (Stock.profitability sd) = None
  \/ Stock.gross_margin (Stock.profitability sd) = None
  \/ Stock.debt_to_equity (Stock.leverage sd) = None.

End Spec.

(* ================================================================== *)
(** ** Notions used to state the further properties *)

Module Shape.

(** A result with findings appended to its four lists. *)
Definition grown (r : Result.ScreeningResult)
  (ins : list Result.Insight) (rf st wk : list message)
  : Result.ScreeningResult :=
  {| Result.ticker := Result.ticker r;
     Result.company_name := Result.company_name r;
     Result.sector := Result.sector r;
     Result.industry := Result.industry r;
     Result.rating := Result.rating r;
     Result.metrics := Result.metrics r;
     Result.insights := Result.insights r ++ ins;
     Result.red_flags := Result.red_flags r ++ rf;
     Result.strengths := Result.strengths r ++ st;
     Result.weaknesses := Result.weaknesses r ++ wk;
     Result.key_metrics := Result.key_metrics r;
     Result.data_completeness := Result.data_completeness r |}.

(** The number of findings of a result, over its four lists. *)
Definition findings (r : Result.ScreeningResult) : nat :=
  (length (Result.insights r) + length (Result.red_flags r)
   + length (Result.strengths r) + length (Result.weaknesses r))%nat.

(** The insights the scorers write: one of the four categories, and
    severity positive or neutral. *)
Definition scorer_insight (i : Result.Insight) : Prop :=
  (Result.insight_category i = "Valuation"%string
   \/ Result.insight_category i = "Profitability"%string
   \/ Result.insight_category i = "Risk"%string
   \/ Result.insight_category i = "Dividend"%string)
  /\ (Result.severity i = "positive"%string
      \/ Result.severity i = "neutral"%string).

(** A statement appends exactly [n] findings to the result and changes
    nothing else of it. *)
Definition records (n : nat) (s : Analyzer.Stmt) : Prop :=
  forall f, exists ins rf st wk,
    Analyzer.result (s f) = grown (Analyzer.result f) ins rf st wk
    /\ (length ins + length rf + length st + length wk)%nat = n
    /\ Forall scorer_insight ins.

(** What a statement adds to the running score does not depend on the
    frame it runs in. *)
Definition uniform (s : Analyzer.Stmt) : Prop :=
  forall f g,
    Result.score (Analyzer.score (s f)) - Result.score (Analyzer.score f)
    == Result.score (Analyzer.score (s g)) - Result.score (Analyzer.score g).

(** The award of the debt-to-equity rule: 70 within the preferred
    threshold, else 45 within the maximum, else 15; nothing when the
    ratio is absent. *)
Definition debt_points (rc : Settings.RiskCriteria) (dte : option Q) : Q :=
  match dte with
  | Some d =>
      if d <=? Settings.debt_to_equity_preferred rc then 70
      else if d <=? Settings.debt_to_equity_max rc then 45
      else 15
  | None => 0
  end.

(** The insight the risk scorer records for an absent beta. *)
Definition beta_unavailable : Result.Insight :=
  {| Result.insight_category := "Risk";
     Result.severity := "neutral";
     Result.title := "Beta data unavailable";
     Result.description := text "Data volatilitas (beta) tidak tersedia";
     Result.impact := Some "Low"%string |}.

Definition with_beta (beta : option Q) (sd : Stock.StockData)
  : Stock.StockData :=
  {| Stock.company_info := Stock.company_info sd;
     Stock.valuation := Stock.valuation sd;
     Stock.profitability := Stock.profitability sd;
     Stock.cash_flow := Stock.cash_flow sd;
     Stock.leverage :=
       {| Stock.debt_to_equity := Stock.debt_to_equity (Stock.leverage sd);
          Stock.beta := beta |};
     Stock.dividend := Stock.dividend sd;
     Stock.price := Stock.price sd;
     Stock.data_quality_score := Stock.data_quality_score sd |}.

(** Four fractions whose exact sum is just above 0.99. *)
Definition boundary_weights : Binary64.ScoringWeights :=
  {| Binary64.valuation_weight := 0.4;
     Binary64.profitability_weight := 0.3;
     Binary64.risk_weight := 0.2;
     Binary64.dividend_weight := 0.09 |}.

(** The default fractions. *)
Definition default_weights64 : Binary64.ScoringWeights :=
  {| Binary64.valuation_weight := 0.25;
     Binary64.profitability_weight := 0.35;
     Binary64.risk_weight := 0.20;
     Binary64.dividend_weight := 0.20 |}.

(** The default criteria, except that no dividend is required. *)
Definition criteria_without_required_dividend : Settings.ScreeningCriteria :=
  {| Settings.valuation := Settings.default_ValuationCriteria;
     Settings.profitability := Settings.default_ProfitabilityCriteria;
     Settings.risk := Settings.default_RiskCriteria;
     Settings.dividend :=
       {| Settings.dividend_yield_min := 2;
          Settings.dividend_yield_preferred := 4;
          Settings.require_dividend := false |} |}.

(** Replace one metric of a record. *)
Definition with_pe (pe : option Q) (sd : Stock.StockData) : Stock.StockData :=
  {| Stock.company_info := Stock.company_info sd;
     Stock.valuation :=
       {| Stock.market_cap := Stock.market_cap (Stock.valuation sd);
          Stock.pe_ratio := pe;
          Stock.forward_pe := Stock.forward_pe (Stock.valuation sd);
          Stock.price_to_book := Stock.price_to_book (Stock.valuation sd) |};
     Stock.profitability := Stock.profitability sd;
     Stock.cash_flow := Stock.cash_flow sd;
     Stock.leverage := Stock.leverage sd;
     Stock.dividend := Stock.dividend sd;
     Stock.price := Stock.price sd;
     Stock.data_quality_score := Stock.data_quality_score sd |}.

Definition with_debt_to_equity (dte : option Q) (sd : Stock.StockData)
  : Stock.StockData :=
  {| Stock.company_info := Stock.company_info sd;
     Stock.valuation := Stock.valuation sd;
     Stock.profitability := Stock.profitability sd;
     Stock.cash_flow := Stock.cash_flow sd;
     Stock.leverage :=
       {| Stock.debt_to_equity := dte;
          Stock.beta := Stock.beta (Stock.leverage sd) |};
     Stock.dividend := Stock.dividend sd;
     Stock.price := Stock.price sd;
     Stock.data_quality_score := Stock.data_quality_score sd |}.

(** How many of the fields are present. *)
Definition present (fields : list (option Q)) : nat :=
  length (List.filter Stock.is_not_None fields).

Definition critical_fields (sd : Stock.StockData) : list (option Q) :=
  [ Stock.pe_ratio (Stock.valuation sd);
    Stock.price_to_book (Stock.valuation sd);
    Stock.market_cap (Stock.valuation sd);
    Stock.roe (Stock.profitability sd);
    Stock.gross_margin (Stock.profitability sd);
    Stock.eps (Stock.profitability sd);
    Stock.debt_to_equity (Stock.leverage sd);
    Stock.operating_cash_flow (Stock.cash_flow sd) ].

Definition additional_fields (sd : Stock.StockData) : list (option Q) :=
  [ Stock.forward_pe (Stock.valuation sd);
    Stock.profit_margin (Stock.profitability sd);
    Stock.operating_margin (Stock.profitability sd);
    Stock.free_cash_flow (Stock.cash_flow sd);
    Stock.dividend_yield (Stock.dividend sd) ].

(** The completeness score the data layer computes for a record. *)
Definition quality_of (sd : Stock.StockData) : Q :=
  DataLayer._calculate_data_quality (Stock.valuation sd)
    (Stock.profitability sd) (Stock.cash_flow sd) (Stock.leverage sd)
    (Stock.dividend sd).

(** Every value is larger than the one before it. *)
Fixpoint strictly_increasing (values : list Q) : Prop :=
  match values with
  | a :: (b :: _) as rest => a < b /\ strictly_increasing rest
  | _ => True
  end.

(** No value is larger than the one before it. *)
Fixpoint never_increasing (values : list Q) : Prop :=
  match values with
  | a :: (b :: _) as rest => b <= a /\ never_increasing rest
  | _ => True
  end.

End Shape.

(* ================================================================== *)
(** * Properties *)

(** ** Comparisons and rounding *)

Lemma leb_le (x y : Q) : (x <=? y) = true <-> x <= y.
Proof. apply Qle_bool_iff. Qed.

Lemma leb_gt (x y : Q) : (x <=? y) = false <-> y < x.
Proof.
  unfold Num.leb. split; intros H.
  - apply Qnot_le_lt. intros Hle. apply Qle_bool_iff in Hle. congruence.
  - destruct (Qle_bool x y) eqn:E; [|reflexivity].
    apply Qle_bool_iff in E. lra.
Qed.

Lemma ltb_lt (x y : Q) : (x <? y) = true <-> x < y.
Proof. unfold Num.ltb. rewrite negb_true_iff. apply leb_gt. Qed.

Lemma ltb_ge (x y : Q) : (x <? y) = false <-> y <= x.
Proof. unfold Num.ltb. rewrite negb_false_iff. apply leb_le. Qed.

Lemma geb_ge (x y : Q) : (x >=? y) = true <-> y <= x.
Proof. apply leb_le. Qed.

Lemma geb_lt (x y : Q) : (x >=? y) = false <-> x < y.
Proof. apply leb_gt. Qed.

Lemma gtb_gt (x y : Q) : (x >? y) = true <-> y < x.
Proof. apply ltb_lt. Qed.

Lemma gtb_le (x y : Q) : (x >? y) = false <-> x <= y.
Proof. apply ltb_ge. Qed.

(** Turn every boolean comparison among the hypotheses into the order
    fact it stands for. *)
Ltac order_facts :=
  repeat match goal with
  | H : (_ <=? _) = true |- _ => apply leb_le in H
  | H : (_ <=? _) = false |- _ => apply leb_gt in H
  | H : (_ <? _) = true |- _ => apply ltb_lt in H
  | H : (_ <? _) = false |- _ => apply ltb_ge in H
  | H : (_ >=? _) = true |- _ => apply geb_ge in H
  | H : (_ >=? _) = false |- _ => apply geb_lt in H
  | H : (_ >? _) = true |- _ => apply gtb_gt in H
  | H : (_ >? _) = false |- _ => apply gtb_le in H
  end.

(** Split on the tests of the conditionals in the goal, outermost
    first, remembering each outcome. *)
Ltac split_tests :=
  repeat match goal with
  | |- context [if ?b then _ else _] => destruct b eqn:?
  end.

Lemma floor_below (x : Q) : inject_Z (Qfloor x) <= x.
Proof. apply Qfloor_le. Qed.

Lemma floor_above (x : Q) : x < inject_Z (Qfloor x + 1).
Proof. apply Qlt_floor. Qed.

(** Rounding to the nearest integer stays between integer bounds. *)
Lemma round_half_even_between (a b : Z) (x : Q) :
  inject_Z a <= x -> x <= inject_Z b ->
  (a <= Num.round_half_even x <= b)%Z.
Proof.
  intros Ha Hb.
  pose proof (floor_below x) as Hlo.
  pose proof (floor_above x) as Hhi.
  assert (Hfa : (a <= Qfloor x)%Z).
  { rewrite <- (Qfloor_Z a). now apply Qfloor_resp_le. }
  assert (Hfb : (Qfloor x <= b)%Z).
  { rewrite Zle_Qle. lra. }
  assert (Hup : 0 < x - inject_Z (Qfloor x) -> (Qfloor x + 1 <= b)%Z).
  { intros Hpos. assert (Hlt : inject_Z (Qfloor x) < inject_Z b) by lra.
    rewrite <- Zlt_Qlt in Hlt. lia. }
  unfold Num.round_half_even.
  destruct (Qcompare_spec (x - inject_Z (Qfloor x)) (1 # 2)) as [He|Hl|Hg].
  - destruct (Z.even (Qfloor x)); [lia|].
    assert (0 < x - inject_Z (Qfloor x)) by lra. specialize (Hup H). lia.
  - lia.
  - assert (0 < x - inject_Z (Qfloor x)) by lra. specialize (Hup H). lia.
Qed.

(** [round(x, 2)] of a value between two integers stays between them. *)
Lemma round2_between (a b : Z) (x : Q) :
  inject_Z a <= x -> x <= inject_Z b ->
  inject_Z a <= Num.round x 2 <= inject_Z b.
Proof.
  intros Ha Hb. unfold Num.round.
  change (Num.pow10 2) with (inject_Z 100).
  assert (H : (a * 100 <= Num.round_half_even (x * inject_Z 100) <= b * 100)%Z).
  { apply round_half_even_between; rewrite inject_Z_mult;
      change (inject_Z 100) with 100; lra. }
  destruct H as [H1 H2].
  rewrite Zle_Qle in H1, H2. rewrite inject_Z_mult in H1, H2.
  set (r := inject_Z (Num.round_half_even (x * inject_Z 100))) in *.
  assert (E : r / inject_Z 100 == r * (1 # 100)) by (unfold Qdiv; reflexivity).
  rewrite E. change (inject_Z 100) with 100 in *. lra.
Qed.

(* ------------------------------------------------------------------ *)
(** ** Construction of the weights *)

Lemma DEFAULT_WEIGHTS_constructed :
  Settings.new_ScoringWeights (25 # 100) (35 # 100) (20 # 100) (20 # 100)
  = Returns Settings.DEFAULT_WEIGHTS.
Proof. reflexivity. Qed.

(** C2, as stated, fails in two ways.  The fractions 0.4, 0.3, 0.2 and
    0.09 sum to a value within the tolerance, yet their construction
    raises, because the sum is taken at double precision and comes out
    below 0.99.  And the tolerance is checked at construction only: after
    the default weights are built, assigning 0.75 to the valuation weight
    leaves a value whose sum, 1.5, is far outside the tolerance. *)
Lemma weights_check_rounds_and_runs_once :
  Spec.within_tolerance
    (Settings.weight_total (Binary64.exact Shape.boundary_weights))
  /\ Binary64.new_ScoringWeights 0.4 0.3 0.2 0.09
     = Binary64.ValueError_total (0.4 + 0.3 + 0.2 + 0.09)%float
  /\ (0.4 + 0.3 + 0.2 + 0.09 <? 0.99)%float = true
  /\ Binary64.new_ScoringWeights 0.25 0.35 0.20 0.20
     = Binary64.Constructed Shape.default_weights64
  /\ Binary64.in_tolerance
       (Binary64.weight_total
          (Binary64.set_valuation_weight 0.75 Shape.default_weights64))
     = false
  /\ ~ Spec.within_tolerance
         (Settings.weight_total
            (Binary64.exact
               (Binary64.set_valuation_weight 0.75 Shape.default_weights64))).
Proof.
  split; [split; vm_compute; discriminate|].
  split; [vm_compute; reflexivity|]. split; [vm_compute; reflexivity|].
  split; [vm_compute; reflexivity|]. split; [vm_compute; reflexivity|].
  intros [_ H]. vm_compute in H. now apply H.
Qed.

(** C2, amended: constructing the weights raises exactly when the sum of
    the four fractions, taken at double precision in the order of the
    fields, is not within 0.99 and 1.01 as double-precision numbers; the
    error carries that sum; a successful construction stores the four
    fractions as given, without rescaling them, and the value just built
    satisfies the tolerance; a computed sum of 0.80 or 1.20 raises, a
    computed sum of 1.00 or 1.005 succeeds. *)
Theorem weights_construction_validates_at_double_precision
  (v p r d : float) :
  let given := {| Binary64.valuation_weight := v;
                  Binary64.profitability_weight := p;
                  Binary64.risk_weight := r;
                  Binary64.dividend_weight := d |} in
  let total := Binary64.weight_total given in
  ((exists t, Binary64.new_ScoringWeights v p r d
              = Binary64.ValueError_total t)
   <-> Binary64.in_tolerance total = false)
  /\ (Binary64.new_ScoringWeights v p r d = Binary64.Constructed given
      <-> Binary64.in_tolerance total = true)
  /\ (forall w, Binary64.new_ScoringWeights v p r d = Binary64.Constructed w ->
        w = given
        /\ Binary64.in_tolerance (Binary64.weight_total w) = true)
  /\ (forall t, Binary64.new_ScoringWeights v p r d
                = Binary64.ValueError_total t -> t = total)
  /\ (total = 0.80%float \/ total = 1.20%float ->
        Binary64.new_ScoringWeights v p r d = Binary64.ValueError_total total)
  /\ (total = 1.00%float \/ total = 1.005%float ->
        Binary64.new_ScoringWeights v p r d = Binary64.Constructed given).
Proof.
  intros given total.
  assert (Hcases :
    (Binary64.in_tolerance total = true
     /\ Binary64.new_ScoringWeights v p r d = Binary64.Constructed given)
    \/ (Binary64.in_tolerance total = false
        /\ Binary64.new_ScoringWeights v p r d
           = Binary64.ValueError_total total)).
  { unfold Binary64.new_ScoringWeights, Binary64.__post_init__. cbv zeta.
    fold given. fold total.
    destruct (Binary64.in_tolerance total); [left|right]; split; reflexivity. }
  split; [|split; [|split; [|split; [|split]]]].
  - destruct Hcases as [[Ht Hn]|[Ht Hn]]; rewrite Hn, Ht; split.
    + intros [t E]. discriminate E.
    + discriminate.
    + reflexivity.
    + intros _. now exists total.
  - destruct Hcases as [[Ht Hn]|[Ht Hn]]; rewrite Hn, Ht; split;
      try reflexivity; discriminate.
  - intros w Hw. destruct Hcases as [[Ht Hn]|[Ht Hn]]; rewrite Hn in Hw.
    + injection Hw as <-. split; [reflexivity|exact Ht].
    + discriminate Hw.
  - intros t Hraise. destruct Hcases as [[Ht Hn]|[Ht Hn]]; rewrite Hn in Hraise.
    + discriminate Hraise.
    + now injection Hraise as <-.
  - intros Hsum. destruct Hcases as [[Ht Hn]|[Ht Hn]]; [|exact Hn].
    destruct Hsum as [E|E]; rewrite E in Ht; vm_compute in Ht;
      discriminate Ht.
  - intros Hsum. destruct Hcases as [[Ht Hn]|[Ht Hn]]; [exact Hn|].
    destruct Hsum as [E|E]; rewrite E in Ht; vm_compute in Ht;
      discriminate Ht.
Qed.

Lemma weights_construction_validates_at_double_precision_witness :
  Binary64.new_ScoringWeights 0.25 0.35 0.20 0.20
  = Binary64.Constructed Shape.default_weights64
  /\ Binary64.new_ScoringWeights 0.2 0.2 0.2 0.2
     = Binary64.ValueError_total 0.8.
Proof.
  split.
  - pose proof (weights_construction_validates_at_double_precision
                  0.25 0.35 0.20 0.20) as H.
    cbv zeta in H. destruct H as (_ & _ & _ & _ & _ & H).
    apply H. left. vm_compute. reflexivity.
  - pose proof (weights_construction_validates_at_double_precision
                  0.2 0.2 0.2 0.2) as H.
    cbv zeta in H. destruct H as (_ & _ & _ & _ & H & _).
    apply H. left. vm_compute. reflexivity.
Defined.

(** The weights 0.255, 0.35, 0.20, 0.20, whose exact sum is 1.005, pass
    the validation at double precision as well. *)
Lemma generous_weights_constructed_at_double_precision :
  Binary64.new_ScoringWeights 0.255 0.35 0.20 0.20
  = Binary64.Constructed
      {| Binary64.valuation_weight := 0.255;
         Binary64.profitability_weight := 0.35;
         Binary64.risk_weight := 0.20;
         Binary64.dividend_weight := 0.20 |}.
Proof. vm_compute. reflexivity. Qed.

(* ------------------------------------------------------------------ *)
(** ** The rating *)

Lemma rating_of_score_cases (s : Q) :
  (80 <= s /\ Result.rating_of_score s = Result.VERY_STRONG)
  \/ (60 <= s < 80 /\ Result.rating_of_score s = Result.STRONG)
  \/ (40 <= s < 60 /\ Result.rating_of_score s = Result.FAIR)
  \/ (20 <= s < 40 /\ Result.rating_of_score s = Result.WEAK)
  \/ (s < 20 /\ Result.rating_of_score s = Result.VERY_WEAK).
Proof.
  unfold Result.rating_of_score. split_tests; order_facts.
  - left. auto.
  - right; left. auto.
  - right; right; left. auto.
  - right; right; right; left. auto.
  - right; right; right; right. auto.
Qed.

(** Which case of [rating_of_score_cases] applies is settled by the
    score, whatever fraction represents it. *)
Ltac settle_rating s :=
  destruct (rating_of_score_cases s)
    as [[? ->]|[[[? ?] ->]|[[[? ?] ->]|[[[? ?] ->]|[? ->]]]]];
  try reflexivity; try discriminate; try lra.

(** C3: the rating is a function of the total score alone, with the
    breakpoints 80, 60, 40 and 20: [80,100] is VERY_STRONG, [60,80) is
    STRONG, [40,60) is FAIR, [20,40) is WEAK and [0,20) is VERY_WEAK; so
    79.99 is STRONG, 80.00 VERY_STRONG, 39.99 WEAK and 19.99 VERY_WEAK;
    INSUFFICIENT_DATA is never the outcome. *)
Theorem rating_breakpoints (r : Result.ScreeningResult) :
  let s := Result.total_score (Result.metrics r) in
  let rating := Result.calculate_rating_from_score r in
  (80 <= s <= 100 -> rating = Result.VERY_STRONG)
  /\ (60 <= s < 80 -> rating = Result.STRONG)
  /\ (40 <= s < 60 -> rating = Result.FAIR)
  /\ (20 <= s < 40 -> rating = Result.WEAK)
  /\ (0 <= s < 20 -> rating = Result.VERY_WEAK)
  /\ (s == 7999 # 100 -> rating = Result.STRONG)
  /\ (s == 80 -> rating = Result.VERY_STRONG)
  /\ (s == 3999 # 100 -> rating = Result.WEAK)
  /\ (s == 1999 # 100 -> rating = Result.VERY_WEAK)
  /\ rating <> Result.INSUFFICIENT_DATA
  /\ (forall r' : Result.ScreeningResult,
        Result.total_score (Result.metrics r') == s ->
        Result.calculate_rating_from_score r' = rating).
Proof.
  intros s rating. subst rating. unfold Result.calculate_rating_from_score.
  fold s.
  repeat match goal with |- _ /\ _ => split end.
  - intros [? ?]. settle_rating s.
  - intros [? ?]. settle_rating s.
  - intros [? ?]. settle_rating s.
  - intros [? ?]. settle_rating s.
  - intros [? ?]. settle_rating s.
  - intros E. settle_rating s.
  - intros E. settle_rating s.
  - intros E. settle_rating s.
  - intros E. settle_rating s.
  - settle_rating s.
  - intros r' E. set (s' := Result.total_score (Result.metrics r')) in *.
    destruct (rating_of_score_cases s')
      as [[? ->]|[[[? ?] ->]|[[[? ?] ->]|[[[? ?] ->]|[? ->]]]]];
      settle_rating s.
Qed.

Lemma rating_breakpoints_witness :
  Result.calculate_rating_from_score (Spec.result_with_total (7999 # 100))
  = Result.STRONG
  /\ Result.calculate_rating_from_score (Spec.result_with_total 80)
     = Result.VERY_STRONG
  /\ Result.calculate_rating_from_score (Spec.result_with_total (3999 # 100))
     = Result.WEAK
  /\ Result.calculate_rating_from_score (Spec.result_with_total (1999 # 100))
     = Result.VERY_WEAK
  /\ Result.calculate_rating_from_score (Spec.result_with_total 50)
     = Result.FAIR.
Proof.
  repeat match goal with |- _ /\ _ => split end.
  - pose proof (rating_breakpoints (Spec.result_with_total (7999 # 100))) as H.
    cbv zeta in H. destruct H as (_ & _ & _ & _ & _ & H & _).
    apply H. reflexivity.
  - pose proof (rating_breakpoints (Spec.result_with_total 80)) as H.
    cbv zeta in H. destruct H as (_ & _ & _ & _ & _ & _ & H & _).
    apply H. reflexivity.
  - pose proof (rating_breakpoints (Spec.result_with_total (3999 # 100))) as H.
    cbv zeta in H. destruct H as (_ & _ & _ & _ & _ & _ & _ & H & _).
    apply H. reflexivity.
  - pose proof (rating_breakpoints (Spec.result_with_total (1999 # 100))) as H.
    cbv zeta in H. destruct H as (_ & _ & _ & _ & _ & _ & _ & _ & H & _).
    apply H. reflexivity.
  - pose proof (rating_breakpoints (Spec.result_with_total 50)) as H.
    cbv zeta in H. destruct H as (_ & _ & H & _).
    apply H. simpl. split; [discriminate|reflexivity].
Defined.

(* ------------------------------------------------------------------ *)
(** ** The growth-trend test *)

Section Trend.

Implicit Types (values : list Q) (c : Z) (i k n : nat).

(** The counter only ever moves by what the remaining turns add. *)
Lemma trend_fold_from values (idx : list nat) c :
  fold_left (Helpers.trend_step values) idx c
  = (c + fold_left (Helpers.trend_step values) idx 0)%Z.
Proof.
  revert c. induction idx as [|i idx IH]; intros c; simpl.
  - lia.
  - rewrite IH.
    rewrite (IH (Helpers.trend_step values 0 i)).
    unfold Helpers.trend_step.
    destruct (Helpers.item values i >? Helpers.item values (i - 1)); lia.
Qed.

(** Past the first pair, the loop on [a :: values] is the loop on
    [values] with every index one lower. *)
Lemma trend_fold_shift (a : Q) values k n c :
  (1 <= k)%nat ->
  fold_left (Helpers.trend_step (a :: values)) (seq (S k) n) c
  = fold_left (Helpers.trend_step values) (seq k n) c.
Proof.
  revert k c. induction n as [|n IH]; intros k c Hk; simpl; [reflexivity|].
  rewrite IH by lia. f_equal.
  unfold Helpers.trend_step, Helpers.item.
  destruct k as [|k]; [lia|]. simpl. now rewrite Nat.sub_0_r.
Qed.

(** The loop counts the adjacent increases. *)
Lemma trend_fold_counts values :
  fold_left (Helpers.trend_step values) (seq 1 (length values - 1)) 0%Z
  = Z.of_nat (Spec.adjacent_increases values).
Proof.
  induction values as [|a values IH]; [reflexivity|].
  destruct values as [|b values]; [reflexivity|].
  change (length (a :: b :: values) - 1)%nat with (S (length values)).
  change (seq 1 (S (length values))) with (1%nat :: seq 2 (length values)).
  cbn [fold_left]. rewrite trend_fold_from.
  rewrite trend_fold_shift by lia.
  replace (length values) with (length (b :: values) - 1)%nat
    by (simpl; lia).
  rewrite IH.
  change (Spec.adjacent_increases (a :: b :: values))
    with ((if b >? a then 1 else 0)
          + Spec.adjacent_increases (b :: values))%nat.
  unfold Helpers.trend_step, Helpers.item. simpl.
  destruct (b >? a); lia.
Qed.

(** A sequence has one adjacent pair fewer than it has elements. *)
Lemma adjacent_increases_le values :
  (Spec.adjacent_increases values <= length values - 1)%nat.
Proof.
  induction values as [|a values IH]; [simpl; lia|].
  destruct values as [|b values]; [simpl; lia|].
  change (Spec.adjacent_increases (a :: b :: values))
    with ((if b >? a then 1 else 0)
          + Spec.adjacent_increases (b :: values))%nat.
  simpl in *. destruct (b >? a); lia.
Qed.

(** The test in terms of the count. *)
Lemma growing_trend_iff values (min_positive_years : Z) :
  Helpers.is_growing_trend values min_positive_years = true
  <-> (2 <= length values)%nat
      /\ (min_positive_years <= Z.of_nat (Spec.adjacent_increases values))%Z.
Proof.
  unfold Helpers.is_growing_trend.
  destruct (length values <? 2)%nat eqn:E.
  - apply Nat.ltb_lt in E. split; [discriminate|lia].
  - apply Nat.ltb_ge in E. rewrite trend_fold_counts.
    rewrite Z.geb_le. split; [now split|tauto].
Qed.

(** Fewer than four values cannot show three increases. *)
Lemma short_sequence_not_growing values :
  (length values < 4)%nat -> Helpers.is_growing_trend values 3 = false.
Proof.
  intros Hlen. apply not_true_is_false. intros E.
  apply growing_trend_iff in E.
  pose proof (adjacent_increases_le values). lia.
Qed.

(** C6: the growth-trend test answers true exactly when the sequence has
    at least two elements and the number of adjacent pairs whose later
    value is larger reaches the required minimum (3 by default); a
    sequence shorter than two is never growing; at minimum 3 the sequence
    1,2,1,3,2,4 is growing and 5,4,3,2,1 is not. *)
Theorem growing_trend_counts_increases values (min_positive_years : Z) :
  (Helpers.is_growing_trend values min_positive_years = true
   <-> (2 <= length values)%nat
       /\ (min_positive_years <= Z.of_nat (Spec.adjacent_increases values))%Z)
  /\ ((length values < 2)%nat ->
      Helpers.is_growing_trend values min_positive_years = false)
  /\ Helpers.default_min_positive_years = 3%Z
  /\ Helpers.is_growing_trend [1; 2; 1; 3; 2; 4] 3 = true
  /\ Helpers.is_growing_trend [5; 4; 3; 2; 1] 3 = false.
Proof.
  split; [apply growing_trend_iff|]. split; [|repeat split].
  intros Hshort. apply not_true_is_false. intros E.
  apply growing_trend_iff in E. lia.
Qed.

Lemma growing_trend_counts_increases_witness :
  Helpers.is_growing_trend [7] 0 = false
  /\ Helpers.is_growing_trend [1; 2; 3 # 2; 2] 2 = true.
Proof.
  split.
  - pose proof (growing_trend_counts_increases [7] 0) as H.
    destruct H as (_ & H & _). apply H. simpl. lia.
  - pose proof (growing_trend_counts_increases [1; 2; 3 # 2; 2] 2) as H.
    destruct H as (H & _). apply H. simpl. split; lia.
Defined.

End Trend.

(* ------------------------------------------------------------------ *)
(** ** What each rule adds to the running score *)

Section Increments.

Variable self : Analyzer.FundamentalAnalyzer.

Lemma adds_then lo1 hi1 lo2 hi2 (s1 s2 : Analyzer.Stmt) :
  Spec.adds lo1 hi1 s1 -> Spec.adds lo2 hi2 s2 ->
  Spec.adds (lo1 + lo2) (hi1 + hi2) (Analyzer.then_ s1 s2).
Proof.
  intros H1 H2 f. unfold Analyzer.then_.
  specialize (H1 f). specialize (H2 (s1 f)). lra.
Qed.

Lemma adds_close bar : Spec.adds 0 0 (Analyzer.close bar).
Proof. intros f. unfold Spec.points. simpl. lra. Qed.

(** Unfold a rule down to the frame and compare the scores. *)
Ltac by_cases_of_rule :=
  intros f; cbv zeta; unfold Analyzer.if_positive;
  repeat match goal with
  | |- context [match ?o with Some _ => _ | None => _ end] => destruct o
  end;
  split_tests; unfold Spec.points; simpl; lra.

Lemma pe_rule_adds pe : Spec.adds 0 40 (Analyzer.pe_rule self pe).
Proof. unfold Analyzer.pe_rule. by_cases_of_rule. Qed.

Lemma pbv_rule_adds pbv : Spec.adds 0 40 (Analyzer.pbv_rule self pbv).
Proof. unfold Analyzer.pbv_rule. by_cases_of_rule. Qed.

Lemma market_cap_rule_adds mc :
  Spec.adds 0 20 (Analyzer.market_cap_rule self mc).
Proof. unfold Analyzer.market_cap_rule. by_cases_of_rule. Qed.

Lemma eps_rule_adds h : Spec.adds 0 30 (Analyzer.eps_rule h).
Proof. unfold Analyzer.eps_rule. by_cases_of_rule. Qed.

Lemma gross_margin_rule_adds gpm :
  Spec.adds 0 25 (Analyzer.gross_margin_rule self gpm).
Proof. unfold Analyzer.gross_margin_rule. by_cases_of_rule. Qed.

Lemma roe_rule_adds roe : Spec.adds 0 25 (Analyzer.roe_rule self roe).
Proof. unfold Analyzer.roe_rule. by_cases_of_rule. Qed.

Lemma ocf_rule_adds ocf : Spec.adds 0 10 (Analyzer.ocf_rule ocf).
Proof. unfold Analyzer.ocf_rule. by_cases_of_rule. Qed.

Lemma fcf_rule_adds fcf : Spec.adds 0 10 (Analyzer.fcf_rule fcf).
Proof. unfold Analyzer.fcf_rule. by_cases_of_rule. Qed.

Lemma debt_rule_adds dte : Spec.adds 0 70 (Analyzer.debt_rule self dte).
Proof. unfold Analyzer.debt_rule. by_cases_of_rule. Qed.

Lemma beta_rule_adds beta : Spec.adds 5 30 (Analyzer.beta_rule self beta).
Proof.
  unfold Analyzer.beta_rule, Analyzer.within_beta_max. by_cases_of_rule.
Qed.

Lemma beta_rule_adds_absent : Spec.adds 15 15 (Analyzer.beta_rule self None).
Proof. unfold Analyzer.beta_rule. by_cases_of_rule. Qed.

Lemma dividend_rule_adds dy :
  Spec.adds 0 100 (Analyzer.dividend_rule self dy).
Proof. unfold Analyzer.dividend_rule. by_cases_of_rule. Qed.

(** A scorer starts from 0, so what its body adds is its score. *)
Lemma scorer_score lo hi c w body r :
  Spec.adds lo hi body ->
  lo <= Result.score (fst (Analyzer.scorer c w body r)) <= hi.
Proof.
  intros H. unfold Analyzer.scorer. cbv zeta. cbn [fst].
  match goal with |- _ <= Result.score (Analyzer.score (body ?f)) <= _ =>
    specialize (H f); unfold Spec.points in H; simpl in H
  end.
  lra.
Qed.

Lemma valuation_score_range sd r :
  0 <= Result.score (fst (Analyzer._analyze_valuation self sd r)) <= 100.
Proof.
  unfold Analyzer._analyze_valuation. cbv zeta.
  pose proof (adds_then _ _ _ _ _ _
    (pe_rule_adds (Stock.pe_ratio (Stock.valuation sd)))
    (adds_then _ _ _ _ _ _
       (pbv_rule_adds (Stock.price_to_book (Stock.valuation sd)))
       (adds_then _ _ _ _ _ _
          (market_cap_rule_adds (Stock.market_cap (Stock.valuation sd)))
          (adds_close 50)))) as H.
  apply (scorer_score _ _ "Valuation"
           (Settings.valuation_weight (Analyzer.weights self)) _ r) in H.
  lra.
Qed.

Lemma profitability_score_range sd r :
  0 <= Result.score (fst (Analyzer._analyze_profitability self sd r)) <= 100.
Proof.
  unfold Analyzer._analyze_profitability. cbv zeta.
  pose proof (adds_then _ _ _ _ _ _
    (eps_rule_adds (Stock.eps_history (Stock.profitability sd)))
    (adds_then _ _ _ _ _ _
       (gross_margin_rule_adds (Stock.gross_margin (Stock.profitability sd)))
       (adds_then _ _ _ _ _ _
          (roe_rule_adds (Stock.roe (Stock.profitability sd)))
          (adds_then _ _ _ _ _ _
             (ocf_rule_adds (Stock.operating_cash_flow (Stock.cash_flow sd)))
             (adds_then _ _ _ _ _ _
                (fcf_rule_adds (Stock.free_cash_flow (Stock.cash_flow sd)))
                (adds_close 50)))))) as H.
  apply (scorer_score _ _ "Profitability"
           (Settings.profitability_weight (Analyzer.weights self)) _ r) in H.
  lra.
Qed.

Lemma risk_score_range sd r :
  5 <= Result.score (fst (Analyzer._analyze_risk self sd r)) <= 100.
Proof.
  unfold Analyzer._analyze_risk. cbv zeta.
  pose proof (adds_then _ _ _ _ _ _
    (debt_rule_adds (Stock.debt_to_equity (Stock.leverage sd)))
    (adds_then _ _ _ _ _ _
       (beta_rule_adds (Stock.beta (Stock.leverage sd)))
       (adds_close 50))) as H.
  apply (scorer_score _ _ "Risk"
           (Settings.risk_weight (Analyzer.weights self)) _ r) in H.
  lra.
Qed.

Lemma risk_score_without_beta sd r :
  Stock.beta (Stock.leverage sd) = None ->
  15 <= Result.score (fst (Analyzer._analyze_risk self sd r)).
Proof.
  intros Hb. unfold Analyzer._analyze_risk. cbv zeta. rewrite Hb.
  pose proof (adds_then _ _ _ _ _ _
    (debt_rule_adds (Stock.debt_to_equity (Stock.leverage sd)))
    (adds_then _ _ _ _ _ _ beta_rule_adds_absent (adds_close 50))) as H.
  apply (scorer_score _ _ "Risk"
           (Settings.risk_weight (Analyzer.weights self)) _ r) in H.
  lra.
Qed.

Lemma dividend_score_range sd r :
  0 <= Result.score (fst (Analyzer._analyze_dividend self sd r)) <= 100.
Proof.
  unfold Analyzer._analyze_dividend. cbv zeta.
  pose proof (adds_then _ _ _ _ _ _
    (dividend_rule_adds (Stock.dividend_yield (Stock.dividend sd)))
    (adds_close 40)) as H.
  apply (scorer_score _ _ "Dividend"
           (Settings.dividend_weight (Analyzer.weights self)) _ r) in H.
  lra.
Qed.

(** *** What the rules do to the shared result *)

Lemma only_appends_then (s1 s2 : Analyzer.Stmt) :
  Spec.only_appends s1 -> Spec.only_appends s2 ->
  Spec.only_appends (Analyzer.then_ s1 s2).
Proof.
  intros H1 H2 f. unfold Analyzer.then_.
  destruct (H1 f) as [M1 [m1 [F1 N1]]].
  destruct (H2 (s1 f)) as [M2 [m2 [F2 N2]]].
  split; [congruence|]. exists (m1 ++ m2). split.
  - rewrite F2, F1. now rewrite app_assoc.
  - rewrite in_app_iff. tauto.
Qed.

Lemma only_appends_close bar : Spec.only_appends (Analyzer.close bar).
Proof.
  intros f. split; [reflexivity|]. exists []. simpl.
  rewrite app_nil_r. auto.
Qed.

Ltac by_cases_on_result :=
  intros f; cbv zeta; unfold Analyzer.if_positive;
  repeat match goal with
  | |- context [match ?o with Some _ => _ | None => _ end] => destruct o
  end;
  split_tests; simpl; (split; [reflexivity|]);
  first [ (exists []; rewrite app_nil_r; split; [reflexivity|tauto])
        | (eexists; split; [reflexivity|];
           simpl; intros [E|[]]; discriminate E) ].

Lemma pe_rule_appends pe : Spec.only_appends (Analyzer.pe_rule self pe).
Proof. unfold Analyzer.pe_rule. by_cases_on_result. Qed.

Lemma pbv_rule_appends pbv : Spec.only_appends (Analyzer.pbv_rule self pbv).
Proof. unfold Analyzer.pbv_rule. by_cases_on_result. Qed.

Lemma market_cap_rule_appends mc :
  Spec.only_appends (Analyzer.market_cap_rule self mc).
Proof. unfold Analyzer.market_cap_rule. by_cases_on_result. Qed.

Lemma eps_rule_appends h : Spec.only_appends (Analyzer.eps_rule h).
Proof. unfold Analyzer.eps_rule. by_cases_on_result. Qed.

Lemma gross_margin_rule_appends gpm :
  Spec.only_appends (Analyzer.gross_margin_rule self gpm).
Proof. unfold Analyzer.gross_margin_rule. by_cases_on_result. Qed.

Lemma roe_rule_appends roe : Spec.only_appends (Analyzer.roe_rule self roe).
Proof. unfold Analyzer.roe_rule. by_cases_on_result. Qed.

Lemma ocf_rule_appends ocf : Spec.only_appends (Analyzer.ocf_rule ocf).
Proof. unfold Analyzer.ocf_rule. by_cases_on_result. Qed.

Lemma fcf_rule_appends fcf : Spec.only_appends (Analyzer.fcf_rule fcf).
Proof. unfold Analyzer.fcf_rule. by_cases_on_result. Qed.

Lemma debt_rule_appends dte : Spec.only_appends (Analyzer.debt_rule self dte).
Proof. unfold Analyzer.debt_rule. by_cases_on_result. Qed.

Lemma beta_rule_appends beta : Spec.only_appends (Analyzer.beta_rule self beta).
Proof.
  unfold Analyzer.beta_rule, Analyzer.within_beta_max. by_cases_on_result.
Qed.

Lemma dividend_rule_appends dy :
  Spec.only_appends (Analyzer.dividend_rule self dy).
Proof. unfold Analyzer.dividend_rule. by_cases_on_result. Qed.

(** The result a scorer gives back has the metrics it was handed and
    the red flags it was handed, possibly followed by more. *)
Lemma scorer_result c w body r :
  Spec.only_appends body ->
  Result.metrics (snd (Analyzer.scorer c w body r)) = Result.metrics r
  /\ exists more,
       Result.red_flags (snd (Analyzer.scorer c w body r))
       = Result.red_flags r ++ more
       /\ ~ In Analyzer.incomplete_data_flag more.
Proof.
  intros H. unfold Analyzer.scorer. cbv zeta. cbn [snd].
  match goal with |- context [body ?f] => exact (H f) end.
Qed.

Lemma valuation_result sd r :
  Result.metrics (snd (Analyzer._analyze_valuation self sd r))
  = Result.metrics r
  /\ exists more,
       Result.red_flags (snd (Analyzer._analyze_valuation self sd r))
       = Result.red_flags r ++ more
       /\ ~ In Analyzer.incomplete_data_flag more.
Proof.
  unfold Analyzer._analyze_valuation. cbv zeta. apply scorer_result.
  apply only_appends_then; [apply pe_rule_appends|].
  apply only_appends_then; [apply pbv_rule_appends|].
  apply only_appends_then; [apply market_cap_rule_appends|].
  apply only_appends_close.
Qed.

Lemma profitability_result sd r :
  Result.metrics (snd (Analyzer._analyze_profitability self sd r))
  = Result.metrics r
  /\ exists more,
       Result.red_flags (snd (Analyzer._analyze_profitability self sd r))
       = Result.red_flags r ++ more
       /\ ~ In Analyzer.incomplete_data_flag more.
Proof.
  unfold Analyzer._analyze_profitability. cbv zeta. apply scorer_result.
  apply only_appends_then; [apply eps_rule_appends|].
  apply only_appends_then; [apply gross_margin_rule_appends|].
  apply only_appends_then; [apply roe_rule_appends|].
  apply only_appends_then; [apply ocf_rule_appends|].
  apply only_appends_then; [apply fcf_rule_appends|].
  apply only_appends_close.
Qed.

Lemma risk_result sd r :
  Result.metrics (snd (Analyzer._analyze_risk self sd r)) = Result.metrics r
  /\ exists more,
       Result.red_flags (snd (Analyzer._analyze_risk self sd r))
       = Result.red_flags r ++ more
       /\ ~ In Analyzer.incomplete_data_flag more.
Proof.
  unfold Analyzer._analyze_risk. cbv zeta. apply scorer_result.
  apply only_appends_then; [apply debt_rule_appends|].
  apply only_appends_then; [apply beta_rule_appends|].
  apply only_appends_close.
Qed.

Lemma dividend_result sd r :
  Result.metrics (snd (Analyzer._analyze_dividend self sd r))
  = Result.metrics r
  /\ exists more,
       Result.red_flags (snd (Analyzer._analyze_dividend self sd r))
       = Result.red_flags r ++ more
       /\ ~ In Analyzer.incomplete_data_flag more.
Proof.
  unfold Analyzer._analyze_dividend. cbv zeta. apply scorer_result.
  apply only_appends_then; [apply dividend_rule_appends|].
  apply only_appends_close.
Qed.

(** Name the four scorer calls of [analyze] and what they return, and
    record what each did to the metrics and red flags of the result. *)
Ltac open_analyze sd :=
  unfold Analyzer.analyze; cbv zeta;
  match goal with |- context [Analyzer._analyze_valuation self sd ?r] =>
    set (r1 := r);
    pose proof (valuation_result sd r1) as [M1 [m1 [F1 N1]]];
    destruct (Analyzer._analyze_valuation self sd r1) as [c1 q1] eqn:E1
  end;
  match goal with |- context [Analyzer._analyze_profitability self sd ?r] =>
    set (r2 := r);
    pose proof (profitability_result sd r2) as [M2 [m2 [F2 N2]]];
    destruct (Analyzer._analyze_profitability self sd r2) as [c2 q2] eqn:E2
  end;
  match goal with |- context [Analyzer._analyze_risk self sd ?r] =>
    set (r3 := r);
    pose proof (risk_result sd r3) as [M3 [m3 [F3 N3]]];
    destruct (Analyzer._analyze_risk self sd r3) as [c3 q3] eqn:E3
  end;
  match goal with |- context [Analyzer._analyze_dividend self sd ?r] =>
    set (r4 := r);
    pose proof (dividend_result sd r4) as [M4 [m4 [F4 N4]]];
    destruct (Analyzer._analyze_dividend self sd r4) as [c4 q4] eqn:E4
  end;
  cbn [snd fst] in *.

(** The finished result holds what the four scorers returned, the total
    computed from them and the rating of that total. *)
Lemma analyze_categories sd :
  exists r1 r2 r3 r4,
    Result.valuation_score (Result.metrics (Analyzer.analyze self sd))
    = fst (Analyzer._analyze_valuation self sd r1)
    /\ Result.profitability_score (Result.metrics (Analyzer.analyze self sd))
       = fst (Analyzer._analyze_profitability self sd r2)
    /\ Result.risk_score (Result.metrics (Analyzer.analyze self sd))
       = fst (Analyzer._analyze_risk self sd r3)
    /\ Result.dividend_score (Result.metrics (Analyzer.analyze self sd))
       = fst (Analyzer._analyze_dividend self sd r4).
Proof.
  open_analyze sd.
  exists r1, r2, r3, r4. rewrite E1, E2, E3, E4. cbn [fst].
  cbn [Result.metrics Result.set_key_metrics Result.set_rating
       Result.set_metrics Result.set_total_score Result.valuation_score
       Result.profitability_score Result.risk_score Result.dividend_score
       Result.set_dividend_score].
  rewrite M4. subst r4. cbn. rewrite M3. subst r3. cbn.
  rewrite M2. subst r2. cbn. auto.
Qed.

Lemma analyze_total sd :
  Spec.total_of (Analyzer.analyze self sd)
  = Analyzer._calculate_total_score self
      (Result.metrics (Analyzer.analyze self sd)).
Proof.
  unfold Spec.total_of, Analyzer.analyze. cbv zeta.
  destruct (Analyzer._analyze_valuation self sd _) as [c1 q1].
  destruct (Analyzer._analyze_profitability self sd _) as [c2 q2].
  destruct (Analyzer._analyze_risk self sd _) as [c3 q3].
  destruct (Analyzer._analyze_dividend self sd _) as [c4 q4].
  reflexivity.
Qed.

Lemma analyze_rating sd :
  Result.rating (Analyzer.analyze self sd)
  = Result.rating_of_score (Spec.total_of (Analyzer.analyze self sd)).
Proof.
  unfold Spec.total_of, Analyzer.analyze. cbv zeta.
  destruct (Analyzer._analyze_valuation self sd _) as [c1 q1].
  destruct (Analyzer._analyze_profitability self sd _) as [c2 q2].
  destruct (Analyzer._analyze_risk self sd _) as [c3 q3].
  destruct (Analyzer._analyze_dividend self sd _) as [c4 q4].
  reflexivity.
Qed.

(** Every category score of a finished result lies between 0 and 100. *)
Lemma category_scores_in_range sd :
  let r := Analyzer.analyze self sd in
  0 <= Spec.valuation_of r <= 100
  /\ 0 <= Spec.profitability_of r <= 100
  /\ 5 <= Spec.risk_of r <= 100
  /\ 0 <= Spec.dividend_of r <= 100.
Proof.
  cbv zeta. destruct (analyze_categories sd) as (r1 & r2 & r3 & r4 & H).
  destruct H as (H1 & H2 & H3 & H4).
  unfold Spec.valuation_of, Spec.profitability_of, Spec.risk_of,
    Spec.dividend_of.
  rewrite H1, H2, H3, H4.
  split; [apply valuation_score_range|].
  split; [apply profitability_score_range|].
  split; [apply risk_score_range|apply dividend_score_range].
Qed.

End Increments.

(* ------------------------------------------------------------------ *)
(** ** The beta rule and the floor of the risk score *)

(** C8: the risk scorer returns the award of its debt-to-equity rule plus
    the award of its beta rule, which is 30 when beta is present and at
    most 1.0; otherwise 20 when [beta_max] is set (1.5 by default) and
    beta is at most [beta_max]; otherwise 5; and when beta is absent a
    flat 15, never 0, recorded with one neutral insight as the last
    insight of the result.  The risk score of a finished result is the
    score this scorer returned. *)
Theorem risk_scorer_awards_beta (self : Analyzer.FundamentalAnalyzer)
  (sd : Stock.StockData) (r : Result.ScreeningResult) :
  let rc := Settings.risk (Analyzer.criteria self) in
  let beta := Stock.beta (Stock.leverage sd) in
  let debt :=
    Shape.debt_points rc (Stock.debt_to_equity (Stock.leverage sd)) in
  let out := Analyzer._analyze_risk self sd r in
  (forall b, beta = Some b -> b <= 1 ->
     Result.score (fst out) == debt + 30)
  /\ (forall b bm, beta = Some b -> 1 < b ->
        Settings.beta_max rc = Some bm -> b <= bm ->
        Result.score (fst out) == debt + 20)
  /\ (forall b, beta = Some b -> 1 < b ->
        (Settings.beta_max rc = None
         \/ exists bm, Settings.beta_max rc = Some bm /\ bm < b) ->
        Result.score (fst out) == debt + 5)
  /\ (beta = None ->
        Result.score (fst out) == debt + 15
        /\ ~ Result.score (fst out) == debt
        /\ exists earlier,
             Result.insights (snd out)
             = Result.insights r ++ earlier ++ [Shape.beta_unavailable]
             /\ (length earlier <= 1)%nat)
  /\ Settings.beta_max (Settings.risk Settings.DEFAULT_CRITERIA)
     = Some (3 # 2)
  /\ exists handed,
       Result.risk_score (Result.metrics (Analyzer.analyze self sd))
       = fst (Analyzer._analyze_risk self sd handed).
Proof.
  cbv zeta.
  unfold Analyzer._analyze_risk, Analyzer.scorer, Shape.debt_points.
  cbv zeta. cbn [fst snd].
  split; [|split; [|split; [|split; [|split]]]].
  - intros b Hb Hle. rewrite Hb. apply leb_le in Hle.
    unfold Analyzer.beta_rule, Analyzer.debt_rule. cbv zeta. rewrite Hle.
    destruct (Stock.debt_to_equity (Stock.leverage sd)) as [dte|];
      split_tests; simpl; ring.
  - intros b bm Hb Hlt Hmax Hle. rewrite Hb.
    apply leb_gt in Hlt. apply leb_le in Hle.
    unfold Analyzer.beta_rule, Analyzer.within_beta_max, Analyzer.debt_rule.
    cbv zeta. rewrite Hlt, Hmax, Hle.
    destruct (Stock.debt_to_equity (Stock.leverage sd)) as [dte|];
      split_tests; simpl; ring.
  - intros b Hb Hlt Hmax. rewrite Hb. apply leb_gt in Hlt.
    unfold Analyzer.beta_rule, Analyzer.within_beta_max, Analyzer.debt_rule.
    cbv zeta. rewrite Hlt.
    destruct Hmax as [Hmax|[bm [Hmax Hbm]]]; rewrite Hmax;
      [|apply leb_gt in Hbm; rewrite Hbm];
      destruct (Stock.debt_to_equity (Stock.leverage sd)) as [dte|];
      split_tests; simpl; ring.
  - intros Hb. rewrite Hb.
    unfold Analyzer.beta_rule, Analyzer.debt_rule. cbv zeta.
    destruct (Stock.debt_to_equity (Stock.leverage sd)) as [dte|];
      split_tests; simpl;
      (split; [ring|split; [intros E; lra|]]).
    + exists []. split; [reflexivity|simpl; lia].
    + eexists [_]. split; [now rewrite <- app_assoc|simpl; lia].
    + exists []. split; [reflexivity|simpl; lia].
    + exists []. split; [reflexivity|simpl; lia].
  - reflexivity.
  - destruct (analyze_categories self sd) as (r1 & r2 & r3 & r4 & H).
    destruct H as (_ & _ & H3 & _). exists r3.
    rewrite H3. reflexivity.
Qed.

Lemma risk_scorer_awards_beta_witness :
  let run beta :=
    Result.score
      (fst (Analyzer._analyze_risk Analyzer.default_FundamentalAnalyzer
              (Shape.with_beta beta Spec.blue_chip)
              (Result.new_ScreeningResult "TICK" "Name" None None 0))) in
  run (Some (8 # 10)) == 70 + 30
  /\ run (Some (12 # 10)) == 70 + 20
  /\ run (Some 2) == 70 + 5
  /\ run None == 70 + 15.
Proof.
  cbv zeta.
  split; [|split; [|split]].
  - pose proof (risk_scorer_awards_beta Analyzer.default_FundamentalAnalyzer
                  (Shape.with_beta (Some (8 # 10)) Spec.blue_chip)
                  (Result.new_ScreeningResult "TICK" "Name" None None 0))
      as H.
    cbv zeta in H. destruct H as (H & _).
    apply (H (8 # 10)); [reflexivity|]. unfold Qle. simpl. lia.
  - pose proof (risk_scorer_awards_beta Analyzer.default_FundamentalAnalyzer
                  (Shape.with_beta (Some (12 # 10)) Spec.blue_chip)
                  (Result.new_ScreeningResult "TICK" "Name" None None 0))
      as H.
    cbv zeta in H. destruct H as (_ & H & _).
    apply (H (12 # 10) (3 # 2)); [reflexivity| |reflexivity|].
    + unfold Qlt. simpl. lia.
    + unfold Qle. simpl. lia.
  - pose proof (risk_scorer_awards_beta Analyzer.default_FundamentalAnalyzer
                  (Shape.with_beta (Some 2) Spec.blue_chip)
                  (Result.new_ScreeningResult "TICK" "Name" None None 0))
      as H.
    cbv zeta in H. destruct H as (_ & _ & H & _).
    apply (H 2); [reflexivity| |].
    + unfold Qlt. simpl. lia.
    + right. exists (3 # 2). split; [reflexivity|]. unfold Qlt. simpl. lia.
  - pose proof (risk_scorer_awards_beta Analyzer.default_FundamentalAnalyzer
                  (Shape.with_beta None Spec.blue_chip)
                  (Result.new_ScreeningResult "TICK" "Name" None None 0))
      as H.
    cbv zeta in H. destruct H as (_ & _ & _ & H & _).
    destruct (H eq_refl) as (H15 & _). exact H15.
Defined.

(** C9, as stated, fails for its last part: the total of an entity with
    no data depends on the criteria as well as on the weights.  With the
    default weights and criteria that do not require a dividend, the
    dividend scorer gives 20, and the total is 7.0, not 3.0. *)
Lemma zero_data_total_is_7_without_required_dividend :
  let r0 := Analyzer.analyze
              {| Analyzer.criteria := Shape.criteria_without_required_dividend;
                 Analyzer.weights := Settings.DEFAULT_WEIGHTS |}
              (Stock.new_StockData Spec.sample_company) in
  Spec.total_of r0 == 7
  /\ ~ Spec.total_of r0 == 3
  /\ Spec.risk_of r0 == 15
  /\ Spec.dividend_of r0 == 20.
Proof.
  cbv zeta. split; [|split; [|split]].
  - vm_compute. reflexivity.
  - vm_compute. discriminate.
  - vm_compute. reflexivity.
  - vm_compute. reflexivity.
Qed.

(** C9, amended: the risk score of a finished result is at least 5, and
    at least 15 when beta is absent, so it is never 0; with the default
    weights, whatever the criteria, an entity with no data at all has
    risk score 15 and a total score of 3.0 when the criteria require a
    dividend (as the default criteria do) and of 7.0 when they do not,
    never 0. *)
Theorem risk_score_floor_and_zero_data_total
  (self : Analyzer.FundamentalAnalyzer) (sd : Stock.StockData) :
  let r := Analyzer.analyze self sd in
  5 <= Spec.risk_of r
  /\ (Stock.beta (Stock.leverage sd) = None -> 15 <= Spec.risk_of r)
  /\ ~ Spec.risk_of r == 0
  /\ (forall crit ci,
        let r0 := Analyzer.analyze
                    {| Analyzer.criteria := crit;
                       Analyzer.weights := Settings.DEFAULT_WEIGHTS |}
                    (Stock.new_StockData ci) in
        Spec.risk_of r0 == 15
        /\ (Settings.require_dividend (Settings.dividend crit) = true ->
            Spec.total_of r0 == 3)
        /\ (Settings.require_dividend (Settings.dividend crit) = false ->
            Spec.total_of r0 == 7)
        /\ ~ Spec.total_of r0 == 0)
  /\ Settings.require_dividend (Settings.dividend Settings.DEFAULT_CRITERIA)
     = true.
Proof.
  cbv zeta.
  destruct (analyze_categories self sd) as (r1 & r2 & r3 & r4 & H).
  destruct H as (_ & _ & H3 & _).
  unfold Spec.risk_of. rewrite H3.
  pose proof (risk_score_range self sd r3) as Hrange.
  split; [lra|]. split; [|split; [|split]].
  - intros Hb. now apply risk_score_without_beta.
  - lra.
  - intros [vc pc rc [dmin dpref required]] ci. cbn [Settings.dividend
      Settings.require_dividend].
    split; [|split; [|split]].
    + destruct required; vm_compute; reflexivity.
    + intros ->. vm_compute. reflexivity.
    + intros ->. vm_compute. reflexivity.
    + destruct required; vm_compute; discriminate.
  - reflexivity.
Qed.

Lemma risk_score_floor_and_zero_data_total_witness :
  15 <= Spec.risk_of
          (Analyzer.analyze Analyzer.default_FundamentalAnalyzer
             (Stock.new_StockData Spec.sample_company))
  /\ Spec.total_of
       (Analyzer.analyze Analyzer.default_FundamentalAnalyzer
          (Stock.new_StockData Spec.sample_company)) == 3.
Proof.
  pose proof (risk_score_floor_and_zero_data_total
                Analyzer.default_FundamentalAnalyzer
                (Stock.new_StockData Spec.sample_company)) as H.
  cbv zeta in H. destruct H as (_ & Hrisk & _ & Hzero & _).
  split.
  - apply Hrisk. reflexivity.
  - destruct (Hzero Settings.DEFAULT_CRITERIA Spec.sample_company)
      as (_ & H3 & _).
    apply H3. reflexivity.
Defined.

(* ------------------------------------------------------------------ *)
(** ** Short EPS histories *)

Lemma sorted_keys_length (h : gmap Z Q) :
  length (Builtins.sorted_keys h) = size h.
Proof.
  unfold Builtins.sorted_keys.
  rewrite (Permutation_length (merge_sort_Permutation Z.le _)).
  rewrite length_map. apply length_map_to_list.
Qed.

(** C10: with the minimum of 3 increases, an EPS history of fewer than 4
    years yields at most 3 values, hence at most 2 adjacent pairs, and is
    never classified as growing; the EPS-trend rule then adds at most 15
    points, never 30. *)
Theorem short_eps_history_caps_at_15 (h : gmap Z Q) (f : Analyzer.Frame) :
  (size h < 4)%nat ->
  let eps_values := map (Builtins.getitem h) (Builtins.sorted_keys h) in
  (length eps_values - 1 <= 2)%nat
  /\ (Spec.adjacent_increases eps_values <= 2)%nat
  /\ Helpers.is_growing_trend eps_values 3 = false
  /\ Spec.points (Analyzer.eps_rule h f) <= Spec.points f + 15
  /\ ~ Spec.points (Analyzer.eps_rule h f) == Spec.points f + 30.
Proof.
  intros Hsize eps_values.
  assert (Hlen : length eps_values = size h).
  { unfold eps_values. rewrite length_map. apply sorted_keys_length. }
  assert (Hnot : Helpers.is_growing_trend eps_values 3 = false).
  { apply short_sequence_not_growing. lia. }
  pose proof (adjacent_increases_le eps_values) as Hadj.
  assert (Hpts : Spec.points f <= Spec.points (Analyzer.eps_rule h f)
                 <= Spec.points f + 15).
  { unfold Analyzer.eps_rule. cbv zeta. fold eps_values. rewrite Hnot.
    unfold Spec.points. split_tests; simpl; lra. }
  split; [lia|]. split; [lia|]. split; [exact Hnot|].
  split; [lra|]. intros E. rewrite E in Hpts. lra.
Qed.

Lemma short_eps_history_caps_at_15_witness :
  Spec.points
    (Analyzer.eps_rule Spec.three_year_history
       (Spec.fresh_frame "Profitability" (35 # 100)))
  <= Spec.points (Spec.fresh_frame "Profitability" (35 # 100)) + 15.
Proof.
  pose proof (short_eps_history_caps_at_15 Spec.three_year_history
                (Spec.fresh_frame "Profitability" (35 # 100))) as H.
  assert (Hsize : (size Spec.three_year_history < 4)%nat).
  { vm_compute. lia. }
  specialize (H Hsize). cbv zeta in H.
  destruct H as (_ & _ & _ & H & _). exact H.
Defined.

(* ------------------------------------------------------------------ *)
(** ** Absent and incomplete data *)

Lemma has_complete_data_false (sd : Stock.StockData) :
  Stock.has_complete_data sd = false <-> Spec.required_metric_missing sd.
Proof.
  unfold Stock.has_complete_data, Spec.required_metric_missing. cbv zeta.
  destruct (Stock.pe_ratio (Stock.valuation sd));
    destruct (Stock.price_to_book (Stock.valuation sd));
    destruct (Stock.roe (Stock.profitability sd));
    destruct (Stock.gross_margin (Stock.profitability sd));
    destruct (Stock.debt_to_equity (Stock.leverage sd));
    simpl; split; intros H; try reflexivity; try discriminate; auto 6;
    repeat destruct H as [H|H]; discriminate.
Qed.

Section Flags.

Variable self : Analyzer.FundamentalAnalyzer.

(** The red flags of a finished result: the flag for incomplete data
    first if the completeness test failed, then what the scorers
    appended, none of which is that flag. *)
Lemma analyze_red_flags (sd : Stock.StockData) :
  exists more,
    Result.red_flags (Analyzer.analyze self sd)
    = (if Stock.has_complete_data sd then []
       else [Analyzer.incomplete_data_flag]) ++ more
    /\ ~ In Analyzer.incomplete_data_flag more.
Proof.
  unfold Analyzer.analyze; cbv zeta.
  match goal with |- context [Analyzer._analyze_valuation self sd ?r] =>
    set (r1 := r);
    pose proof (valuation_result self sd r1) as [M1 [m1 [F1 N1]]];
    destruct (Analyzer._analyze_valuation self sd r1) as [c1 q1]
  end.
  match goal with |- context [Analyzer._analyze_profitability self sd ?r] =>
    set (r2 := r);
    pose proof (profitability_result self sd r2) as [M2 [m2 [F2 N2]]];
    destruct (Analyzer._analyze_profitability self sd r2) as [c2 q2]
  end.
  match goal with |- context [Analyzer._analyze_risk self sd ?r] =>
    set (r3 := r);
    pose proof (risk_result self sd r3) as [M3 [m3 [F3 N3]]];
    destruct (Analyzer._analyze_risk self sd r3) as [c3 q3]
  end.
  match goal with |- context [Analyzer._analyze_dividend self sd ?r] =>
    set (r4 := r);
    pose proof (dividend_result self sd r4) as [M4 [m4 [F4 N4]]];
    destruct (Analyzer._analyze_dividend self sd r4) as [c4 q4]
  end.
  cbn [snd fst] in *.
  exists (m1 ++ m2 ++ m3 ++ m4). split.
  - cbn [Result.red_flags Result.set_key_metrics Result.set_rating
         Result.set_metrics].
    rewrite F4. subst r4. cbn [Result.red_flags Result.set_metrics].
    rewrite F3. subst r3. cbn [Result.red_flags Result.set_metrics].
    rewrite F2. subst r2. cbn [Result.red_flags Result.set_metrics].
    rewrite F1. subst r1.
    destruct (Stock.has_complete_data sd); simpl;
      now rewrite <- ?app_assoc.
  - rewrite !in_app_iff. tauto.
Qed.

End Flags.

(** C4: scoring a record in which every optional field is absent returns
    a complete result: valuation score 0; dividend score 0 with the red
    flag for a missing dividend when a dividend is required, and 20 with
    the corresponding weakness when it is not; a non-empty list of
    weaknesses; and a rating derived from the total score. *)
Theorem absent_data_is_scored (self : Analyzer.FundamentalAnalyzer)
  (ci : Stock.CompanyInfo) :
  let r := Analyzer.analyze self (Stock.new_StockData ci) in
  let required :=
    Settings.require_dividend (Settings.dividend (Analyzer.criteria self)) in
  Spec.valuation_of r == 0
  /\ (required = true ->
      Spec.dividend_of r == 0
      /\ In (text "Tidak membayar dividen") (Result.red_flags r))
  /\ (required = false ->
      Spec.dividend_of r == 20
      /\ In (text "Tidak membayar dividen") (Result.weaknesses r))
  /\ Result.weaknesses r <> []
  /\ (9 <= length (Result.weaknesses r))%nat
  /\ Result.rating r = Result.rating_of_score (Spec.total_of r)
  /\ Result.rating r <> Result.INSUFFICIENT_DATA.
Proof.
  cbv zeta.
  assert (Hrating :
    Result.rating (Analyzer.analyze self (Stock.new_StockData ci))
    <> Result.INSUFFICIENT_DATA).
  { rewrite analyze_rating.
    destruct (rating_of_score_cases
                (Spec.total_of (Analyzer.analyze self (Stock.new_StockData ci))))
      as [[? ->]|[[[? ?] ->]|[[[? ?] ->]|[[[? ?] ->]|[? ->]]]]];
      discriminate. }
  pose proof (analyze_rating self (Stock.new_StockData ci)) as Hderived.
  repeat match goal with |- _ /\ _ => split end;
    try exact Hderived; try exact Hrating; clear Hderived Hrating;
    destruct self as [[vc pc rc [dmin dpref req]] w];
    cbn [Analyzer.criteria Settings.dividend Settings.require_dividend].
  - vm_compute. destruct req; reflexivity.
  - intros ->. split; [vm_compute; reflexivity|vm_compute; auto].
  - intros ->. split; [vm_compute; reflexivity|vm_compute; auto 12].
  - intros E. apply (f_equal (@length _)) in E.
    destruct req; vm_compute in E; discriminate.
  - apply Nat.leb_le. destruct req; vm_compute; reflexivity.
Qed.

Lemma absent_data_is_scored_witness :
  Spec.dividend_of
    (Analyzer.analyze Analyzer.default_FundamentalAnalyzer
       (Stock.new_StockData Spec.sample_company)) == 0
  /\ In (text "Tidak membayar dividen")
       (Result.red_flags
          (Analyzer.analyze Analyzer.default_FundamentalAnalyzer
             (Stock.new_StockData Spec.sample_company))).
Proof.
  pose proof (absent_data_is_scored Analyzer.default_FundamentalAnalyzer
                Spec.sample_company) as H.
  cbv zeta in H. destruct H as (_ & H & _).
  apply H. reflexivity.
Defined.

(** C7, as stated, fails: the data layer gives a record that lacks only
    the dividend yield a completeness score of about 95.2, below 100, yet
    the finished result carries no flag for incomplete data. *)
Lemma incomplete_score_without_flag :
  Stock.data_quality_score Spec.stock_without_dividend
  = Some (DataLayer._calculate_data_quality
            (Stock.valuation Spec.stock_without_dividend)
            (Stock.profitability Spec.stock_without_dividend)
            (Stock.cash_flow Spec.stock_without_dividend)
            (Stock.leverage Spec.stock_without_dividend)
            (Stock.dividend Spec.stock_without_dividend))
  /\ DataLayer._calculate_data_quality
       (Stock.valuation Spec.stock_without_dividend)
       (Stock.profitability Spec.stock_without_dividend)
       (Stock.cash_flow Spec.stock_without_dividend)
       (Stock.leverage Spec.stock_without_dividend)
       (Stock.dividend Spec.stock_without_dividend) == 2000 # 21
  /\ Result.data_completeness
       (Analyzer.analyze Analyzer.default_FundamentalAnalyzer
          Spec.stock_without_dividend) < 100
  /\ ~ In Analyzer.incomplete_data_flag
         (Result.red_flags
            (Analyzer.analyze Analyzer.default_FundamentalAnalyzer
               Spec.stock_without_dividend)).
Proof.
  split; [reflexivity|]. split; [vm_compute; reflexivity|].
  split; [vm_compute; reflexivity|].
  vm_compute. intros [E|[]]. discriminate E.
Qed.

(** C7, amended: the flag for incomplete data is recorded exactly when
    one of the five required metrics (P/E, P/B, ROE, gross margin,
    debt-to-equity) is absent, whatever the completeness score says; it
    is then the first red flag, and scoring still goes through: the
    four category scores are in range and the rating is the one derived
    from the total score, never INSUFFICIENT_DATA. *)
Theorem incomplete_data_flag_follows_required_metrics
  (self : Analyzer.FundamentalAnalyzer) (sd : Stock.StockData) :
  let r := Analyzer.analyze self sd in
  (Spec.required_metric_missing sd ->
     In Analyzer.incomplete_data_flag (Result.red_flags r)
     /\ head (Result.red_flags r) = Some Analyzer.incomplete_data_flag)
  /\ (~ Spec.required_metric_missing sd ->
      ~ In Analyzer.incomplete_data_flag (Result.red_flags r))
  /\ 0 <= Spec.valuation_of r <= 100
  /\ 0 <= Spec.profitability_of r <= 100
  /\ 5 <= Spec.risk_of r <= 100
  /\ 0 <= Spec.dividend_of r <= 100
  /\ Result.rating r = Result.rating_of_score (Spec.total_of r)
  /\ Result.rating r <> Result.INSUFFICIENT_DATA.
Proof.
  cbv zeta.
  destruct (analyze_red_flags self sd) as [more [Hflags Hmore]].
  pose proof (has_complete_data_false sd) as Hmissing.
  pose proof (category_scores_in_range self sd) as Hrange. cbv zeta in Hrange.
  destruct Hrange as (Hv & Hp & Hr & Hd).
  split; [|split; [|split; [|split; [|split; [|split; [|split]]]]]];
    try assumption.
  - intros Hm. apply Hmissing in Hm. rewrite Hm in Hflags.
    rewrite Hflags. split; [left; reflexivity|reflexivity].
  - intros Hm. rewrite Hflags.
    destruct (Stock.has_complete_data sd); [exact Hmore|].
    contradiction Hm. now apply Hmissing.
  - apply analyze_rating.
  - rewrite analyze_rating.
    destruct (rating_of_score_cases (Spec.total_of (Analyzer.analyze self sd)))
      as [[? ->]|[[[? ?] ->]|[[[? ?] ->]|[[[? ?] ->]|[? ->]]]]];
      discriminate.
Qed.

Lemma incomplete_data_flag_follows_required_metrics_witness :
  In Analyzer.incomplete_data_flag
    (Result.red_flags
       (Analyzer.analyze Analyzer.default_FundamentalAnalyzer
          (Stock.new_StockData Spec.sample_company)))
  /\ ~ In Analyzer.incomplete_data_flag
         (Result.red_flags
            (Analyzer.analyze Analyzer.default_FundamentalAnalyzer
               Spec.blue_chip)).
Proof.
  split.
  - pose proof (incomplete_data_flag_follows_required_metrics
                  Analyzer.default_FundamentalAnalyzer
                  (Stock.new_StockData Spec.sample_company)) as H.
    cbv zeta in H. destruct H as (H & _).
    apply H. left. reflexivity.
  - pose proof (incomplete_data_flag_follows_required_metrics
                  Analyzer.default_FundamentalAnalyzer Spec.blue_chip) as H.
    cbv zeta in H. destruct H as (_ & H & _).
    apply H. unfold Spec.required_metric_missing. simpl.
    intros [E|[E|[E|[E|E]]]]; discriminate E.
Defined.

(* ------------------------------------------------------------------ *)
(** ** The range of the total score *)

(** With non-negative weights whose sum is at most 1 the total score
    lies between 0 and 100. *)
Lemma total_score_in_range_of_normal_weights
  (self : Analyzer.FundamentalAnalyzer) (sd : Stock.StockData) :
  let w := Analyzer.weights self in
  0 <= Settings.valuation_weight w ->
  0 <= Settings.profitability_weight w ->
  0 <= Settings.risk_weight w ->
  0 <= Settings.dividend_weight w ->
  Settings.weight_total w <= 1 ->
  0 <= Spec.total_of (Analyzer.analyze self sd) <= 100.
Proof.
  cbv zeta. intros Hwv Hwp Hwr Hwd Hsum.
  unfold Settings.weight_total in Hsum.
  rewrite analyze_total. unfold Analyzer._calculate_total_score. cbv zeta.
  pose proof (category_scores_in_range self sd) as Hrange. cbv zeta in Hrange.
  unfold Spec.valuation_of, Spec.profitability_of, Spec.risk_of,
    Spec.dividend_of in Hrange.
  destruct Hrange as (Hv & Hp & Hr & Hd).
  set (wv := Settings.valuation_weight (Analyzer.weights self)) in *.
  set (wp := Settings.profitability_weight (Analyzer.weights self)) in *.
  set (wr := Settings.risk_weight (Analyzer.weights self)) in *.
  set (wd := Settings.dividend_weight (Analyzer.weights self)) in *.
  set (v := Result.score (Result.valuation_score _)) in *.
  set (p := Result.score (Result.profitability_score _)) in *.
  set (k := Result.score (Result.risk_score _)) in *.
  set (d := Result.score (Result.dividend_score _)) in *.
  apply (round2_between 0 100); change (inject_Z 0) with 0;
    change (inject_Z 100) with 100; nra.
Qed.

(** C1 at the input on which it fails: weights summing to 1.005 are
    accepted at construction, the four category scores of a company in
    the best tier of every rule are 100 each, and the total score is
    100.5, above 100. *)
Theorem total_score_exceeds_100_for_accepted_weights :
  Settings.new_ScoringWeights (255 # 1000) (35 # 100) (20 # 100) (20 # 100)
  = Returns Spec.generous_weights
  /\ (let r := Analyzer.analyze Spec.generous_analyzer Spec.blue_chip in
      Spec.valuation_of r == 100
      /\ Spec.profitability_of r == 100
      /\ Spec.risk_of r == 100
      /\ Spec.dividend_of r == 100
      /\ Spec.total_of r == 1005 # 10
      /\ ~ Spec.total_of r <= 100).
Proof.
  split; [reflexivity|]. cbv zeta.
  repeat match goal with |- _ /\ _ => split end;
    try (vm_compute; reflexivity).
  vm_compute. intros H. now apply H.
Qed.

(* ------------------------------------------------------------------ *)
(** ** The descending stable sort *)

Section SortFacts.

Context {A : Type} (key : A -> Q).

Local Abbreviation insert_desc := (Builtins.insert_desc key).
Local Abbreviation sort_reverse := (Builtins.sort_reverse key).
Local Abbreviation with_key := (Spec.with_key key).
Local Abbreviation descending := (Spec.descending key).

Lemma insert_desc_perm (x : A) (l : list A) :
  Permutation (insert_desc x l) (x :: l).
Proof.
  induction l as [|y l IH]; simpl; [reflexivity|].
  destruct (key y >? key x); [|reflexivity].
  rewrite IH. apply perm_swap.
Qed.

Lemma sort_reverse_perm (l : list A) : Permutation (sort_reverse l) l.
Proof.
  induction l as [|x l IH]; simpl; [reflexivity|].
  rewrite insert_desc_perm. now rewrite IH.
Qed.

Lemma insert_desc_descending (x : A) (l : list A) :
  descending l -> descending (insert_desc x l).
Proof.
  unfold Spec.descending.
  induction l as [|y l IH]; intros Hs; simpl.
  - constructor; [constructor|constructor].
  - apply StronglySorted_inv in Hs. destruct Hs as [Hs Hy].
    destruct (key y >? key x) eqn:E; order_facts.
    + constructor; [now apply IH|].
      apply (Permutation_Forall (Permutation_sym (insert_desc_perm x l))).
      constructor; [lra|exact Hy].
    + constructor; [now constructor|].
      constructor; [exact E|].
      eapply Forall_impl; [exact Hy|]. intros z Hz. simpl in Hz. lra.
Qed.

Lemma sort_reverse_descending (l : list A) : descending (sort_reverse l).
Proof.
  induction l as [|x l IH]; simpl.
  - constructor.
  - now apply insert_desc_descending.
Qed.

Lemma with_key_cons (k : Q) (x : A) (l : list A) :
  with_key k (x :: l)
  = if Qeq_bool (key x) k then x :: with_key k l else with_key k l.
Proof. reflexivity. Qed.

Lemma insert_desc_with_key (k : Q) (x : A) (l : list A) :
  with_key k (insert_desc x l) = with_key k (x :: l).
Proof.
  induction l as [|y l IH]; [reflexivity|].
  simpl Builtins.insert_desc.
  destruct (key y >? key x) eqn:E; [|reflexivity]. order_facts.
  rewrite (with_key_cons k y (insert_desc x l)), IH.
  rewrite !with_key_cons.
  destruct (Qeq_bool (key x) k) eqn:Ex;
    destruct (Qeq_bool (key y) k) eqn:Ey; try reflexivity.
  apply Qeq_bool_iff in Ex. apply Qeq_bool_iff in Ey. lra.
Qed.

Lemma sort_reverse_stable (l : list A) : Spec.stable key l (sort_reverse l).
Proof.
  intros k. induction l as [|x l IH]; [reflexivity|].
  simpl Builtins.sort_reverse.
  rewrite insert_desc_with_key, !with_key_cons. now rewrite IH.
Qed.

Lemma with_key_In (k : Q) (x : A) (l : list A) :
  In x (with_key k l) -> In x l.
Proof. unfold Spec.with_key. intros H. now apply filter_In in H. Qed.

Lemma with_key_own_head (x : A) (l : list A) :
  with_key (key x) (x :: l) = x :: with_key (key x) l.
Proof.
  rewrite with_key_cons.
  now rewrite (proj2 (Qeq_bool_iff (key x) (key x)) (Qeq_refl _)).
Qed.

Lemma descending_head_max (x y : A) (l : list A) :
  descending (x :: l) -> In y (x :: l) -> key y <= key x.
Proof.
  unfold Spec.descending. intros Hs Hin.
  apply StronglySorted_inv in Hs. destruct Hs as [_ Hx].
  destruct Hin as [->|Hin]; [lra|].
  rewrite List.Forall_forall in Hx. now apply Hx.
Qed.

(** Two descending lists with the same elements under every key, in the
    same order, are the same list. *)
Lemma descending_stable_unique (l1 l2 : list A) :
  descending l1 -> descending l2 ->
  (forall k, with_key k l1 = with_key k l2) -> l1 = l2.
Proof.
  revert l2. induction l1 as [|x l1 IH]; intros l2 H1 H2 Hsame.
  - destruct l2 as [|y l2]; [reflexivity|].
    specialize (Hsame (key y)). rewrite with_key_own_head in Hsame.
    discriminate Hsame.
  - destruct l2 as [|y l2].
    { specialize (Hsame (key x)). rewrite with_key_own_head in Hsame.
      discriminate Hsame. }
    assert (Hyx : key y <= key x).
    { apply (descending_head_max x y l1 H1).
      apply (with_key_In (key y)). rewrite Hsame, with_key_own_head.
      now left. }
    assert (Hxy : key x <= key y).
    { apply (descending_head_max y x l2 H2).
      apply (with_key_In (key x)). rewrite <- Hsame, with_key_own_head.
      now left. }
    assert (Heq : x = y).
    { pose proof (Hsame (key x)) as Hk.
      rewrite with_key_own_head, with_key_cons in Hk.
      assert (E : Qeq_bool (key y) (key x) = true)
        by (apply Qeq_bool_iff; lra).
      rewrite E in Hk. now injection Hk. }
    subst y. f_equal. apply IH.
    + unfold Spec.descending in *. now apply StronglySorted_inv in H1.
    + unfold Spec.descending in *. now apply StronglySorted_inv in H2.
    + intros k. specialize (Hsame k). rewrite !with_key_cons in Hsame.
      destruct (Qeq_bool (key x) k); [now injection Hsame|exact Hsame].
Qed.

(** Whatever algorithm sorts a list in descending order of the key and
    is stable gives the list [sort_reverse] gives. *)
Lemma sort_reverse_unique (l l' : list A) :
  descending l' -> Spec.stable key l l' -> l' = sort_reverse l.
Proof.
  intros Hd Hs. apply descending_stable_unique.
  - exact Hd.
  - apply sort_reverse_descending.
  - intros k. rewrite (Hs k). symmetry. apply sort_reverse_stable.
Qed.

End SortFacts.

(* ------------------------------------------------------------------ *)
(** ** The batch *)

Section Batch.

Variable self : Analyzer.FundamentalAnalyzer.

(** The loop collects one result per input, in input order. *)
Lemma batch_results_collected (stocks : list Stock.StockData)
  (acc : list Result.ScreeningResult) :
  fold_left (fun results sd => results ++ [Analyzer.analyze self sd])
    stocks acc
  = acc ++ map (Analyzer.analyze self) stocks.
Proof.
  revert acc. induction stocks as [|sd stocks IH]; intros acc; simpl.
  - now rewrite app_nil_r.
  - rewrite IH. now rewrite <- app_assoc.
Qed.

Lemma batch_analyze_unfold (stocks : list Stock.StockData) :
  Analyzer.batch_analyze self stocks
  = Builtins.sort_reverse Spec.total_of (map (Analyzer.analyze self) stocks).
Proof.
  unfold Analyzer.batch_analyze. cbv zeta.
  now rewrite batch_results_collected.
Qed.

(** C5: the batch returns one result per input (a rearrangement of the
    results in input order), in descending order of the total score,
    with results of equal total score in input order; it is the only
    list with these properties; inputs scoring 72.0, 45.5 and 91.2 come
    out in the order 91.2, 72.0, 45.5, and two inputs with equal total
    scores come out in input order. *)
Theorem batch_analyze_sorts_stably (stocks : list Stock.StockData) :
  let out := Analyzer.batch_analyze self stocks in
  let results := map (Analyzer.analyze self) stocks in
  length out = length stocks
  /\ Permutation out results
  /\ Spec.descending Spec.total_of out
  /\ Spec.stable Spec.total_of results out
  /\ (forall l', Spec.descending Spec.total_of l' ->
        Spec.stable Spec.total_of results l' -> l' = out)
  /\ (forall s1 s2 s3,
        Spec.total_of (Analyzer.analyze self s1) == 72 ->
        Spec.total_of (Analyzer.analyze self s2) == 455 # 10 ->
        Spec.total_of (Analyzer.analyze self s3) == 912 # 10 ->
        Analyzer.batch_analyze self [s1; s2; s3]
        = [Analyzer.analyze self s3; Analyzer.analyze self s1;
           Analyzer.analyze self s2])
  /\ (forall s1 s2,
        Spec.total_of (Analyzer.analyze self s1)
        == Spec.total_of (Analyzer.analyze self s2) ->
        Analyzer.batch_analyze self [s1; s2]
        = [Analyzer.analyze self s1; Analyzer.analyze self s2]).
Proof.
  cbv zeta. rewrite batch_analyze_unfold.
  split; [|split; [|split; [|split; [|split; [|split]]]]].
  - rewrite (Permutation_length (sort_reverse_perm Spec.total_of _)).
    apply length_map.
  - apply sort_reverse_perm.
  - apply sort_reverse_descending.
  - apply sort_reverse_stable.
  - intros l' Hd Hs. now apply sort_reverse_unique.
  - intros s1 s2 s3 H1 H2 H3. rewrite batch_analyze_unfold.
    cbn [map Builtins.sort_reverse Builtins.insert_desc].
    assert (E32 : (Spec.total_of (Analyzer.analyze self s3)
                   >? Spec.total_of (Analyzer.analyze self s2)) = true)
      by (apply gtb_gt; lra).
    assert (E31 : (Spec.total_of (Analyzer.analyze self s3)
                   >? Spec.total_of (Analyzer.analyze self s1)) = true)
      by (apply gtb_gt; lra).
    assert (E21 : (Spec.total_of (Analyzer.analyze self s2)
                   >? Spec.total_of (Analyzer.analyze self s1)) = false)
      by (apply gtb_le; lra).
    rewrite E32. cbn [Builtins.insert_desc]. rewrite E31, E21. reflexivity.
  - intros s1 s2 H. rewrite batch_analyze_unfold.
    cbn [map Builtins.sort_reverse Builtins.insert_desc].
    assert (E21 : (Spec.total_of (Analyzer.analyze self s2)
                   >? Spec.total_of (Analyzer.analyze self s1)) = false)
      by (apply gtb_le; lra).
    now rewrite E21.
Qed.

End Batch.

Lemma batch_analyze_sorts_stably_witness :
  Spec.total_of (Analyzer.analyze Spec.batch_analyzer Spec.stock_72) == 72
  /\ Spec.total_of (Analyzer.analyze Spec.batch_analyzer Spec.stock_45_5)
     == 455 # 10
  /\ Spec.total_of (Analyzer.analyze Spec.batch_analyzer Spec.stock_91_2)
     == 912 # 10
  /\ Analyzer.batch_analyze Spec.batch_analyzer
       [Spec.stock_72; Spec.stock_45_5; Spec.stock_91_2]
     = [Analyzer.analyze Spec.batch_analyzer Spec.stock_91_2;
        Analyzer.analyze Spec.batch_analyzer Spec.stock_72;
        Analyzer.analyze Spec.batch_analyzer Spec.stock_45_5].
Proof.
  assert (H1 : Spec.total_of
                 (Analyzer.analyze Spec.batch_analyzer Spec.stock_72) == 72)
    by (vm_compute; reflexivity).
  assert (H2 : Spec.total_of
                 (Analyzer.analyze Spec.batch_analyzer Spec.stock_45_5)
               == 455 # 10)
    by (vm_compute; reflexivity).
  assert (H3 : Spec.total_of
                 (Analyzer.analyze Spec.batch_analyzer Spec.stock_91_2)
               == 912 # 10)
    by (vm_compute; reflexivity).
  split; [exact H1|]. split; [exact H2|]. split; [exact H3|].
  pose proof (batch_analyze_sorts_stably Spec.batch_analyzer []) as H.
  cbv zeta in H. destruct H as (_ & _ & _ & _ & _ & H & _).
  exact (H Spec.stock_72 Spec.stock_45_5 Spec.stock_91_2 H1 H2 H3).
Defined.

(* ================================================================== *)
(** * Further properties of the scoring engine *)

(** ** What a scorer does to the shared result *)

Lemma grown_nil (r : Result.ScreeningResult) : Shape.grown r [] [] [] [] = r.
Proof. destruct r. unfold Shape.grown. simpl. now rewrite !app_nil_r. Qed.

Lemma grown_grown (r : Result.ScreeningResult) ins1 rf1 st1 wk1 ins2 rf2 st2 wk2 :
  Shape.grown (Shape.grown r ins1 rf1 st1 wk1) ins2 rf2 st2 wk2
  = Shape.grown r (ins1 ++ ins2) (rf1 ++ rf2) (st1 ++ st2) (wk1 ++ wk2).
Proof. unfold Shape.grown. simpl. now rewrite !app_assoc. Qed.

Lemma records_then n m (s1 s2 : Analyzer.Stmt) :
  Shape.records n s1 -> Shape.records m s2 ->
  Shape.records (n + m) (Analyzer.then_ s1 s2).
Proof.
  intros H1 H2 f. unfold Analyzer.then_.
  destruct (H1 f) as (i1 & r1 & s1' & w1 & E1 & C1 & F1).
  destruct (H2 (s1 f)) as (i2 & r2 & s2' & w2 & E2 & C2 & F2).
  exists (i1 ++ i2), (r1 ++ r2), (s1' ++ s2'), (w1 ++ w2).
  split; [|split].
  - rewrite E2, E1. apply grown_grown.
  - rewrite !length_app. lia.
  - apply Forall_app. now split.
Qed.

Lemma records_close bar : Shape.records 0 (Analyzer.close bar).
Proof.
  intros f. exists [], [], [], []. split; [|split].
  - simpl. symmetry. apply grown_nil.
  - reflexivity.
  - constructor.
Qed.

(** The result of the frame on both sides, list by list. *)
Ltac same_result f :=
  simpl; destruct (Analyzer.result f); unfold Shape.grown; simpl;
  rewrite ?app_nil_r; reflexivity.

Ltac scorer_insight_holds :=
  repeat constructor; simpl;
  first [ left; reflexivity
        | right; left; reflexivity
        | right; right; left; reflexivity
        | right; right; right; reflexivity
        | right; reflexivity ].

(** Each branch of a rule writes one finding into one of the lists. *)
Ltac one_finding f :=
  first
  [ (eexists [_], [], [], []; split; [same_result f|];
     split; [reflexivity|scorer_insight_holds])
  | (eexists [], [_], [], []; split; [same_result f|];
     split; [reflexivity|constructor])
  | (eexists [], [], [_], []; split; [same_result f|];
     split; [reflexivity|constructor])
  | (eexists [], [], [], [_]; split; [same_result f|];
     split; [reflexivity|constructor]) ].

Ltac by_cases_of_findings :=
  intros f; cbv zeta; unfold Analyzer.if_positive;
  repeat match goal with
  | |- context [match ?o with Some _ => _ | None => _ end] => destruct o
  end;
  split_tests; one_finding f.

Section Findings.

Variable self : Analyzer.FundamentalAnalyzer.

Lemma pe_rule_records pe : Shape.records 1 (Analyzer.pe_rule self pe).
Proof. unfold Analyzer.pe_rule. by_cases_of_findings. Qed.

Lemma pbv_rule_records pbv : Shape.records 1 (Analyzer.pbv_rule self pbv).
Proof. unfold Analyzer.pbv_rule. by_cases_of_findings. Qed.

Lemma market_cap_rule_records mc :
  Shape.records 1 (Analyzer.market_cap_rule self mc).
Proof. unfold Analyzer.market_cap_rule. by_cases_of_findings. Qed.

Lemma eps_rule_records h : Shape.records 1 (Analyzer.eps_rule h).
Proof. unfold Analyzer.eps_rule. by_cases_of_findings. Qed.

Lemma gross_margin_rule_records gpm :
  Shape.records 1 (Analyzer.gross_margin_rule self gpm).
Proof. unfold Analyzer.gross_margin_rule. by_cases_of_findings. Qed.

Lemma roe_rule_records roe : Shape.records 1 (Analyzer.roe_rule self roe).
Proof. unfold Analyzer.roe_rule. by_cases_of_findings. Qed.

Lemma ocf_rule_records ocf : Shape.records 1 (Analyzer.ocf_rule ocf).
Proof. unfold Analyzer.ocf_rule. by_cases_of_findings. Qed.

Lemma fcf_rule_records fcf : Shape.records 1 (Analyzer.fcf_rule fcf).
Proof. unfold Analyzer.fcf_rule. by_cases_of_findings. Qed.

Lemma debt_rule_records dte : Shape.records 1 (Analyzer.debt_rule self dte).
Proof. unfold Analyzer.debt_rule. by_cases_of_findings. Qed.

Lemma beta_rule_records beta : Shape.records 1 (Analyzer.beta_rule self beta).
Proof.
  unfold Analyzer.beta_rule, Analyzer.within_beta_max. by_cases_of_findings.
Qed.

Lemma dividend_rule_records dy :
  Shape.records 1 (Analyzer.dividend_rule self dy).
Proof. unfold Analyzer.dividend_rule. by_cases_of_findings. Qed.

Lemma scorer_records c w body r n :
  Shape.records n body ->
  exists ins rf st wk,
    snd (Analyzer.scorer c w body r) = Shape.grown r ins rf st wk
    /\ (length ins + length rf + length st + length wk)%nat = n
    /\ Forall Shape.scorer_insight ins.
Proof.
  intros H. unfold Analyzer.scorer. cbv zeta. cbn [snd].
  match goal with |- context [body ?f] => exact (H f) end.
Qed.

Lemma valuation_records sd r :
  exists ins rf st wk,
    snd (Analyzer._analyze_valuation self sd r) = Shape.grown r ins rf st wk
    /\ (length ins + length rf + length st + length wk)%nat = 3%nat
    /\ Forall Shape.scorer_insight ins.
Proof.
  unfold Analyzer._analyze_valuation. cbv zeta. apply scorer_records.
  apply (records_then 1 2); [apply pe_rule_records|].
  apply (records_then 1 1); [apply pbv_rule_records|].
  apply (records_then 1 0); [apply market_cap_rule_records|].
  apply records_close.
Qed.

Lemma profitability_records sd r :
  exists ins rf st wk,
    snd (Analyzer._analyze_profitability self sd r)
    = Shape.grown r ins rf st wk
    /\ (length ins + length rf + length st + length wk)%nat = 5%nat
    /\ Forall Shape.scorer_insight ins.
Proof.
  unfold Analyzer._analyze_profitability. cbv zeta. apply scorer_records.
  apply (records_then 1 4); [apply eps_rule_records|].
  apply (records_then 1 3); [apply gross_margin_rule_records|].
  apply (records_then 1 2); [apply roe_rule_records|].
  apply (records_then 1 1); [apply ocf_rule_records|].
  apply (records_then 1 0); [apply fcf_rule_records|].
  apply records_close.
Qed.

Lemma risk_records sd r :
  exists ins rf st wk,
    snd (Analyzer._analyze_risk self sd r) = Shape.grown r ins rf st wk
    /\ (length ins + length rf + length st + length wk)%nat = 2%nat
    /\ Forall Shape.scorer_insight ins.
Proof.
  unfold Analyzer._analyze_risk. cbv zeta. apply scorer_records.
  apply (records_then 1 1); [apply debt_rule_records|].
  apply (records_then 1 0); [apply beta_rule_records|].
  apply records_close.
Qed.

Lemma dividend_records sd r :
  exists ins rf st wk,
    snd (Analyzer._analyze_dividend self sd r) = Shape.grown r ins rf st wk
    /\ (length ins + length rf + length st + length wk)%nat = 1%nat
    /\ Forall Shape.scorer_insight ins.
Proof.
  unfold Analyzer._analyze_dividend. cbv zeta. apply scorer_records.
  apply (records_then 1 0); [apply dividend_rule_records|].
  apply records_close.
Qed.

(** The lists and the identity of a finished result. *)
Lemma analyze_shape (sd : Stock.StockData) :
  exists ins rf st wk,
    (length ins + length rf + length st + length wk)%nat = 11%nat
    /\ Forall Shape.scorer_insight ins
    /\ Result.insights (Analyzer.analyze self sd) = ins
    /\ Result.red_flags (Analyzer.analyze self sd)
       = (if Stock.has_complete_data sd then []
          else [Analyzer.incomplete_data_flag]) ++ rf
    /\ Result.strengths (Analyzer.analyze self sd) = st
    /\ Result.weaknesses (Analyzer.analyze self sd) = wk
    /\ Result.ticker (Analyzer.analyze self sd) = Stock.get_ticker sd
    /\ Result.company_name (Analyzer.analyze self sd)
       = Stock.name (Stock.company_info sd)
    /\ Result.sector (Analyzer.analyze self sd)
       = Stock.sector (Stock.company_info sd)
    /\ Result.industry (Analyzer.analyze self sd)
       = Stock.industry (Stock.company_info sd)
    /\ Result.data_completeness (Analyzer.analyze self sd)
       = Analyzer.quality_or_zero (Stock.data_quality_score sd)
    /\ Result.key_metrics (Analyzer.analyze self sd)
       = Analyzer._build_key_metrics_summary sd.
Proof.
  unfold Analyzer.analyze; cbv zeta.
  match goal with |- context [Analyzer._analyze_valuation self sd ?r] =>
    set (r1 := r);
    pose proof (valuation_records sd r1) as (i1 & f1 & s1 & w1 & G1 & C1 & I1);
    destruct (Analyzer._analyze_valuation self sd r1) as [c1 q1]
  end.
  match goal with |- context [Analyzer._analyze_profitability self sd ?r] =>
    set (r2 := r);
    pose proof (profitability_records sd r2)
      as (i2 & f2 & s2 & w2 & G2 & C2 & I2);
    destruct (Analyzer._analyze_profitability self sd r2) as [c2 q2]
  end.
  match goal with |- context [Analyzer._analyze_risk self sd ?r] =>
    set (r3 := r);
    pose proof (risk_records sd r3) as (i3 & f3 & s3 & w3 & G3 & C3 & I3);
    destruct (Analyzer._analyze_risk self sd r3) as [c3 q3]
  end.
  match goal with |- context [Analyzer._analyze_dividend self sd ?r] =>
    set (r4 := r);
    pose proof (dividend_records sd r4) as (i4 & f4 & s4 & w4 & G4 & C4 & I4);
    destruct (Analyzer._analyze_dividend self sd r4) as [c4 q4]
  end.
  cbn [snd] in *. subst q4 r4 q3 r3 q2 r2 q1.
  exists (i1 ++ i2 ++ i3 ++ i4), (f1 ++ f2 ++ f3 ++ f4),
    (s1 ++ s2 ++ s3 ++ s4), (w1 ++ w2 ++ w3 ++ w4).
  split; [rewrite !length_app; lia|].
  split; [repeat (apply Forall_app; split); assumption|].
  cbn [Result.insights Result.red_flags Result.strengths Result.weaknesses
       Result.ticker Result.company_name Result.sector Result.industry
       Result.data_completeness Result.key_metrics Result.set_key_metrics
       Result.set_rating Result.set_metrics Shape.grown].
  subst r1.
  destruct (Stock.has_complete_data sd);
    cbn [negb Result.insights Result.red_flags Result.strengths
         Result.weaknesses Result.ticker Result.company_name Result.sector
         Result.industry Result.data_completeness Result.add_red_flag
         Result.new_ScreeningResult app];
    rewrite <- ?app_assoc; repeat split; reflexivity.
Qed.

End Findings.

(* ------------------------------------------------------------------ *)
(** ** Findings, identity and insights of a finished result *)

(** X1: every rule of the four scorers records exactly one finding, so a
    finished result carries 11 findings over its insights, red flags,
    strengths and weaknesses, plus the flag for incomplete data when a
    required metric is absent. *)
Theorem analyze_records_one_finding_per_rule
  (self : Analyzer.FundamentalAnalyzer) (sd : Stock.StockData) :
  Shape.findings (Analyzer.analyze self sd)
  = (11 + (if Stock.has_complete_data sd then 0 else 1))%nat.
Proof.
  destruct (analyze_shape self sd)
    as (ins & rf & st & wk & C & _ & Hi & Hr & Hs & Hw & _).
  unfold Shape.findings. rewrite Hi, Hr, Hs, Hw, length_app.
  destruct (Stock.has_complete_data sd); simpl; lia.
Qed.

(** X2: a finished result carries the ticker, name, sector and industry
    of the company, the completeness score of the record (0 when it is
    absent), and a digest that maps each of its nine keys to the raw
    value of the record. *)
Theorem analyze_copies_identity_and_digest
  (self : Analyzer.FundamentalAnalyzer) (sd : Stock.StockData) :
  let r := Analyzer.analyze self sd in
  let k := Result.key_metrics r in
  Result.ticker r = Stock.ticker (Stock.company_info sd)
  /\ Result.company_name r = Stock.name (Stock.company_info sd)
  /\ Result.sector r = Stock.sector (Stock.company_info sd)
  /\ Result.industry r = Stock.industry (Stock.company_info sd)
  /\ Result.data_completeness r
     == match Stock.data_quality_score sd with Some q => q | None => 0 end
  /\ size k = 9%nat
  /\ k !! "pe_ratio"%string = Some (Stock.pe_ratio (Stock.valuation sd))
  /\ k !! "pbv"%string = Some (Stock.price_to_book (Stock.valuation sd))
  /\ k !! "market_cap"%string = Some (Stock.market_cap (Stock.valuation sd))
  /\ k !! "roe"%string = Some (Stock.roe (Stock.profitability sd))
  /\ k !! "gross_margin"%string
     = Some (Stock.gross_margin (Stock.profitability sd))
  /\ k !! "debt_to_equity"%string
     = Some (Stock.debt_to_equity (Stock.leverage sd))
  /\ k !! "dividend_yield"%string
     = Some (Stock.dividend_yield (Stock.dividend sd))
  /\ k !! "current_price"%string
     = Some (Stock.current_price (Stock.price sd))
  /\ k !! "eps"%string = Some (Stock.eps (Stock.profitability sd)).
Proof.
  cbv zeta.
  destruct (analyze_shape self sd)
    as (ins & rf & st & wk & _ & _ & _ & _ & _ & _
        & Ht & Hn & Hs & Hi & Hd & Hk).
  rewrite Ht, Hn, Hs, Hi, Hd, Hk.
  split; [reflexivity|]. split; [reflexivity|]. split; [reflexivity|].
  split; [reflexivity|]. split.
  - unfold Analyzer.quality_or_zero, Num.truthy.
    destruct (Stock.data_quality_score sd) as [q|]; [|reflexivity].
    destruct (Qeq_bool q 0) eqn:E; simpl; [|reflexivity].
    apply Qeq_bool_iff in E. now symmetry.
  - unfold Analyzer._build_key_metrics_summary.
    repeat split; vm_compute; reflexivity.
Qed.

(** X3: the insights of a finished result belong to the four scored
    categories and are of severity positive or neutral; the scorers
    never write an insight of severity negative or warning, nor one of
    another category. *)
Theorem analyze_insights_are_positive_or_neutral
  (self : Analyzer.FundamentalAnalyzer) (sd : Stock.StockData) :
  let r := Analyzer.analyze self sd in
  Forall Shape.scorer_insight (Result.insights r)
  /\ Result.get_insights_by_severity "negative" r = []
  /\ Result.get_insights_by_severity "warning" r = []
  /\ Result.get_insights_by_category "News" r = []
  /\ (length (Result.get_insights_by_severity "positive" r)
      + length (Result.get_insights_by_severity "neutral" r)
      = length (Result.insights r))%nat.
Proof.
  cbv zeta.
  destruct (analyze_shape self sd) as (ins & rf & st & wk & _ & Hf & Hi & _).
  unfold Result.get_insights_by_severity, Result.get_insights_by_category.
  rewrite Hi. clear Hi. split; [exact Hf|].
  induction Hf as [|i ins [Hc Hs] Hf IH]; [repeat split; reflexivity|].
  destruct IH as (IH1 & IH2 & IH3 & IH4).
  cbn [List.filter].
  destruct Hc as [Hc|[Hc|[Hc|Hc]]]; destruct Hs as [Hs|Hs];
    rewrite Hc, Hs; cbn [String.eqb Ascii.eqb Bool.eqb andb];
    simpl String.eqb; cbn [length];
    rewrite ?IH1, ?IH2, ?IH3; repeat split; try reflexivity; lia.
Qed.

(* ------------------------------------------------------------------ *)
(** ** Edge cases and order of the rules *)

Section Rules.

Variable self : Analyzer.FundamentalAnalyzer.


Lemma uniform_then (s1 s2 : Analyzer.Stmt) :
  Shape.uniform s1 -> Shape.uniform s2 -> Shape.uniform (Analyzer.then_ s1 s2).
Proof.
  intros H1 H2 f g. unfold Analyzer.then_.
  specialize (H1 f g). specialize (H2 (s1 f) (s1 g)). lra.
Qed.

Lemma uniform_close bar : Shape.uniform (Analyzer.close bar).
Proof. intros f g. simpl. lra. Qed.

Ltac by_cases_uniform :=
  intros f g; cbv zeta; unfold Analyzer.if_positive;
  repeat match goal with
  | |- context [match ?o with Some _ => _ | None => _ end] => destruct o
  end;
  split_tests; simpl; lra.

Lemma pe_rule_uniform pe : Shape.uniform (Analyzer.pe_rule self pe).
Proof. unfold Analyzer.pe_rule. by_cases_uniform. Qed.

Lemma pbv_rule_uniform pbv : Shape.uniform (Analyzer.pbv_rule self pbv).
Proof. unfold Analyzer.pbv_rule. by_cases_uniform. Qed.

Lemma market_cap_rule_uniform mc :
  Shape.uniform (Analyzer.market_cap_rule self mc).
Proof. unfold Analyzer.market_cap_rule. by_cases_uniform. Qed.

Lemma debt_rule_uniform dte : Shape.uniform (Analyzer.debt_rule self dte).
Proof. unfold Analyzer.debt_rule. by_cases_uniform. Qed.

Lemma beta_rule_uniform beta : Shape.uniform (Analyzer.beta_rule self beta).
Proof.
  unfold Analyzer.beta_rule, Analyzer.within_beta_max. by_cases_uniform.
Qed.

(** Among positive P/E values the lower one earns at least as much. *)
Lemma pe_rule_antitone (a b : Q) (f : Analyzer.Frame) :
  0 < a -> a <= b ->
  Spec.points (Analyzer.pe_rule self (Some b) f)
  <= Spec.points (Analyzer.pe_rule self (Some a) f).
Proof.
  intros Ha Hab. unfold Analyzer.pe_rule, Analyzer.if_positive, Spec.points.
  cbv zeta.
  assert (Ea : (a >? 0) = true) by (apply gtb_gt; lra).
  assert (Eb : (b >? 0) = true) by (apply gtb_gt; lra).
  rewrite Ea, Eb. split_tests; order_facts; simpl; lra.
Qed.

Lemma debt_rule_antitone (a b : Q) (f : Analyzer.Frame) :
  a <= b ->
  Spec.points (Analyzer.debt_rule self (Some b) f)
  <= Spec.points (Analyzer.debt_rule self (Some a) f).
Proof.
  intros Hab. unfold Analyzer.debt_rule, Spec.points. cbv zeta.
  split_tests; order_facts; simpl; lra.
Qed.

(** X5: with the other metrics unchanged, of two positive P/E values the
    lower never gives the lower valuation score, and of two
    debt-to-equity values the lower never gives the lower risk score. *)
Theorem lower_ratio_never_scores_lower (sd : Stock.StockData)
  (r : Result.ScreeningResult) (a b : Q) :
  a <= b ->
  (0 < a ->
   Result.score
     (fst (Analyzer._analyze_valuation self (Shape.with_pe (Some b) sd) r))
   <= Result.score
        (fst (Analyzer._analyze_valuation self (Shape.with_pe (Some a) sd) r)))
  /\ Result.score
       (fst (Analyzer._analyze_risk self
               (Shape.with_debt_to_equity (Some b) sd) r))
     <= Result.score
          (fst (Analyzer._analyze_risk self
                  (Shape.with_debt_to_equity (Some a) sd) r)).
Proof.
  intros Hab. split.
  - intros Ha.
    unfold Analyzer._analyze_valuation, Analyzer.scorer. cbv zeta.
    cbn [fst Shape.with_pe Stock.valuation Stock.pe_ratio
         Stock.price_to_book Stock.market_cap].
    set (f0 := {| Analyzer.score := _; Analyzer.details := _;
                  Analyzer.result := r |}).
    set (rest := Analyzer.then_
                   (Analyzer.pbv_rule self _)
                   (Analyzer.then_ (Analyzer.market_cap_rule self _)
                      (Analyzer.close 50))).
    assert (Hrest : Shape.uniform rest).
    { apply uniform_then; [apply pbv_rule_uniform|].
      apply uniform_then; [apply market_cap_rule_uniform|apply uniform_close]. }
    pose proof (pe_rule_antitone a b f0 Ha Hab) as Hpe.
    unfold Spec.points in Hpe. unfold Analyzer.then_.
    specialize (Hrest (Analyzer.pe_rule self (Some a) f0)
                      (Analyzer.pe_rule self (Some b) f0)).
    lra.
  - unfold Analyzer._analyze_risk, Analyzer.scorer. cbv zeta.
    cbn [fst Shape.with_debt_to_equity Stock.leverage Stock.debt_to_equity
         Stock.beta].
    set (f0 := {| Analyzer.score := _; Analyzer.details := _;
                  Analyzer.result := r |}).
    set (rest := Analyzer.then_ (Analyzer.beta_rule self _)
                   (Analyzer.close 50)).
    assert (Hrest : Shape.uniform rest).
    { apply uniform_then; [apply beta_rule_uniform|apply uniform_close]. }
    pose proof (debt_rule_antitone a b f0 Hab) as Hd.
    unfold Spec.points in Hd. unfold Analyzer.then_.
    specialize (Hrest (Analyzer.debt_rule self (Some a) f0)
                      (Analyzer.debt_rule self (Some b) f0)).
    lra.
Qed.

(** X6: the risk category passes exactly when the debt-to-equity ratio
    is present and within the preferred or the maximum threshold; beta
    has no say in it. *)
Theorem risk_passes_on_leverage_alone (sd : Stock.StockData)
  (r : Result.ScreeningResult) :
  let rc := Settings.risk (Analyzer.criteria self) in
  Result.passed (fst (Analyzer._analyze_risk self sd r))
  = match Stock.debt_to_equity (Stock.leverage sd) with
    | Some dte =>
        (dte <=? Settings.debt_to_equity_preferred rc)
        || (dte <=? Settings.debt_to_equity_max rc)
    | None => false
    end.
Proof.
  cbv zeta.
  unfold Analyzer._analyze_risk, Analyzer.scorer, Analyzer.debt_rule,
    Analyzer.beta_rule, Analyzer.within_beta_max. cbv zeta.
  destruct (Stock.debt_to_equity (Stock.leverage sd)) as [dte|];
    destruct (Stock.beta (Stock.leverage sd)) as [beta|];
    destruct (Settings.beta_max (Settings.risk (Analyzer.criteria self)));
    split_tests; reflexivity.
Qed.



End Rules.


Lemma lower_ratio_never_scores_lower_witness :
  Result.score
    (fst (Analyzer._analyze_risk Analyzer.default_FundamentalAnalyzer
            (Shape.with_debt_to_equity (Some 2) Spec.blue_chip)
            (Spec.result_with_total 0)))
  <= Result.score
       (fst (Analyzer._analyze_risk Analyzer.default_FundamentalAnalyzer
               (Shape.with_debt_to_equity (Some (1 # 4)) Spec.blue_chip)
               (Spec.result_with_total 0))).
Proof.
  apply (lower_ratio_never_scores_lower Analyzer.default_FundamentalAnalyzer
           Spec.blue_chip
           (Spec.result_with_total 0) (1 # 4) 2).
  unfold Qle. simpl. lia.
Defined.



(* ------------------------------------------------------------------ *)
(** ** Ranges, rating and batch *)

(** X10: whatever the record, the criteria and the weights, each of the
    four category scores of a finished result lies between 0 and 100. *)
Theorem every_category_score_in_range
  (self : Analyzer.FundamentalAnalyzer) (sd : Stock.StockData) :
  Forall (fun c => 0 <= Result.score c <= 100)
    (Result.get_all_category_scores
       (Result.metrics (Analyzer.analyze self sd))).
Proof.
  pose proof (category_scores_in_range self sd) as H. cbv zeta in H.
  unfold Spec.valuation_of, Spec.profitability_of, Spec.risk_of,
    Spec.dividend_of in H.
  destruct H as (Hv & Hp & Hr & Hd).
  unfold Result.get_all_category_scores.
  repeat constructor; try tauto; lra.
Qed.

(** X11: when the four weights are non-negative and sum to at most 1,
    the total score of a finished result lies between 0 and 100. *)
Theorem total_score_in_range_for_normal_weights
  (self : Analyzer.FundamentalAnalyzer) (sd : Stock.StockData) :
  0 <= Settings.valuation_weight (Analyzer.weights self) ->
  0 <= Settings.profitability_weight (Analyzer.weights self) ->
  0 <= Settings.risk_weight (Analyzer.weights self) ->
  0 <= Settings.dividend_weight (Analyzer.weights self) ->
  Settings.weight_total (Analyzer.weights self) <= 1 ->
  0 <= Result.total_score (Result.metrics (Analyzer.analyze self sd)) <= 100.
Proof.
  intros. now apply total_score_in_range_of_normal_weights.
Qed.

Lemma total_score_in_range_for_normal_weights_witness :
  0 <= Result.total_score
         (Result.metrics
            (Analyzer.analyze Analyzer.default_FundamentalAnalyzer
               Spec.blue_chip)) <= 100.
Proof.
  apply (total_score_in_range_for_normal_weights
           Analyzer.default_FundamentalAnalyzer Spec.blue_chip);
    unfold Qle; simpl; lia.
Defined.

(** X12: a finished result has strong fundamentals exactly when its
    total score is at least 60. *)
Theorem strong_fundamentals_from_60
  (self : Analyzer.FundamentalAnalyzer) (sd : Stock.StockData) :
  Result.is_strong_fundamentals (Analyzer.analyze self sd) = true
  <-> 60 <= Result.total_score (Result.metrics (Analyzer.analyze self sd)).
Proof.
  unfold Result.is_strong_fundamentals. rewrite analyze_rating.
  unfold Spec.total_of.
  destruct (rating_of_score_cases
              (Result.total_score (Result.metrics (Analyzer.analyze self sd))))
    as [[? ->]|[[[? ?] ->]|[[[? ?] ->]|[[[? ?] ->]|[? ->]]]]];
    split; intros Hs; try reflexivity; try discriminate; lra.
Qed.

(** X13: the first result of a batch has the highest total score of the
    batch, and an empty batch gives an empty list. *)
Theorem batch_leader_has_highest_total
  (self : Analyzer.FundamentalAnalyzer) (stocks : list Stock.StockData)
  (leader : Result.ScreeningResult) (others : list Result.ScreeningResult) :
  Analyzer.batch_analyze self stocks = leader :: others ->
  (forall sd, In sd stocks ->
     Spec.total_of (Analyzer.analyze self sd) <= Spec.total_of leader)
  /\ Analyzer.batch_analyze self [] = [].
Proof.
  intros Hb. split; [|reflexivity]. intros sd Hin.
  pose proof (sort_reverse_descending Spec.total_of
                (map (Analyzer.analyze self) stocks)) as Hd.
  pose proof (sort_reverse_perm Spec.total_of
                (map (Analyzer.analyze self) stocks)) as Hp.
  rewrite <- batch_analyze_unfold in Hd, Hp. rewrite Hb in Hd, Hp.
  apply (descending_head_max Spec.total_of leader _ others Hd).
  apply (Permutation_in _ (Permutation_sym Hp)).
  now apply in_map.
Qed.

Lemma batch_leader_has_highest_total_witness :
  Spec.total_of (Analyzer.analyze Spec.batch_analyzer Spec.stock_45_5)
  <= Spec.total_of (Analyzer.analyze Spec.batch_analyzer Spec.stock_91_2).
Proof.
  assert (Hb : Analyzer.batch_analyze Spec.batch_analyzer
                 [Spec.stock_72; Spec.stock_45_5; Spec.stock_91_2]
               = Analyzer.analyze Spec.batch_analyzer Spec.stock_91_2
                 :: [Analyzer.analyze Spec.batch_analyzer Spec.stock_72;
                     Analyzer.analyze Spec.batch_analyzer Spec.stock_45_5]).
  { vm_compute. reflexivity. }
  apply (batch_leader_has_highest_total Spec.batch_analyzer _ _ _ Hb).
  right. left. reflexivity.
Defined.

(* ================================================================== *)
(** * Further properties of the helpers *)

(** ** The growth-trend test *)

Lemma adjacent_increases_strict (values : list Q) :
  Shape.strictly_increasing values ->
  Spec.adjacent_increases values = (length values - 1)%nat.
Proof.
  induction values as [|a values IH]; [reflexivity|].
  destruct values as [|b values]; [reflexivity|].
  intros [Hab Hrest]. specialize (IH Hrest).
  change (Spec.adjacent_increases (a :: b :: values))
    with ((if b >? a then 1 else 0)
          + Spec.adjacent_increases (b :: values))%nat.
  rewrite IH. apply gtb_gt in Hab. rewrite Hab. simpl. lia.
Qed.

Lemma adjacent_increases_none (values : list Q) :
  Shape.never_increasing values -> Spec.adjacent_increases values = 0%nat.
Proof.
  induction values as [|a values IH]; [reflexivity|].
  destruct values as [|b values]; [reflexivity|].
  intros [Hab Hrest]. specialize (IH Hrest).
  change (Spec.adjacent_increases (a :: b :: values))
    with ((if b >? a then 1 else 0)
          + Spec.adjacent_increases (b :: values))%nat.
  rewrite IH. apply gtb_le in Hab. now rewrite Hab.
Qed.

(** X14: a sequence that is growing for some minimum is growing for
    every smaller minimum; and for a minimum of 0 or less every sequence
    of at least two values counts as growing, whatever its values. *)
Theorem growing_trend_threshold (values : list Q) (m m' : Z) :
  (m' <= m)%Z ->
  (Helpers.is_growing_trend values m = true ->
   Helpers.is_growing_trend values m' = true)
  /\ ((m' <= 0)%Z -> (2 <= length values)%nat ->
      Helpers.is_growing_trend values m' = true).
Proof.
  intros Hm. split.
  - intros H. apply growing_trend_iff in H. apply growing_trend_iff.
    split; [tauto|lia].
  - intros H0 Hlen. apply growing_trend_iff. split; [exact Hlen|lia].
Qed.

Lemma growing_trend_threshold_witness :
  Helpers.is_growing_trend [5; 4; 3] 0 = true.
Proof.
  assert (H : (0 <= 3)%Z) by lia.
  apply (proj2 (growing_trend_threshold [5; 4; 3] 3 0 H)).
  - lia.
  - simpl. lia.
Defined.

(** X15: a sequence in which no value exceeds the one before it is never
    growing for a minimum of at least 1; a sequence in which every value
    exceeds the one before it is growing exactly when it has at least
    two values and at least one more value than the minimum. *)
Theorem growing_trend_of_monotone_sequences (values : list Q) (m : Z) :
  (Shape.never_increasing values -> (1 <= m)%Z ->
   Helpers.is_growing_trend values m = false)
  /\ (Shape.strictly_increasing values ->
      (Helpers.is_growing_trend values m = true
       <-> (2 <= length values)%nat /\ (m < Z.of_nat (length values))%Z)).
Proof.
  split.
  - intros Hn Hm. apply not_true_is_false. intros E.
    apply growing_trend_iff in E.
    rewrite (adjacent_increases_none values Hn) in E. lia.
  - intros Hs. rewrite growing_trend_iff.
    rewrite (adjacent_increases_strict values Hs). lia.
Qed.

Lemma growing_trend_of_monotone_sequences_witness :
  Helpers.is_growing_trend [3; 3; 2; 1 # 2] 1 = false
  /\ Helpers.is_growing_trend [1; 2; 3; 4] 3 = true.
Proof.
  split.
  - apply (proj1 (growing_trend_of_monotone_sequences [3; 3; 2; 1 # 2] 1)).
    + simpl. repeat split; unfold Qle; simpl; lia.
    + lia.
  - apply (proj2 (growing_trend_of_monotone_sequences [1; 2; 3; 4] 3)).
    + simpl. repeat split; unfold Qlt; simpl; lia.
    + simpl. split; lia.
Defined.

(* ------------------------------------------------------------------ *)
(** ** Ticker symbols *)

Section Tickers.

Open Scope string_scope.

Ltac all_chars c := destruct c as [[] [] [] [] [] [] [] []].

Lemma upper_char_idem (c : ascii) :
  Str.upper_char (Str.upper_char c) = Str.upper_char c.
Proof. all_chars c; reflexivity. Qed.

Lemma isspace_upper_char (c : ascii) :
  Str.isspace_char (Str.upper_char c) = Str.isspace_char c.
Proof. all_chars c; reflexivity. Qed.

Lemma isalpha_char_not_space (c : ascii) :
  Str.isalpha_char c = true -> Str.isspace_char c = false.
Proof. all_chars c; intros H; try reflexivity; discriminate H. Qed.

Lemma isalpha_char_not_dot (c : ascii) :
  Str.isalpha_char c = true -> c <> "."%char.
Proof. all_chars c; intros H; try discriminate H; discriminate. Qed.

Lemma append_cons (c : ascii) (s t : string) :
  String c s ++ t = String c (s ++ t).
Proof. reflexivity. Qed.

Lemma append_nil_l (t : string) : "" ++ t = t.
Proof. reflexivity. Qed.

Lemma upper_idem (s : string) : Str.upper (Str.upper s) = Str.upper s.
Proof.
  induction s as [|c s IH]; [reflexivity|].
  simpl. now rewrite upper_char_idem, IH.
Qed.

Lemma upper_app (s t : string) :
  Str.upper (s ++ t) = Str.upper s ++ Str.upper t.
Proof. induction s as [|c s IH]; [reflexivity|]. simpl. now rewrite IH. Qed.

Lemma lstrip_upper (s : string) :
  Str.lstrip (Str.upper s) = Str.upper (Str.lstrip s).
Proof.
  induction s as [|c s IH]; [reflexivity|].
  simpl. rewrite isspace_upper_char.
  destruct (Str.isspace_char c); [exact IH|reflexivity].
Qed.

Lemma rstrip_upper (s : string) :
  Str.rstrip (Str.upper s) = Str.upper (Str.rstrip s).
Proof.
  induction s as [|c s IH]; [reflexivity|].
  simpl. rewrite IH, isspace_upper_char.
  destruct (Str.rstrip s); simpl; [|reflexivity].
  destruct (Str.isspace_char c); reflexivity.
Qed.

Lemma strip_upper (s : string) :
  Str.strip (Str.upper s) = Str.upper (Str.strip s).
Proof. unfold Str.strip. now rewrite lstrip_upper, rstrip_upper. Qed.

Lemma lstrip_head (s : string) (c : ascii) (s' : string) :
  Str.lstrip s = String c s' -> Str.isspace_char c = false.
Proof.
  induction s as [|d s IH]; [discriminate|].
  simpl. destruct (Str.isspace_char d) eqn:E; [exact IH|].
  intros H. injection H as -> _. exact E.
Qed.

Lemma rstrip_keeps_head (c : ascii) (s : string) :
  Str.isspace_char c = false ->
  exists r, Str.rstrip (String c s) = String c r.
Proof.
  intros E. simpl. destruct (Str.rstrip s).
  - rewrite E. now exists "".
  - eexists. reflexivity.
Qed.

Lemma rstrip_idem (s : string) : Str.rstrip (Str.rstrip s) = Str.rstrip s.
Proof.
  induction s as [|c s IH]; [reflexivity|].
  simpl. destruct (Str.rstrip s) as [|d r] eqn:E.
  - destruct (Str.isspace_char c) eqn:Ec; [reflexivity|].
    simpl. now rewrite Ec.
  - change (Str.rstrip (String c (String d r)))
      with (match Str.rstrip (String d r) with
            | "" => if Str.isspace_char c then "" else String c ""
            | r' => String c r'
            end).
    now rewrite IH.
Qed.

Lemma strip_idem (s : string) : Str.strip (Str.strip s) = Str.strip s.
Proof.
  unfold Str.strip.
  destruct (Str.lstrip s) as [|c s'] eqn:E; [reflexivity|].
  pose proof (lstrip_head s c s' E) as Hc.
  destruct (rstrip_keeps_head c s' Hc) as [r Hr].
  rewrite Hr. cbn [Str.lstrip]. rewrite Hc.
  rewrite <- Hr. apply rstrip_idem.
Qed.

Lemma rstrip_suffix_JK (s : string) :
  Str.rstrip (s ++ ".JK") = s ++ ".JK".
Proof.
  induction s as [|c s IH]; [reflexivity|].
  rewrite append_cons. cbn [Str.rstrip]. rewrite IH.
  destruct s; reflexivity.
Qed.

Lemma contains_dot_cons (c : ascii) (s : string) :
  Str.contains "." (String c s)
  = if Ascii.eqb c "." then true else Str.contains "." s.
Proof.
  cbn [Str.contains String.prefix].
  destruct (ascii_dec "." c) as [<-|Hne].
  - destruct s; reflexivity.
  - destruct (Ascii.eqb c ".") eqn:E; [|reflexivity].
    apply Ascii.eqb_eq in E. congruence.
Qed.

Lemma contains_dot_suffix (s rest : string) :
  Str.contains "." (s ++ String "." rest) = true.
Proof.
  induction s as [|c s IH].
  - rewrite append_nil_l. now rewrite contains_dot_cons.
  - rewrite append_cons, contains_dot_cons, IH.
    now destruct (Ascii.eqb c ".").
Qed.

Lemma isalpha_no_dot (s : string) :
  Str.isalpha s = true -> Str.contains "." s = false.
Proof.
  destruct s as [|c0 s0]; [reflexivity|]. unfold Str.isalpha.
  generalize (String c0 s0). clear. intros s.
  induction s as [|c s IH]; [reflexivity|].
  cbn [list_ascii_of_string forallb]. intros H.
  apply andb_true_iff in H. destruct H as [Hc Hs].
  rewrite contains_dot_cons, (IH Hs).
  destruct (Ascii.eqb c ".") eqn:E; [|reflexivity].
  apply Ascii.eqb_eq in E. now apply isalpha_char_not_dot in Hc.
Qed.

Lemma isalpha_lstrip (s : string) :
  Str.isalpha s = true -> Str.lstrip s = s.
Proof.
  destruct s as [|c s]; [reflexivity|]. unfold Str.isalpha.
  cbn [list_ascii_of_string forallb]. intros H.
  apply andb_true_iff in H. destruct H as [Hc _].
  cbn [Str.lstrip]. now rewrite (isalpha_char_not_space c Hc).
Qed.

(** The head piece of a split at the dots. *)
Lemma split_head_no_dot (s : string) :
  Str.contains "." (hd "" (Str.split "." s)) = false.
Proof.
  induction s as [|c s IH]; [reflexivity|].
  cbn [Str.split]. destruct (Ascii.eqb c ".") eqn:E; [reflexivity|].
  destruct (Str.split "." s) as [|piece pieces]; cbn [hd] in *.
  - now rewrite contains_dot_cons, E.
  - now rewrite contains_dot_cons, E.
Qed.

Lemma split_head_of_no_dot (s : string) :
  Str.contains "." s = false -> hd "" (Str.split "." s) = s.
Proof.
  induction s as [|c s IH]; [reflexivity|].
  rewrite contains_dot_cons. cbn [Str.split].
  destruct (Ascii.eqb c "."); [discriminate|]. intros H.
  specialize (IH H).
  destruct (Str.split "." s) as [|piece pieces]; cbn [hd] in *.
  - now rewrite <- IH.
  - now rewrite IH.
Qed.

Lemma split_head_before_dot (s rest : string) :
  Str.contains "." s = false ->
  hd "" (Str.split "." (s ++ String "." rest)) = s.
Proof.
  induction s as [|c s IH].
  - intros _. rewrite append_nil_l. reflexivity.
  - rewrite contains_dot_cons, append_cons. cbn [Str.split].
    destruct (Ascii.eqb c "."); [discriminate|]. intros H.
    specialize (IH H).
    destruct (Str.split "." (s ++ String "." rest)) as [|piece pieces];
      cbn [hd] in *.
    + now rewrite <- IH.
    + now rewrite IH.
Qed.

Lemma split_head_prefix (s : string) :
  String.prefix (hd "" (Str.split "." s)) s = true.
Proof.
  induction s as [|c s IH]; [reflexivity|].
  cbn [Str.split]. destruct (Ascii.eqb c "."); [reflexivity|].
  destruct (Str.split "." s) as [|piece pieces]; cbn [hd] in *.
  - cbn [String.prefix]. destruct (ascii_dec c c); [|congruence].
    destruct s; reflexivity.
  - cbn [String.prefix]. destruct (ascii_dec c c); [exact IH|congruence].
Qed.

Lemma normalize_ticker_of (ticker : string) :
  let u := Str.upper (Str.strip ticker) in
  Helpers.normalize_ticker ticker
  = if Str.isalpha u then u ++ ".JK" else u.
Proof.
  cbv zeta. unfold Helpers.normalize_ticker. cbv zeta.
  destruct (Str.isalpha (Str.upper (Str.strip ticker))) eqn:E;
    [|reflexivity].
  now rewrite (isalpha_no_dot _ E).
Qed.

(** X17: normalising an ASCII ticker twice gives what normalising it once
    gives. *)
Theorem normalize_ticker_idempotent (ticker : string) :
  Str.is_ascii ticker = true ->
  Helpers.normalize_ticker (Helpers.normalize_ticker ticker)
  = Helpers.normalize_ticker ticker.
Proof.
  intros _. rewrite (normalize_ticker_of ticker). cbv zeta.
  set (u := Str.upper (Str.strip ticker)).
  assert (Hu : Str.upper (Str.strip u) = u).
  { unfold u. now rewrite strip_upper, strip_idem, upper_idem. }
  destruct (Str.isalpha u) eqn:E.
  - unfold Helpers.normalize_ticker. cbv zeta.
    assert (Hs : Str.upper (Str.strip (u ++ ".JK")) = u ++ ".JK").
    { unfold Str.strip.
      assert (Hl : Str.lstrip (u ++ ".JK") = u ++ ".JK").
      { destruct u as [|c u']; [discriminate E|].
        unfold Str.isalpha in E. cbn [list_ascii_of_string forallb] in E.
        apply andb_true_iff in E. destruct E as [Hc _].
        rewrite append_cons. cbn [Str.lstrip].
        now rewrite (isalpha_char_not_space c Hc). }
      rewrite Hl, rstrip_suffix_JK, upper_app.
      unfold u at 1. now rewrite upper_idem. }
    rewrite Hs, contains_dot_suffix, andb_false_r. reflexivity.
  - rewrite (normalize_ticker_of u). cbv zeta. rewrite Hu. now rewrite E.
Qed.

Lemma normalize_ticker_idempotent_witness :
  Helpers.normalize_ticker (Helpers.normalize_ticker "  bbca ")
  = Helpers.normalize_ticker "  bbca ".
Proof. apply (normalize_ticker_idempotent "  bbca "). reflexivity. Defined.

(** X18: for an ASCII ticker, let u be the ticker stripped of surrounding
    blanks and put in upper case.  When u consists of letters only, the
    normalised ticker is u followed by ".JK", and removing the suffix
    gives u back; otherwise the normalised ticker is u itself. *)
Theorem normalize_ticker_suffix_round_trip (ticker : string) :
  Str.is_ascii ticker = true ->
  let u := Str.upper (Str.strip ticker) in
  (Str.isalpha u = true ->
   Helpers.normalize_ticker ticker = u ++ ".JK"
   /\ Helpers.get_ticker_without_suffix (Helpers.normalize_ticker ticker) = u)
  /\ (Str.isalpha u = false -> Helpers.normalize_ticker ticker = u).
Proof.
  intros _ u. pose proof (normalize_ticker_of ticker) as H.
  cbv zeta in H. fold u in H. split.
  - intros E. rewrite E in H. split; [exact H|]. rewrite H.
    unfold Helpers.get_ticker_without_suffix.
    rewrite contains_dot_suffix.
    apply split_head_before_dot. now apply isalpha_no_dot.
  - intros E. now rewrite E in H.
Qed.

Lemma normalize_ticker_suffix_round_trip_witness :
  Helpers.normalize_ticker "tlkm" = "TLKM.JK"
  /\ Helpers.get_ticker_without_suffix (Helpers.normalize_ticker "tlkm")
     = "TLKM"
  /\ Helpers.normalize_ticker "^jkse" = "^JKSE".
Proof.
  pose proof (normalize_ticker_suffix_round_trip "tlkm" eq_refl) as H1.
  pose proof (normalize_ticker_suffix_round_trip "^jkse" eq_refl) as H2.
  cbv zeta in H1, H2. destruct H1 as [H1 _]. destruct H2 as [_ H2].
  destruct (H1 eq_refl) as [Ha Hb].
  split; [exact Ha|]. split; [exact Hb|]. exact (H2 eq_refl).
Defined.

(** X19: the ticker without its suffix contains no dot, is a prefix of
    the ticker, is the ticker itself when that has no dot, and taking
    the suffix off a second time changes nothing. *)
Theorem ticker_without_suffix_has_no_dot (ticker : string) :
  let base := Helpers.get_ticker_without_suffix ticker in
  Str.contains "." base = false
  /\ String.prefix base ticker = true
  /\ (Str.contains "." ticker = false -> base = ticker)
  /\ Helpers.get_ticker_without_suffix base = base.
Proof.
  cbv zeta.
  assert (Hno : Str.contains "."
                  (Helpers.get_ticker_without_suffix ticker) = false).
  { unfold Helpers.get_ticker_without_suffix.
    destruct (Str.contains "." ticker) eqn:E; [|exact E].
    apply split_head_no_dot. }
  split; [exact Hno|]. split; [|split].
  - unfold Helpers.get_ticker_without_suffix.
    destruct (Str.contains "." ticker); [apply split_head_prefix|].
    clear. induction ticker as [|c s IH]; [reflexivity|].
    cbn [String.prefix]. destruct (ascii_dec c c); [exact IH|congruence].
  - intros E. unfold Helpers.get_ticker_without_suffix. now rewrite E.
  - unfold Helpers.get_ticker_without_suffix at 1. now rewrite Hno.
Qed.

Lemma ticker_without_suffix_has_no_dot_witness :
  Helpers.get_ticker_without_suffix "BBCA" = "BBCA".
Proof.
  pose proof (ticker_without_suffix_has_no_dot "BBCA") as H.
  cbv zeta in H. destruct H as (_ & _ & H & _). apply H. reflexivity.
Defined.

End Tickers.

(* ================================================================== *)
(** * Further properties of the completeness score *)

Lemma of_nat_succ_Q (n : nat) :
  inject_Z (Z.of_nat (S n)) == inject_Z (Z.of_nat n) + 1.
Proof.
  rewrite Nat2Z.inj_succ. unfold Z.succ. rewrite inject_Z_plus. reflexivity.
Qed.

(** The two running weights after a pass over some fields. *)
Lemma quality_fold (w : Q) (fields : list (option Q)) (t a t' a' : Q) :
  fold_left (DataLayer.quality_step w) fields (t, a) = (t', a') ->
  t' == t + w * inject_Z (Z.of_nat (length fields))
  /\ a' == a + w * inject_Z (Z.of_nat (Shape.present fields)).
Proof.
  revert t a. induction fields as [|field fields IH]; intros t a H.
  - injection H as <- <-. unfold Shape.present.
    cbn [length List.filter Z.of_nat]. change (inject_Z 0) with 0.
    split; ring.
  - cbn [fold_left DataLayer.quality_step] in H.
    apply IH in H. destruct H as [Ht Ha].
    unfold Shape.present in *. cbn [List.filter length].
    rewrite Ht, Ha. rewrite of_nat_succ_Q.
    destruct (Stock.is_not_None field); cbn [length];
      rewrite ?of_nat_succ_Q; split; ring.
Qed.

Lemma present_le_length (fields : list (option Q)) :
  (Shape.present fields <= length fields)%nat.
Proof. unfold Shape.present. apply List.filter_length_le. Qed.

(** The completeness score as a count of present fields. *)
Lemma quality_counts (sd : Stock.StockData) :
  Shape.quality_of sd
  == inject_Z (Z.of_nat (2 * Shape.present (Shape.critical_fields sd)
                         + Shape.present (Shape.additional_fields sd)))
     * (100 # 21).
Proof.
  unfold Shape.quality_of, DataLayer._calculate_data_quality. cbv zeta.
  fold (Shape.critical_fields sd). fold (Shape.additional_fields sd).
  pose proof (present_le_length (Shape.critical_fields sd)) as Hc.
  pose proof (present_le_length (Shape.additional_fields sd)) as Ha.
  change (length (Shape.critical_fields sd)) with 8%nat in Hc.
  change (length (Shape.additional_fields sd)) with 5%nat in Ha.
  destruct (fold_left (DataLayer.quality_step 1) (Shape.critical_fields sd)
              (0, 0)) as [t1 a1] eqn:E1.
  apply quality_fold in E1. destruct E1 as [Ht1 Ha1].
  destruct (fold_left (DataLayer.quality_step (1 # 2))
              (Shape.additional_fields sd) (t1, a1)) as [t2 a2] eqn:E2.
  apply quality_fold in E2. destruct E2 as [Ht2 Ha2].
  change (length (Shape.critical_fields sd)) with 8%nat in Ht1.
  change (length (Shape.additional_fields sd)) with 5%nat in Ht2.
  set (c := Shape.present (Shape.critical_fields sd)) in *.
  set (a := Shape.present (Shape.additional_fields sd)) in *.
  assert (Htotal : t2 == 21 # 2).
  { rewrite Ht2, Ht1. reflexivity. }
  assert (Hach : a2 == inject_Z (Z.of_nat c) + (1 # 2) * inject_Z (Z.of_nat a)).
  { rewrite Ha2, Ha1. ring. }
  assert (Hsum : inject_Z (Z.of_nat (2 * c + a))
                 == 2 * inject_Z (Z.of_nat c) + inject_Z (Z.of_nat a)).
  { rewrite Nat2Z.inj_add, Nat2Z.inj_mul, inject_Z_plus, inject_Z_mult.
    reflexivity. }
  assert (Hle : inject_Z (Z.of_nat (2 * c + a)) <= 21).
  { change 21 with (inject_Z 21). rewrite <- Zle_Qle. lia. }
  destruct (Qeq_bool t2 0) eqn:E0.
  { apply Qeq_bool_iff in E0. rewrite Htotal in E0. discriminate E0. }
  assert (Hq : a2 / t2 * 100
               == inject_Z (Z.of_nat (2 * c + a)) * (100 # 21)).
  { rewrite Htotal, Hach, Hsum. field. }
  unfold Num.min. destruct (a2 / t2 * 100 <=? 100) eqn:Em; [exact Hq|].
  apply leb_gt in Em. rewrite Hq in Em. lra.
Qed.

(** X20: the completeness score lies between 0 and 100; it is 100
    exactly when the eight critical and the five additional fields are
    all present, and 0 exactly when none of them is. *)
Theorem data_quality_range_and_extremes (sd : Stock.StockData) :
  let c := Shape.present (Shape.critical_fields sd) in
  let a := Shape.present (Shape.additional_fields sd) in
  0 <= Shape.quality_of sd <= 100
  /\ (Shape.quality_of sd == 100 <-> c = 8%nat /\ a = 5%nat)
  /\ (Shape.quality_of sd == 0 <-> c = 0%nat /\ a = 0%nat).
Proof.
  cbv zeta. rewrite (quality_counts sd).
  pose proof (present_le_length (Shape.critical_fields sd)) as Hc.
  pose proof (present_le_length (Shape.additional_fields sd)) as Ha.
  change (length (Shape.critical_fields sd)) with 8%nat in Hc.
  change (length (Shape.additional_fields sd)) with 5%nat in Ha.
  set (c := Shape.present (Shape.critical_fields sd)) in *.
  set (a := Shape.present (Shape.additional_fields sd)) in *.
  assert (H0 : 0 <= inject_Z (Z.of_nat (2 * c + a))).
  { change 0 with (inject_Z 0). rewrite <- Zle_Qle. lia. }
  assert (H21 : inject_Z (Z.of_nat (2 * c + a)) <= 21).
  { change 21 with (inject_Z 21). rewrite <- Zle_Qle. lia. }
  assert (Hinj : forall k : Z,
            inject_Z (Z.of_nat (2 * c + a)) * (100 # 21)
            == inject_Z k * (100 # 21) ->
            Z.of_nat (2 * c + a) = k).
  { intros k E. apply inject_Z_injective.
    generalize dependent (inject_Z (Z.of_nat (2 * c + a))).
    generalize (inject_Z k). intros y x _ _ E. lra. }
  split; [split; lra|]. split; split.
  - intros E. specialize (Hinj 21%Z). rewrite E in Hinj.
    assert (Z.of_nat (2 * c + a) = 21%Z) by (apply Hinj; reflexivity).
    lia.
  - intros [-> ->]. reflexivity.
  - intros E. specialize (Hinj 0%Z). rewrite E in Hinj.
    assert (Z.of_nat (2 * c + a) = 0%Z) by (apply Hinj; reflexivity).
    lia.
  - intros [-> ->]. reflexivity.
Qed.

Lemma missing_metric_lowers_count (sd : Stock.StockData) :
  Spec.required_metric_missing sd ->
  (Shape.present (Shape.critical_fields sd) <= 7)%nat.
Proof.
  unfold Spec.required_metric_missing, Shape.present, Shape.critical_fields.
  intros H.
  destruct (Stock.pe_ratio (Stock.valuation sd));
    destruct (Stock.price_to_book (Stock.valuation sd));
    destruct (Stock.roe (Stock.profitability sd));
    destruct (Stock.gross_margin (Stock.profitability sd));
    destruct (Stock.debt_to_equity (Stock.leverage sd));
    destruct (Stock.market_cap (Stock.valuation sd));
    destruct (Stock.eps (Stock.profitability sd));
    destruct (Stock.operating_cash_flow (Stock.cash_flow sd));
    simpl; try lia;
    repeat destruct H as [H|H]; discriminate H.
Qed.

(** X21: when one of the five required metrics is absent, the
    completeness score is at most 1900/21 (about 90.5); so for a record
    built by the data layer, a flag for incomplete data in the finished
    result goes with a completeness below 100. *)
Theorem incomplete_flag_implies_low_quality
  (self : Analyzer.FundamentalAnalyzer) (ci : Stock.CompanyInfo)
  (valuation : Stock.ValuationMetrics)
  (profitability : Stock.ProfitabilityMetrics)
  (cash_flow : Stock.CashFlowMetrics) (leverage : Stock.LeverageMetrics)
  (dividend : Stock.DividendMetrics) (price : Stock.PriceMetrics) :
  let sd := DataLayer.build_stock_data ci valuation profitability cash_flow
              leverage dividend price in
  let r := Analyzer.analyze self sd in
  (Spec.required_metric_missing sd -> Shape.quality_of sd <= 1900 # 21)
  /\ (In Analyzer.incomplete_data_flag (Result.red_flags r) ->
      Result.data_completeness r <= 1900 # 21).
Proof.
  cbv zeta.
  set (sd := DataLayer.build_stock_data ci valuation profitability cash_flow
               leverage dividend price).
  assert (Hlow : Spec.required_metric_missing sd ->
                 Shape.quality_of sd <= 1900 # 21).
  { intros Hm. rewrite (quality_counts sd).
    pose proof (missing_metric_lowers_count sd Hm) as Hc.
    pose proof (present_le_length (Shape.additional_fields sd)) as Ha.
    change (length (Shape.additional_fields sd)) with 5%nat in Ha.
    assert (H19 : inject_Z (Z.of_nat
                    (2 * Shape.present (Shape.critical_fields sd)
                     + Shape.present (Shape.additional_fields sd))) <= 19).
    { change 19 with (inject_Z 19). rewrite <- Zle_Qle. lia. }
    lra. }
  split; [exact Hlow|]. intros Hflag.
  destruct (analyze_red_flags self sd) as [more [Hflags Hmore]].
  destruct (analyze_shape self sd)
    as (_ & _ & _ & _ & _ & _ & _ & _ & _ & _ & _ & _ & _ & _ & Hd & _).
  rewrite Hd.
  assert (Hm : Spec.required_metric_missing sd).
  { apply has_complete_data_false.
    destruct (Stock.has_complete_data sd); [|reflexivity].
    rewrite Hflags in Hflag. simpl in Hflag. contradiction. }
  specialize (Hlow Hm).
  assert (Hq : Stock.data_quality_score sd = Some (Shape.quality_of sd)).
  { unfold Shape.quality_of, sd, DataLayer.build_stock_data.
    cbn [Stock.data_quality_score Stock.valuation Stock.profitability
         Stock.cash_flow Stock.leverage Stock.dividend].
    reflexivity. }
  rewrite Hq. unfold Analyzer.quality_or_zero.
  destruct (Num.truthy (Shape.quality_of sd)); [exact Hlow|].
  unfold Qle. simpl. lia.
Qed.

Lemma incomplete_flag_implies_low_quality_witness :
  Shape.quality_of
    (DataLayer.build_stock_data Spec.sample_company
       Stock.default_ValuationMetrics Stock.default_ProfitabilityMetrics
       Stock.default_CashFlowMetrics Stock.default_LeverageMetrics
       Stock.default_DividendMetrics Stock.default_PriceMetrics)
  <= 1900 # 21.
Proof.
  pose proof (incomplete_flag_implies_low_quality
    Analyzer.default_FundamentalAnalyzer Spec.sample_company
    Stock.default_ValuationMetrics Stock.default_ProfitabilityMetrics
    Stock.default_CashFlowMetrics Stock.default_LeverageMetrics
    Stock.default_DividendMetrics Stock.default_PriceMetrics) as H.
  cbv zeta in H. destruct H as [H _]. apply H. left. reflexivity.
Defined.

(* ================================================================== *)
(** * Further properties of the result model *)

(** X22: adding an insight appends it to the view of its own category
    and to the view of its own severity and leaves the view of every
    other category and severity as it was; adding a red flag, a strength
    or a weakness changes no view, neither by category nor by severity. *)
Theorem insight_views_follow_additions
  (c sev t : string) (d : message) (imp : option string)
  (self : Result.ScreeningResult) (key : string) (msg : message) :
  let added := Result.add_insight c sev t d imp self in
  let new := {| Result.insight_category := c; Result.severity := sev;
                Result.title := t; Result.description := d;
                Result.impact := imp |} in
  Result.get_insights_by_category key added
  = Result.get_insights_by_category key self
    ++ (if String.eqb c key then [new] else [])
  /\ Result.get_insights_by_severity key added
     = Result.get_insights_by_severity key self
       ++ (if String.eqb sev key then [new] else [])
  /\ Result.get_insights_by_category c added
     = Result.get_insights_by_category c self ++ [new]
  /\ Result.get_insights_by_category key (Result.add_red_flag msg self)
     = Result.get_insights_by_category key self
  /\ Result.get_insights_by_category key (Result.add_strength msg self)
     = Result.get_insights_by_category key self
  /\ Result.get_insights_by_category key (Result.add_weakness msg self)
     = Result.get_insights_by_category key self
  /\ Result.get_insights_by_severity sev added
     = Result.get_insights_by_severity sev self ++ [new]
  /\ Result.get_insights_by_severity key (Result.add_red_flag msg self)
     = Result.get_insights_by_severity key self
  /\ Result.get_insights_by_severity key (Result.add_strength msg self)
     = Result.get_insights_by_severity key self
  /\ Result.get_insights_by_severity key (Result.add_weakness msg self)
     = Result.get_insights_by_severity key self.
Proof.
  cbv zeta.
  unfold Result.get_insights_by_category, Result.get_insights_by_severity,
    Result.add_insight.
  cbn [Result.insights Result.add_red_flag Result.add_strength
       Result.add_weakness].
  rewrite !List.filter_app. cbn [List.filter Result.insight_category
                                 Result.severity].
  rewrite !String.eqb_refl. repeat split.
Qed.
